(** * AstroGrannyBot: the natal-chart bot of [telegram_bot.py]

    A shallow embedding of the validators, the chart calculator and the
    conversation handlers, with the properties of the specification
    stated and settled against it.

    Conventions.
    - A Python [str] is a [string]; literals of the source are written
      as they are.  The parsers of the source look at ASCII characters
      only, except [\d] of [datetime.strptime], which in CPython also
      takes the non-ASCII decimal digits: texts with such digits are
      outside this model.
    - A Python [float] is a rational [Q]: degrees, coordinates and
      julian days are exact, [nan] and the infinities are not
      represented.
    - A raised exception is a value [Raise e]; handlers run in a state
      monad over the session ([context.user_data]), the log of the
      calls made to the ephemeris and the messages sent. *)

From Stdlib Require Import ZArith QArith Qround Qabs Ascii String List Bool.
From Stdlib Require Import Lia Lqa.
From Stdlib Require Import DecimalString.
From stdpp Require Import gmap strings.
Import ListNotations.

Local Open Scope string_scope.
Local Open Scope Z_scope.
Local Open Scope list_scope.

(** ** Exceptions and results *)

Inductive exn : Type :=
| ValueError (msg : string)
| IndexError
| KeyError (key : string)
| TypeError
| Sqlite3Error (msg : string).

Inductive result (A : Type) : Type :=
| Ok (a : A)
| Raise (e : exn).

Arguments Ok {A} a.
Arguments Raise {A} e.

Definition rbind {A B : Type} (r : result A) (k : A -> result B) : result B :=
  match r with
  | Ok a => k a
  | Raise e => Raise e
  end.

(** [try: body except ValueError: handler] on a pure computation. *)
Definition try_except_ValueError {A : Type}
    (body : result A) (handler : string -> result A) : result A :=
  match body with
  | Raise (ValueError msg) => handler msg
  | other => other
  end.

(** [str(e)] of the exception a computation ended with, if it is a
    [ValueError]. *)
Definition raised_message {A : Type} (r : result A) : string :=
  match r with
  | Raise (ValueError msg) => msg
  | _ => EmptyString
  end.

(** ** Python primitives used by the source *)

(** [l[i]] on a list: negative indexes count from the end, anything
    outside [-len, len) raises [IndexError]. *)
Definition py_index {A : Type} (l : list A) (i : Z) : result A :=
  let n := Z.of_nat (List.length l) in
  let j := if i <? 0 then i + n else i in
  if (0 <=? j) && (j <? n)
  then match nth_error l (Z.to_nat j) with
       | Some a => Ok a
       | None => Raise IndexError
       end
  else Raise IndexError.

(** [int(x // y)] on floats, read on exact rationals. *)
Definition floordiv_int (x y : Q) : Z := Qfloor (x / y).

(** ** The zodiac *)

Definition signs : list string :=
  [ "Овен"; "Телец"; "Близнецы"; "Рак"; "Лев"; "Дева";
    "Весы"; "Скорпион"; "Стрелец"; "Козерог"; "Водолей"; "Рыбы" ].

Definition get_zodiac_sign (degree : Q) : result string :=
  py_index signs (floordiv_int degree 30).

(** The value of the float literal [359.999]: the double nearest to it. *)
Definition float_359_999 : Q := 1583292345950929 # 4398046511104.

(** ** Characters and strings *)

Definition code (c : ascii) : Z := Z.of_nat (nat_of_ascii c).

Definition in_class (lo hi c : ascii) : bool :=
  (code lo <=? code c) && (code c <=? code hi).

Definition is_digit (c : ascii) : bool := in_class "0" "9" c.

Definition digit_val (c : ascii) : Z := code c - 48.

(** ASCII white space as [str.strip], [int] and [\s] see it. *)
Definition is_space (c : ascii) : bool :=
  let n := code c in
  ((9 <=? n) && (n <=? 13)) || ((28 <=? n) && (n <=? 32)).

Fixpoint all_digits (s : string) : bool :=
  match s with
  | EmptyString => true
  | String c r => is_digit c && all_digits r
  end.

Fixpoint digits_value (acc : Z) (s : string) : Z :=
  match s with
  | EmptyString => acc
  | String c r => digits_value (10 * acc + digit_val c) r
  end.

Fixpoint lstrip (s : string) : string :=
  match s with
  | String c r => if is_space c then lstrip r else s
  | EmptyString => EmptyString
  end.

Fixpoint rstrip (s : string) : string :=
  match s with
  | EmptyString => EmptyString
  | String c r =>
      match rstrip r with
      | EmptyString => if is_space c then EmptyString else String c EmptyString
      | r' => String c r'
      end
  end.

Definition strip (s : string) : string := lstrip (rstrip s).

Definition invalid_literal : exn :=
  ValueError "invalid literal for int() with base 10".

(** [int(s)] for a text: surrounding white space is dropped, then an
    optional sign and decimal digits (digit groups separated by
    underscores, which [int] also takes, are not modelled). *)
Definition py_int (s : string) : result Z :=
  let unsigned (t : string) (sgn : Z) : result Z :=
    match t with
    | EmptyString => Raise invalid_literal
    | _ => if all_digits t then Ok (sgn * digits_value 0 t)
           else Raise invalid_literal
    end in
  match strip s with
  | String "-" t => unsigned t (-1)
  | String "+" t => unsigned t 1
  | t => unsigned t 1
  end.

(** [str(n)] of an [int], as an f-string field prints it. *)
Definition py_str (n : Z) : string :=
  DecimalString.NilZero.string_of_int (Z.to_int n).

(** [s.split(sep)] for a separator of one character. *)
Fixpoint split_on (sep : ascii) (s : string) : list string :=
  match s with
  | EmptyString => [EmptyString]
  | String c r =>
      if Ascii.eqb c sep then EmptyString :: split_on sep r
      else match split_on sep r with
           | w :: ws => String c w :: ws
           | [] => [String c EmptyString]
           end
  end.

Fixpoint take (n : nat) (s : string) : string :=
  match n, s with
  | S k, String c r => String c (take k r)
  | _, _ => EmptyString
  end.

(** ** Regular expressions: the fragment of [re] the source and
    [_strptime] use, with the backtracking order of [re] *)

Inductive regex : Type :=
| Chr (c : ascii)
| Cls (lo hi : ascii)
| AnyDigit
| AnySpace
| Seq (r1 r2 : regex)
| Alt (r1 r2 : regex)
| Plus (r : regex)
| Group (name : string) (r : regex)
| Bol
| Eol
| Eps.

(** A position in the text: the number of characters consumed, what
    is left, and the named groups closed so far. *)
Record mstate : Type := MState {
  m_pos : nat;
  m_rest : string;
  m_groups : list (string * string)
}.

Definition eat (p : ascii -> bool) (st : mstate) : list (string * mstate) :=
  match m_rest st with
  | String c r =>
      if p c
      then [(String c EmptyString, MState (S (m_pos st)) r (m_groups st))]
      else []
  | EmptyString => []
  end.

Definition prefixed (t1 : string) (ms : list (string * mstate))
    : list (string * mstate) :=
  map (fun m => (t1 +:+ fst m, snd m)) ms.

(** Greedy repetition, one or more times; an iteration that consumes
    nothing ends it. *)
Fixpoint plus_iter (step : mstate -> list (string * mstate)) (fuel : nat)
    (st : mstate) : list (string * mstate) :=
  match fuel with
  | O => []
  | S k =>
      flat_map (fun m1 =>
                  match fst m1 with
                  | EmptyString => [m1]
                  | _ => prefixed (fst m1) (plus_iter step k (snd m1)) ++ [m1]
                  end)
               (step st)
  end.

(** All the ways [r] matches at [st], in the order [re] tries them,
    each with the text it matched. *)
Fixpoint rmatch (r : regex) (st : mstate) : list (string * mstate) :=
  match r with
  | Chr c => eat (Ascii.eqb c) st
  | Cls lo hi => eat (in_class lo hi) st
  | AnyDigit => eat is_digit st
  | AnySpace => eat is_space st
  | Seq r1 r2 =>
      flat_map (fun m1 => prefixed (fst m1) (rmatch r2 (snd m1))) (rmatch r1 st)
  | Alt r1 r2 => rmatch r1 st ++ rmatch r2 st
  | Plus r1 => plus_iter (rmatch r1) (S (String.length (m_rest st))) st
  | Group name r1 =>
      map (fun m1 =>
             (fst m1,
              MState (m_pos (snd m1)) (m_rest (snd m1))
                     ((name, fst m1) :: m_groups (snd m1))))
          (rmatch r1 st)
  | Bol => if (m_pos st =? 0)%nat then [(EmptyString, st)] else []
  | Eol => match m_rest st with
           | EmptyString => [(EmptyString, st)]
           | String c EmptyString =>
               if Ascii.eqb c "010" then [(EmptyString, st)] else []
           | _ => []
           end
  | Eps => [(EmptyString, st)]
  end.

(** [re.match(r, s)]: the first match at the start of [s], if any. *)
Definition re_match (r : regex) (s : string) : option mstate :=
  match rmatch r (MState 0 s []) with
  | m :: _ => Some (snd m)
  | [] => None
  end.

Fixpoint group (name : string) (gs : list (string * string)) : option string :=
  match gs with
  | [] => None
  | (n, v) :: rest => if String.eqb n name then Some v else group name rest
  end.

Fixpoint seq_all (rs : list regex) : regex :=
  match rs with
  | [] => Eps
  | [r] => r
  | r :: rest => Seq r (seq_all rest)
  end.

Fixpoint alts (rs : list regex) : regex :=
  match rs with
  | [] => Eps
  | [r] => r
  | r :: rest => Alt r (alts rest)
  end.

(** ** [datetime] and [datetime.strptime] *)

Record datetime : Type := DateTime {
  year : Z; month : Z; day : Z; hour : Z; minute : Z; second : Z
}.

Definition is_leap (y : Z) : bool :=
  (y mod 4 =? 0) && (negb (y mod 100 =? 0) || (y mod 400 =? 0)).

Definition days_in_month (y m : Z) : Z :=
  if m =? 2 then (if is_leap y then 29 else 28)
  else if (m =? 4) || (m =? 6) || (m =? 9) || (m =? 11) then 30
  else 31.

Definition between (lo x hi : Z) : bool := (lo <=? x) && (x <=? hi).

(** The constructor [datetime(year, month, day, hour, minute, second)]
    with its range checks. *)
Definition mk_datetime (y m d H M S : Z) : result datetime :=
  if negb (between 1 y 9999)
  then Raise (ValueError ("year " +:+ py_str y +:+ " is out of range"))
  else if negb (between 1 m 12) then Raise (ValueError "month must be in 1..12")
  else if negb (between 1 d (days_in_month y m))
       then Raise (ValueError "day is out of range for month")
  else if negb (between 0 H 23) then Raise (ValueError "hour must be in 0..23")
  else if negb (between 0 M 59) then Raise (ValueError "minute must be in 0..59")
  else if negb (between 0 S 59) then Raise (ValueError "second must be in 0..59")
  else Ok (DateTime y m d H M S).

(** The table of [_strptime.TimeRE] for the directives of the two
    formats of the source; any other directive is a bad directive. *)
Definition time_re (directive : ascii) : option regex :=
  match directive with
  | "d"%char =>
      Some (Group "d" (alts [ Seq (Chr "3") (Cls "0" "1");
                              Seq (Cls "1" "2") AnyDigit;
                              Seq (Chr "0") (Cls "1" "9");
                              Cls "1" "9";
                              Seq (Chr " ") (Cls "1" "9") ]))
  | "m"%char =>
      Some (Group "m" (alts [ Seq (Chr "1") (Cls "0" "2");
                              Seq (Chr "0") (Cls "1" "9");
                              Cls "1" "9" ]))
  | "Y"%char =>
      Some (Group "Y" (seq_all [AnyDigit; AnyDigit; AnyDigit; AnyDigit]))
  | "H"%char =>
      Some (Group "H" (alts [ Seq (Chr "2") (Cls "0" "3");
                              Seq (Cls "0" "1") AnyDigit;
                              AnyDigit ]))
  | "M"%char =>
      Some (Group "M" (alts [ Seq (Cls "0" "5") AnyDigit; AnyDigit ]))
  | "S"%char =>
      Some (Group "S" (alts [ Seq (Chr "6") (Cls "0" "1");
                              Seq (Cls "0" "5") AnyDigit;
                              AnyDigit ]))
  | _ => None
  end.

(** [TimeRE.pattern]: a directive becomes its regex, a run of white
    space becomes [\s+], any other character stands for itself. *)
Fixpoint pattern (after_space : bool) (format : string) : option (list regex) :=
  match format with
  | EmptyString => Some []
  | String "%" EmptyString => None
  | String "%" (String directive rest) =>
      match time_re directive, pattern false rest with
      | Some r, Some rs => Some (r :: rs)
      | _, _ => None
      end
  | String c rest =>
      if is_space c then
        match pattern true rest with
        | Some rs => Some (if after_space then rs else Plus AnySpace :: rs)
        | None => None
        end
      else
        match pattern false rest with
        | Some rs => Some (Chr c :: rs)
        | None => None
        end
  end.

(** [repr] of a text without quotes, backslashes or control characters. *)
Definition py_repr (s : string) : string := "'" +:+ s +:+ "'".

Definition field (name : string) (default : Z) (found : mstate) : result Z :=
  match group name (m_groups found) with
  | Some text => py_int text
  | None => Ok default
  end.

Definition strptime (data_string format : string) : result datetime :=
  match pattern false format with
  | None => Raise (ValueError ("bad directive in format " +:+ py_repr format))
  | Some rs =>
      match re_match (seq_all rs) data_string with
      | None =>
          Raise (ValueError ("time data " +:+ py_repr data_string +:+
                             " does not match format " +:+ py_repr format))
      | Some found =>
          if negb (String.length data_string =? m_pos found)%nat
          then Raise (ValueError ("unconverted data remains: " +:+ m_rest found))
          else
            rbind (field "Y" 1900 found) (fun y =>
            rbind (field "m" 1 found) (fun m =>
            rbind (field "d" 1 found) (fun d =>
            rbind (field "H" 0 found) (fun H =>
            rbind (field "M" 0 found) (fun M =>
            rbind (field "S" 0 found) (fun S =>
            mk_datetime y m d H M S))))))
      end
  end.

(** ** Validators *)

Definition msg_future_year : string :=
  "Внучка, дата некорректна. Такой год еще не наступил".

Definition msg_bad_date : string :=
  "Внучка, дата некорректна. Пожалуйста, введи ее в формате ДД.ММ.ГГГГ".

Definition msg_bad_time : string :=
  "Внучка, время некорректно. Пожалуйста, введи его в формате ЧЧ:ММ (например, 14:30)".

Definition validate_date (date_str : string) : result datetime :=
  try_except_ValueError
    (rbind (strptime date_str "%d.%m.%Y") (fun date =>
       if year date >? 2024
       then Raise (ValueError msg_future_year)
       else Ok date))
    (fun _ => Raise (ValueError msg_bad_date)).

(** [^[0-2][0-9]:[0-5][0-9]$] *)
Definition time_regex : regex :=
  seq_all [ Bol; Cls "0" "2"; Cls "0" "9"; Chr ":";
            Cls "0" "5"; Cls "0" "9"; Eol ].

Fixpoint map_int (parts : list string) : result (list Z) :=
  match parts with
  | [] => Ok []
  | p :: rest =>
      rbind (py_int p) (fun n =>
      rbind (map_int rest) (fun ns => Ok (n :: ns)))
  end.

Definition validate_time (time_str : string) : result (Z * Z) :=
  let invalid := Raise (ValueError msg_bad_time) in
  match re_match time_regex time_str with
  | Some _ =>
      rbind (map_int (split_on ":" time_str)) (fun parts =>
        match parts with
        | [hours; minutes] =>
            if between 0 hours 23 && between 0 minutes 59
            then Ok (hours, minutes)
            else invalid
        | _ => Raise (ValueError "wrong number of values to unpack")
        end)
  | None => invalid
  end.

(** ** The session, the collaborators and the handler monad *)

Record position : Type := Position {
  degree : Q; zodiac_sign : string; description : string
}.

(** What [context.user_data] holds under its keys. *)
Inductive value : Type :=
| VDate (d : datetime)
| VTime (hm : Z * Z)
| VPlace (ll : Q * Q)
| VChart (chart : gmap string position)
| VPos (p : position).

(** Calls received by the ephemeris ([swisseph]). *)
Inductive eph_call : Type :=
| SetTopo (lon lat alt : Q)
| CalcUt (jd : Q) (body : Z)
| Houses (jd lat lon : Q) (hsys : ascii).

Definition keyboard : Type := list (list (string * string)).

(** Messages handed to the transport. *)
Inductive message : Type :=
| ReplyText (text : string) (markup : option keyboard)
| AnswerQuery
| EditMessageText (text : string)
| EditReplyMarkup (markup : keyboard).

Record world : Type := World {
  user_data : gmap string value;
  eph_log : list eph_call;
  sent : list message
}.

(** The external services, as the source calls them. *)
Record collaborators : Type := Collaborators {
  (** [Nominatim.geocode]: latitude and longitude, or [None] *)
  geocode : string -> option (Q * Q);
  (** [TimezoneFinder.timezone_at] *)
  timezone_at : Q -> Q -> option string;
  (** [pytz]: [localize] in the named zone, then [astimezone(pytz.utc)] *)
  to_utc : string -> datetime -> datetime;
  (** [swe.julday year month day hour] *)
  julday : Z -> Z -> Z -> Q -> Q;
  (** [swe.calc_ut jd body]: the ecliptic longitude, [planet_position[0]] *)
  calc_ut : Q -> Z -> Q;
  (** [swe.houses jd lat lon hsys]: the ascendant, [ascmc[0]] *)
  houses_asc : Q -> Q -> Q -> ascii -> Q;
  (** [zodiac.db]: what [fetchone] gives for the query on a table and
      a sign, the description or [None], or the [sqlite3.Error] that
      [connect] or [execute] raised *)
  zodiac_db : string -> string -> result (option string)
}.

Definition M (A : Type) : Type := world -> result A * world.

Definition ret {A : Type} (a : A) : M A := fun w => (Ok a, w).

Definition bind {A B : Type} (m : M A) (k : A -> M B) : M B :=
  fun w => match m w with
           | (Ok a, w1) => k a w1
           | (Raise e, w1) => (Raise e, w1)
           end.

Definition raise {A : Type} (e : exn) : M A := fun w => (Raise e, w).

Definition lift {A : Type} (r : result A) : M A := fun w => (r, w).

Declare Scope handler_scope.
Delimit Scope handler_scope with handler.
Notation "'let*' x ':=' m 'in' k" := (bind m (fun x => k))
  (at level 10, x pattern, m at level 100, k at level 200) : handler_scope.
Notation "m ;; k" := (bind m (fun _ => k))
  (at level 100, right associativity) : handler_scope.
Local Open Scope handler_scope.

(** [try: body except ValueError as e: handler(str(e))]: what [body]
    did to the world before raising stays done. *)
Definition try_except {A : Type} (body : M A) (handler : string -> M A) : M A :=
  fun w => match body w with
           | (Raise (ValueError msg), w1) => handler msg w1
           | other => other
           end.

Definition contains (key : string) : M bool :=
  fun w => (Ok (bool_decide (is_Some (user_data w !! key))), w).

Definition get_item (key : string) : M value :=
  fun w => match user_data w !! key with
           | Some v => (Ok v, w)
           | None => (Raise (KeyError key), w)
           end.

Definition set_item (key : string) (v : value) : M unit :=
  fun w => (Ok tt, World (<[key := v]> (user_data w)) (eph_log w) (sent w)).

Definition clear : M unit :=
  fun w => (Ok tt, World ∅ (eph_log w) (sent w)).

Definition ephemeris (c : eph_call) : M unit :=
  fun w => (Ok tt, World (user_data w) (eph_log w ++ [c]) (sent w)).

Definition send (msg : message) : M unit :=
  fun w => (Ok tt, World (user_data w) (eph_log w) (sent w ++ [msg])).

Definition as_date (v : value) : M datetime :=
  match v with VDate d => ret d | _ => raise TypeError end.

Definition as_pair_Z (v : value) : M (Z * Z) :=
  match v with VTime hm => ret hm | _ => raise TypeError end.

Definition as_pair_Q (v : value) : M (Q * Q) :=
  match v with VPlace ll => ret ll | _ => raise TypeError end.

Definition as_chart (v : value) : M (gmap string position) :=
  match v with VChart c => ret c | _ => raise TypeError end.

Definition as_position (v : value) : M position :=
  match v with VPos p => ret p | _ => raise TypeError end.

(** ** Geo resolver *)

Definition msg_no_city : string :=
  "Внучка, к сожалению, бабуля не нашла такого города на карте. Введи, пожалуйста, существующий город".

Definition msg_no_timezone : string :=
  "Невозможно определить часовой пояс для указанных координат.".

Definition msg_no_description : string := "Описание не найдено".

Definition planets : list string :=
  [ "Солнце"; "Луна"; "Меркурий"; "Венера"; "Марс";
    "Юпитер"; "Сатурн"; "Уран"; "Нептун"; "Плутон" ].

Definition buttons : keyboard :=
  [ [("Солнце", "Солнце"); ("Луна", "Луна")];
    [("Меркурий", "Меркурий"); ("Венера", "Венера")];
    [("Марс", "Марс"); ("Юпитер", "Юпитер")];
    [("Сатурн", "Сатурн"); ("Уран", "Уран")];
    [("Нептун", "Нептун"); ("Плутон", "Плутон")];
    [("Асцендент", "Асцендент")];
    [("Рассчитать новую натальную карту", "new_chart")] ].

(** [round] to the nearest integer, ties to even: the rounding of the
    float formats. *)
Definition round_half_even (q : Q) : Z :=
  let f := Qfloor q in
  match (q - inject_Z f ?= 1 # 2)%Q with
  | Lt => f
  | Gt => f + 1
  | Eq => if Z.even f then f else f + 1
  end.

Definition two_digits (n : Z) : string :=
  if n <? 10 then "0" +:+ py_str n else py_str n.

(** The f-string field [{x:.2f}]. *)
Definition format_2f (x : Q) : string :=
  let n := round_half_even (Qabs x * 100) in
  (if Qlt_le_dec x 0 then "-" else "")
    +:+ py_str (n / 100) +:+ "." +:+ two_digits (n mod 100).

(** [dt.hour + dt.minute / 60] *)
Definition decimal_hour (dt : datetime) : Q :=
  (inject_Z (hour dt) + inject_Z (minute dt) / 60)%Q.

Section Bot.

Variable env : collaborators.

Definition get_coordinates (city_name : string) : result (Q * Q) :=
  match geocode env city_name with
  | Some location => Ok location
  | None => Raise (ValueError msg_no_city)
  end.

(** The result is what the lookup gives, [None] included. *)
Definition get_timezone (latitude longitude : Q) : result (option string) :=
  Ok (timezone_at env latitude longitude).

(** The query of [zodiac.db]: the description of the row found, the
    fixed text when there is no row, or the [sqlite3.Error] of
    [connect] or [execute], which is not a [ValueError]. *)
Definition get_planet_description (planet zodiac_sign : string)
    : result string :=
  rbind (zodiac_db env planet zodiac_sign) (fun result =>
    match result with
    | Some description => Ok description
    | None => Ok msg_no_description
    end).

(** ** Chart calculator *)

(** [swe.julday(dt.year, dt.month, dt.day, dt.hour + dt.minute / 60)] *)
Definition julday_of (dt : datetime) : Q :=
  julday env (year dt) (month dt) (day dt) (decimal_hour dt).

(** The body of [for planet_index, planet_name in enumerate(planets)]. *)
Fixpoint planet_loop (julian_day : Q) (planet_index : Z) (names : list string)
    (planet_positions : gmap string position) : M (gmap string position) :=
  match names with
  | [] => ret planet_positions
  | planet_name :: rest =>
      ephemeris (CalcUt julian_day planet_index) ;;
      let degree := calc_ut env julian_day planet_index in
      let* zodiac_sign := lift (get_zodiac_sign degree) in
      let* description :=
        lift (get_planet_description planet_name zodiac_sign) in
      planet_loop julian_day (planet_index + 1) rest
        (<[planet_name := Position degree zodiac_sign description]>
           planet_positions)
  end.

Definition calculate_planet_positions
    (year month day hour minute : Z) (latitude longitude : Q)
    : M (gmap string position) :=
  let date_str :=
    py_str year +:+ "-" +:+ py_str month +:+ "-" +:+ py_str day +:+ " "
      +:+ py_str hour +:+ ":" +:+ py_str minute +:+ ":00" in
  let* dt := lift (strptime date_str "%Y-%m-%d %H:%M:%S") in
  let julian_day := julday_of dt in
  ephemeris (SetTopo longitude latitude 0) ;;
  planet_loop julian_day 0 planets ∅.

Definition calculate_ascendant
    (year month day hour minute : Z) (latitude longitude : Q)
    : M (Q * string) :=
  let* timezone_str := lift (get_timezone latitude longitude) in
  match timezone_str with
  | None => raise (ValueError msg_no_timezone)
  | Some zone =>
      let* local_dt := lift (mk_datetime year month day hour minute 0) in
      let utc_dt := to_utc env zone local_dt in
      let julian_day := julday_of utc_dt in
      ephemeris (Houses julian_day latitude longitude "P") ;;
      let ascendant_degree :=
        houses_asc env julian_day latitude longitude "P" in
      let* ascendant_sign := lift (get_zodiac_sign ascendant_degree) in
      ret (ascendant_degree, ascendant_sign)
  end.

(** ** Conversation handlers *)

Definition prompt_date : string :=
  "Введи дату своего рождения в формате ДД.ММ.ГГГГ:".

Definition prompt_time : string := "Введи время рождения в формате ЧЧ:ММ:".

Definition prompt_place : string := "Введи место рождения (город):".

Definition msg_chart_ready : string :=
  "Молодец! Бабуля составила твою натальную карту. Теперь выбери, о каком из положений тебе хотелось бы узнать:".

Definition start : M unit :=
  send (ReplyText
    ("Привет, внучка! " +:+ String "010" "" +:+
     "Меня зовут АстроБабуля. Я — чат-бот, который поможет тебе рассчитать твою натальную карту."
     +:+ String "010" (String "010" "") +:+ "Чтобы начать, просто нажми на /next")
    None).

Definition next : M unit := send (ReplyText prompt_date None).

Definition handle_message (text : string) : M unit :=
  try_except
    (let* has_date := contains "birth_date" in
     if negb has_date then
       let birth_date := text in
       let* valid_date := lift (validate_date birth_date) in
       set_item "birth_date" (VDate valid_date) ;;
       send (ReplyText prompt_time None)
     else
     let* has_time := contains "birth_time" in
     if negb has_time then
       let birth_time := text in
       let* (hour, minute) := lift (validate_time birth_time) in
       set_item "birth_time" (VTime (hour, minute)) ;;
       send (ReplyText prompt_place None)
     else
     let* has_place := contains "birth_place" in
     if negb has_place then
       let birth_place := text in
       let* (latitude, longitude) := lift (get_coordinates birth_place) in
       set_item "birth_place" (VPlace (latitude, longitude)) ;;
       let* birth_date := bind (get_item "birth_date") as_date in
       let* (hour, minute) := bind (get_item "birth_time") as_pair_Z in
       let* (latitude, longitude) := bind (get_item "birth_place") as_pair_Q in
       let* planets :=
         calculate_planet_positions (year birth_date) (month birth_date)
           (day birth_date) hour minute latitude longitude in
       let* (ascendant_degree, ascendant_sign) :=
         calculate_ascendant (year birth_date) (month birth_date)
           (day birth_date) hour minute latitude longitude in
       set_item "nat_chart" (VChart planets) ;;
       let* description :=
         lift (get_planet_description "Асцендент" ascendant_sign) in
       set_item "ascendant"
         (VPos (Position ascendant_degree ascendant_sign description)) ;;
       send (ReplyText msg_chart_ready (Some buttons))
     else ret tt)
    (fun e => send (ReplyText e None)).

Definition send_planet_buttons : M unit := send (EditReplyMarkup buttons).

Definition show_position (label : string) (p : position) : string :=
  label +:+ ": " +:+ format_2f (degree p) +:+ "° в знаке " +:+ zodiac_sign p
    +:+ String "010" "" +:+ "Описание: " +:+ description p.

Definition button_callback (data : string) : M unit :=
  send AnswerQuery ;;
  if String.eqb data "new_chart" then
    send (ReplyText prompt_date None) ;;
    clear
  else
    let* response :=
      if String.eqb data "Асцендент" then
        let* ascendant := bind (get_item "ascendant") as_position in
        ret (show_position "Асцендент" ascendant)
      else
        let* chart := bind (get_item "nat_chart") as_chart in
        match chart !! data with
        | Some planet => ret (show_position data planet)
        | None => raise (KeyError data)
        end in
    send (EditMessageText response) ;;
    send_planet_buttons.

(** ** The session as a transition system *)

(** What the dispatcher of [main] routes: a text that is not a
    command, one of the two commands, or a pressed button. *)
Inductive update : Type :=
| Text (text : string)
| CommandStart
| CommandNext
| Callback (data : string).

Definition dispatch (u : update) : M unit :=
  match u with
  | Text text => handle_message text
  | CommandStart => start
  | CommandNext => next
  | Callback data => button_callback data
  end.

(** An update is handled to its end; an exception that leaves the
    handler is logged by the framework and the session stays as the
    handler left it. *)
Definition step (w : world) (u : update) : world := snd (dispatch u w).

Definition run (w : world) (us : list update) : world := fold_left step us w.

Definition fresh : world := World ∅ [] [].

End Bot.

(** ** Stand-ins for the external services

    Small, computable collaborators on which the handlers can be run:
    three places, their time zones, the Gregorian julian day of the
    Swiss Ephemeris on exact rationals, and longitudes inside
    [0, 360). *)

Definition moscow : Q * Q := (557558 # 10000, 376173 # 10000)%Q.
Definition reykjavik : Q * Q := (641466 # 10000, - (219426 # 10000))%Q.
Definition point_nemo : Q * Q := (- (488767 # 10000), - (1233933 # 10000))%Q.

Definition same_place (a b : Q * Q) : bool :=
  Qeq_bool (fst a) (fst b) && Qeq_bool (snd a) (snd b).

Definition demo_geocode (city_name : string) : option (Q * Q) :=
  if String.eqb city_name "Москва" then Some moscow
  else if String.eqb city_name "Рейкьявик" then Some reykjavik
  else if String.eqb city_name "Точка Немо" then Some point_nemo
  else None.

Definition demo_timezone_at (lat lon : Q) : option string :=
  if same_place (lat, lon) moscow then Some "Europe/Moscow"
  else if same_place (lat, lon) reykjavik then Some "Atlantic/Reykjavik"
  else None.

Definition previous_day (y m d : Z) : Z * Z * Z :=
  if 1 <? d then (y, m, d - 1)
  else if 1 <? m then (y, m - 1, days_in_month y (m - 1))
  else (y - 1, 12, 31).

Definition next_day (y m d : Z) : Z * Z * Z :=
  if d <? days_in_month y m then (y, m, d + 1)
  else if m <? 12 then (y, m + 1, 1)
  else (y + 1, 1, 1).

(** Moves a civil time by [k] hours, [-24 < k < 24]. *)
Definition shift_hours (k : Z) (dt : datetime) : datetime :=
  let h := hour dt + k in
  if h <? 0 then
    let '(y, m, d) := previous_day (year dt) (month dt) (day dt) in
    DateTime y m d (h + 24) (minute dt) (second dt)
  else if 24 <=? h then
    let '(y, m, d) := next_day (year dt) (month dt) (day dt) in
    DateTime y m d (h - 24) (minute dt) (second dt)
  else DateTime (year dt) (month dt) (day dt) h (minute dt) (second dt).

(** Moscow summer time of 1990 is four hours ahead of UTC, Reykjavik
    is on UTC. *)
Definition demo_to_utc (zone : string) (local_dt : datetime) : datetime :=
  if String.eqb zone "Europe/Moscow" then shift_hours (-4) local_dt
  else local_dt.

(** [swe_julday] of the Swiss Ephemeris for the Gregorian calendar. *)
Definition demo_julday (year month day : Z) (hour : Q) : Q :=
  let u := if month <? 3 then year - 1 else year in
  let u0 := u + 4712 in
  let u1 := if month + 1 <? 4 then month + 1 + 12 else month + 1 in
  let jd :=
    (inject_Z (Qfloor (inject_Z u0 * (36525 # 100)))
     + inject_Z (Qfloor ((306 # 10) * inject_Z u1 + (1 # 1000000)))
     + inject_Z day + hour / 24 - (635 # 10))%Q in
  let u2 := Z.abs u / 100 - Z.abs u / 400 in
  let u2 := if u <? 0 then - u2 else u2 in
  let jd := (jd - inject_Z u2 + 2)%Q in
  if (u <? 0) && (u mod 100 =? 0) && negb (u mod 400 =? 0)
  then (jd - 1)%Q else jd.

Definition demo_calc_ut (jd : Q) (body : Z) : Q :=
  inject_Z ((Qfloor (jd * 24) * (body + 1)) mod 360).

Definition demo_houses_asc (jd lat lon : Q) (hsys : ascii) : Q :=
  inject_Z ((Qfloor (jd * 1440) + Qfloor lon) mod 360).

Definition demo_zodiac_db (table sign : string) : result (option string) :=
  if String.eqb sign "Рыбы" then Ok None
  else Ok (Some (table +:+ " в знаке " +:+ sign)).

Definition demo : collaborators :=
  Collaborators demo_geocode demo_timezone_at demo_to_utc demo_julday
                demo_calc_ut demo_houses_asc demo_zodiac_db.

(** The same services with a database that has the tables of the ten
    bodies and none for the ascendant. *)
Definition demo_zodiac_db_without_ascendant (table sign : string)
    : result (option string) :=
  if String.eqb table "Асцендент"
  then Raise (Sqlite3Error "no such table: Асцендент")
  else demo_zodiac_db table sign.

Definition demo_without_ascendant : collaborators :=
  Collaborators demo_geocode demo_timezone_at demo_to_utc demo_julday
                demo_calc_ut demo_houses_asc demo_zodiac_db_without_ascendant.

(** * Vocabulary of the specification *)

Arguments in_class : simpl never.
Arguments is_digit : simpl never.
Arguments is_space : simpl never.
Arguments Ascii.eqb : simpl never.

(** The text [ab:cd]. *)
Definition clock_text (a b c d : ascii) : string :=
  String a (String b (String ":" (String c (String d EmptyString)))).

Definition chars_0_2 : list ascii := ["0"; "1"; "2"]%char.
Definition chars_0_5 : list ascii := ["0"; "1"; "2"; "3"; "4"; "5"]%char.
Definition chars_0_9 : list ascii :=
  ["0"; "1"; "2"; "3"; "4"; "5"; "6"; "7"; "8"; "9"]%char.

(** What the specification expects of [validate_time] on the text
    [ab:cd]. *)
Definition expected_time (a b c d : ascii) : result (Z * Z) :=
  let h := 10 * digit_val a + digit_val b in
  let m := 10 * digit_val c + digit_val d in
  if h <=? 23 then Ok (h, m) else Raise (ValueError msg_bad_time).

Definition same_time_result (r1 r2 : result (Z * Z)) : bool :=
  match r1, r2 with
  | Ok (h1, m1), Ok (h2, m2) => (h1 =? h2) && (m1 =? m2)
  | Raise (ValueError e1), Raise (ValueError e2) => String.eqb e1 e2
  | _, _ => false
  end.

Definition time_case_ok (a b c d : ascii) : bool :=
  same_time_result (validate_time (clock_text a b c d)) (expected_time a b c d)
  && same_time_result
       (validate_time (clock_text a b c d +:+ String "010" EmptyString))
       (expected_time a b c d).


(** ** Sessions *)

(** A chart, or a part of one, is in the session. *)
Definition chart_held (ud : gmap string value) : Prop :=
  is_Some (ud !! "nat_chart") \/ is_Some (ud !! "ascendant").

(** What is stored under the keys of the session came out of the
    validators and the geocoder, and has the shape the handlers read. *)
Definition fields_valid (env : collaborators) (ud : gmap string value) : Prop :=
  (forall v, ud !! "birth_date" = Some v ->
     exists text d, validate_date text = Ok d /\ v = VDate d) /\
  (forall v, ud !! "birth_time" = Some v ->
     exists text hm, validate_time text = Ok hm /\ v = VTime hm) /\
  (forall v, ud !! "birth_place" = Some v ->
     exists text ll, get_coordinates env text = Ok ll /\ v = VPlace ll) /\
  (forall v, ud !! "nat_chart" = Some v -> exists chart, v = VChart chart) /\
  (forall v, ud !! "ascendant" = Some v -> exists p, v = VPos p).

(** The three fields of the birth input are present. *)
Definition birth_input_complete (ud : gmap string value) : Prop :=
  is_Some (ud !! "birth_date") /\ is_Some (ud !! "birth_time") /\
  is_Some (ud !! "birth_place").

(** The database answers every query on the given tables, with a row
    or with none. *)
Definition db_answers_on (env : collaborators) (tables : list string) : Prop :=
  forall table sign,
    In table tables -> exists row, zodiac_db env table sign = Ok row.

(** The database answers every query. *)
Definition db_answers (env : collaborators) : Prop :=
  forall table sign, exists row, zodiac_db env table sign = Ok row.

(** The ascendant is never there without the chart, and the chart is
    there without the ascendant only if a query of the database
    raised. *)
Definition session_invariant (env : collaborators) (ud : gmap string value)
    : Prop :=
  fields_valid env ud /\
  (chart_held ud -> birth_input_complete ud) /\
  (is_Some (ud !! "ascendant") -> is_Some (ud !! "nat_chart")) /\
  (db_answers env ->
   is_Some (ud !! "nat_chart") -> is_Some (ud !! "ascendant")).

(** The steps of the conversation, read off the keys that are set. *)
Inductive stage : Type :=
| AwaitingDate
| AwaitingTime
| AwaitingPlace
| ChartReady
| PlaceWithoutChart.

Definition stage_of (ud : gmap string value) : stage :=
  match ud !! "birth_date", ud !! "birth_time", ud !! "birth_place",
        ud !! "nat_chart" with
  | None, _, _, _ => AwaitingDate
  | Some _, None, _, _ => AwaitingTime
  | Some _, Some _, None, _ => AwaitingPlace
  | Some _, Some _, Some _, Some _ => ChartReady
  | Some _, Some _, Some _, None => PlaceWithoutChart
  end.

(** The position a button label selects in the session. *)
Definition selected (ud : gmap string value) (data : string) : option position :=
  if String.eqb data "Асцендент" then
    match ud !! "ascendant" with
    | Some (VPos p) => Some p
    | _ => None
    end
  else
    match ud !! "nat_chart" with
    | Some (VChart chart) => chart !! data
    | _ => None
    end.

(** The julian days the ephemeris was called with. *)
Definition body_calls (log : list eph_call) : list (Q * Z) :=
  flat_map (fun c => match c with CalcUt jd body => [(jd, body)] | _ => [] end) log.

Definition house_calls (log : list eph_call) : list Q :=
  flat_map (fun c => match c with Houses jd _ _ _ => [jd] | _ => [] end) log.

(** A computation that does not write to the session. *)
Definition keeps_session {A : Type} (m : M A) : Prop :=
  forall w, user_data (snd (m w)) = user_data w.

(** A computation that ends with the session as it found it, or with
    a chart and an ascendant added to it, or with the chart alone when
    the query for the description of the ascendant raised. *)
Definition stores_chart_or_nothing (env : collaborators) {A : Type} (m : M A)
    : Prop :=
  forall w,
    user_data (snd (m w)) = user_data w \/
    (exists chart sign e,
       get_planet_description env "Асцендент" sign = Raise e /\
       user_data (snd (m w)) = <["nat_chart" := VChart chart]> (user_data w)) \/
    exists chart p,
      user_data (snd (m w))
      = <["ascendant" := VPos p]> (<["nat_chart" := VChart chart]> (user_data w)).

(** ** Two sessions on the stand-ins *)

(** Born 15.06.1990 at 08:45, the date and the time given. *)
Definition date_and_time : list update := [Text "15.06.1990"; Text "08:45"].

(** The same session with Moscow as the place. *)
Definition moscow_session : list update := date_and_time ++ [Text "Москва"].

Definition body_indexes : list Z := [0; 1; 2; 3; 4; 5; 6; 7; 8; 9].

(** 08:45 on the civil clock, and 04:45, the same moment in UTC. *)
Definition jd_civil : Q := demo_julday 1990 6 15 (inject_Z 8 + inject_Z 45 / 60).
Definition jd_utc : Q := demo_julday 1990 6 15 (inject_Z 4 + inject_Z 45 / 60).

(** ** Printed numbers *)

(** The indexes [enumerate] gives to [n] items, counting from [i]. *)
Fixpoint indexes_from (i : Z) (n : nat) : list Z :=
  match n with
  | O => []
  | S k => i :: indexes_from (i + 1) k
  end.

(** The integers [lo], [lo + 1], ... ([n] of them). *)
Definition range_Z (lo n : Z) : list Z := indexes_from lo (Z.to_nat n).


(** [str(n)] is made of digits that [int] reads back as [n]. *)
Definition prints_back (n : Z) : bool :=
  all_digits (py_str n) &&
  match py_int (py_str n) with
  | Ok k => k =? n
  | Raise _ => false
  end.

(** [str(y)] has exactly four digits. *)
Definition four_digits (y : Z) : bool :=
  match py_str y with
  | String a (String b (String c (String d EmptyString))) =>
      is_digit a && is_digit b && is_digit c && is_digit d
  | _ => false
  end.

(** The first match of a regex at a position, with the text matched. *)
Definition first_match (r : regex) (st : mstate) : option (string * mstate) :=
  hd_error (rmatch r st).

(** The date text that [calculate_planet_positions] builds. *)
Definition date_str (year month day hour minute : Z) : string :=
  py_str year +:+ "-" +:+ py_str month +:+ "-" +:+ py_str day +:+ " "
    +:+ py_str hour +:+ ":" +:+ py_str minute +:+ ":00".

(** The regex of a directive of the two formats. *)
Definition directive (c : ascii) : regex :=
  match time_re c with
  | Some r => r
  | None => Eps
  end.

(** The regex of ["%Y-%m-%d %H:%M:%S"]. *)
Definition planets_format_regex : list regex :=
  [ directive "Y"; Chr "-"; directive "m"; Chr "-"; directive "d";
    Plus AnySpace; directive "H"; Chr ":"; directive "M"; Chr ":";
    directive "S" ].


(** A longitude as the ephemeris returns it. *)
Definition is_longitude (d : Q) : Prop := (0 <= d)%Q /\ (d < 360)%Q.

(** ** More vocabulary: texts of dates and times *)

(** The time [h:m] written [HH:MM]. *)
Definition clock_hhmm (h m : Z) : string :=
  two_digits h +:+ ":" +:+ two_digits m.

Definition line_feed : string := String "010" EmptyString.

(** [validate_time] on [HH:MM], and on [HH:MM] with a line feed, gives
    [(h, m)]. *)
Definition clock_hhmm_ok (h m : Z) : bool :=
  same_time_result (validate_time (clock_hhmm h m)) (Ok (h, m)) &&
  same_time_result (validate_time (clock_hhmm h m +:+ line_feed)) (Ok (h, m)).

(** Two digit characters are the two-digit print of their value. *)
Definition two_digits_ok (a b : ascii) : bool :=
  String.eqb (two_digits (10 * digit_val a + digit_val b))
             (String a (String b EmptyString)).

(** The names of the groups of a regex. *)
Fixpoint group_names (r : regex) : list string :=
  match r with
  | Seq r1 r2 | Alt r1 r2 => group_names r1 ++ group_names r2
  | Plus r1 => group_names r1
  | Group name r1 => name :: group_names r1
  | _ => []
  end.

(** The regex of ["%d.%m.%Y"]. *)
Definition date_format_regex : list regex :=
  [ directive "d"; Chr "."; directive "m"; Chr "."; directive "Y" ].

(** A year written with four digits. *)
Definition four_digit_year (y : Z) : string :=
  (if y <? 10 then "000" else if y <? 100 then "00"
   else if y <? 1000 then "0" else "") +:+ py_str y.

(** A day or a month, with the leading zero or without it. *)
Definition number_text (padded : bool) (n : Z) : string :=
  if padded then two_digits n else py_str n.

(** A date written day.month.year. *)
Definition date_text (pad_day pad_month : bool) (y m d : Z) : string :=
  number_text pad_day d +:+ "." +:+ number_text pad_month m +:+ "."
    +:+ four_digit_year y.

(** [four_digit_year y] is four digits that [int] reads back as [y]. *)
Definition year_text_ok (y : Z) : bool :=
  match four_digit_year y with
  | String a (String b (String c (String d EmptyString))) =>
      is_digit a && is_digit b && is_digit c && is_digit d
  | _ => false
  end &&
  match py_int (four_digit_year y) with
  | Ok k => k =? y
  | Raise _ => false
  end.

(** [str(y)] has at most three digits. *)
Definition short_year (y : Z) : bool :=
  match py_str y with
  | String a EmptyString
  | String a (String _ EmptyString)
  | String a (String _ (String _ EmptyString)) => true
  | _ => false
  end.

(** The message of [strptime] for a text that does not match. *)
Definition msg_no_match (data_string format : string) : string :=
  "time data " +:+ py_repr data_string +:+ " does not match format "
    +:+ py_repr format.

(** What the place branch of [handle_message] does once the
    coordinates are stored: the chart computation, the two stores and
    the answer. *)
Definition chart_step (env : collaborators) (birth_date : datetime)
    (hour minute : Z) (latitude longitude : Q) : M unit :=
  let* planets :=
    calculate_planet_positions env (year birth_date) (month birth_date)
      (day birth_date) hour minute latitude longitude in
  let* (ascendant_degree, ascendant_sign) :=
    calculate_ascendant env (year birth_date) (month birth_date)
      (day birth_date) hour minute latitude longitude in
  set_item "nat_chart" (VChart planets) ;;
  let* description :=
    lift (get_planet_description env "Асцендент" ascendant_sign) in
  set_item "ascendant"
    (VPos (Position ascendant_degree ascendant_sign description)) ;;
  send (ReplyText msg_chart_ready (Some buttons)).

(** The key that [button_callback] misses in the session for a label,
    if it misses one. *)
Definition missing_key (ud : gmap string value) (data : string)
    : option string :=
  if String.eqb data "Асцендент" then
    match ud !! "ascendant" with
    | None => Some "ascendant"
    | Some _ => None
    end
  else
    match ud !! "nat_chart" with
    | None => Some "nat_chart"
    | Some (VChart chart) =>
        match chart !! data with
        | None => Some data
        | Some _ => None
        end
    | Some _ => None
    end.

Definition planets_format : string := "%Y-%m-%d %H:%M:%S".

(** A computation that reads nothing of the world but the session and
    only adds to the log of the ephemeris and to the messages. *)
Definition session_only {A : Type} (m : M A) : Prop :=
  forall ud, exists r ud' calls msgs, forall log out,
    m (World ud log out) = (r, World ud' (log ++ calls) (out ++ msgs)).

(** A computation that sends nothing. *)
Definition keeps_sent {A : Type} (m : M A) : Prop :=
  forall w, sent (snd (m w)) = sent w.

(** A computation that sends one message when it returns and none
    when it raises. *)
Definition answers_on_return (m : M unit) : Prop :=
  forall w,
    match m w with
    | (Ok _, w') =>
        exists text markup, sent w' = sent w ++ [ReplyText text markup]
    | (Raise _, w') => sent w' = sent w
    end.

(** The keys the handlers write. *)
Definition session_keys : list string :=
  ["birth_date"; "birth_time"; "birth_place"; "nat_chart"; "ascendant"].

(** How far the conversation is. *)
Definition stage_rank (s : stage) : Z :=
  match s with
  | AwaitingDate => 0
  | AwaitingTime => 1
  | AwaitingPlace => 2
  | ChartReady => 3
  | PlaceWithoutChart => 3
  end.

(** The fields are there in the order in which they are asked for. *)
Definition fields_in_order (ud : gmap string value) : Prop :=
  (is_Some (ud !! "birth_time") -> is_Some (ud !! "birth_date")) /\
  (is_Some (ud !! "birth_place") -> is_Some (ud !! "birth_time")) /\
  (is_Some (ud !! "nat_chart") -> is_Some (ud !! "birth_place")).

(** ** The texts that [validate_date] takes *)










(** * Properties *)

(** ** Degrees and signs *)

Lemma floordiv_lower (k : Z) (d : Q) :
  (inject_Z k * 30 <= d)%Q -> k <= floordiv_int d 30.
Proof.
  intros H. unfold floordiv_int.
  rewrite <- (Qfloor_Z k). apply Qfloor_resp_le.
  apply Qle_shift_div_l; [reflexivity | exact H].
Qed.

Lemma floordiv_upper (k : Z) (d : Q) :
  (d < inject_Z k * 30)%Q -> floordiv_int d 30 < k.
Proof.
  intros H. unfold floordiv_int.
  rewrite Zlt_Qlt.
  apply Qle_lt_trans with (y := (d / 30)%Q); [apply Qfloor_le |].
  apply Qlt_shift_div_r; [reflexivity | exact H].
Qed.

Lemma floordiv_mono (d1 d2 : Q) :
  (d1 <= d2)%Q -> floordiv_int d1 30 <= floordiv_int d2 30.
Proof.
  intros H. unfold floordiv_int. apply Qfloor_resp_le.
  unfold Qdiv. apply Qmult_le_compat_r; [exact H | discriminate].
Qed.

Lemma py_index_signs_inside (i : Z) :
  0 <= i < 12 ->
  exists s, nth_error signs (Z.to_nat i) = Some s /\ py_index signs i = Ok s.
Proof.
  intros H.
  assert (Hc : i = 0 \/ i = 1 \/ i = 2 \/ i = 3 \/ i = 4 \/ i = 5 \/ i = 6
               \/ i = 7 \/ i = 8 \/ i = 9 \/ i = 10 \/ i = 11) by lia.
  repeat destruct Hc as [-> | Hc]; try subst i; eexists; split; reflexivity.
Qed.

Lemma py_index_signs_negative (i : Z) :
  -12 <= i < 0 ->
  exists s, nth_error signs (Z.to_nat (12 + i)) = Some s /\ py_index signs i = Ok s.
Proof.
  intros H.
  assert (Hc : i = -1 \/ i = -2 \/ i = -3 \/ i = -4 \/ i = -5 \/ i = -6 \/ i = -7
               \/ i = -8 \/ i = -9 \/ i = -10 \/ i = -11 \/ i = -12) by lia.
  repeat destruct Hc as [-> | Hc]; try subst i; eexists; split; reflexivity.
Qed.

Lemma py_index_signs_above (i : Z) : 12 <= i -> py_index signs i = Raise IndexError.
Proof.
  intros H. unfold py_index. change (Z.of_nat (List.length signs)) with 12.
  destruct (i <? 0) eqn:E; [apply Z.ltb_lt in E; lia |].
  destruct (i <? 12) eqn:E2; [apply Z.ltb_lt in E2; lia |].
  now rewrite andb_false_r.
Qed.

(** C7. For a degree in [0, 360) the sign is the entry of the zodiac
    list at index floor(d / 30), one of the twelve; the index does not
    decrease when the degree grows; degree 0 gives the first sign and
    359.999 the last. *)
Theorem get_zodiac_sign_in_bands (d1 d2 : Q) :
  (0 <= d1)%Q -> (d1 <= d2)%Q -> (d2 < 360)%Q ->
  let i1 := floordiv_int d1 30 in
  let i2 := floordiv_int d2 30 in
  0 <= i1 /\ i1 <= i2 /\ i2 < 12 /\
  (exists s1, nth_error signs (Z.to_nat i1) = Some s1 /\ In s1 signs /\
              get_zodiac_sign d1 = Ok s1) /\
  (exists s2, nth_error signs (Z.to_nat i2) = Some s2 /\ In s2 signs /\
              get_zodiac_sign d2 = Ok s2) /\
  get_zodiac_sign 0 = Ok "Овен" /\
  nth_error signs 0 = Some "Овен" /\
  get_zodiac_sign float_359_999 = Ok "Рыбы" /\
  get_zodiac_sign (359999 # 1000) = Ok "Рыбы" /\
  nth_error signs 11 = Some "Рыбы" /\
  List.length signs = 12%nat.
Proof.
  intros H0 H12 H360 i1 i2.
  assert (L1 : 0 <= i1) by (apply floordiv_lower; exact H0).
  assert (L2 : i1 <= i2) by (apply floordiv_mono; exact H12).
  assert (L3 : i2 < 12) by (apply floordiv_upper; exact H360).
  split; [exact L1 |]. split; [exact L2 |]. split; [exact L3 |].
  split.
  { destruct (py_index_signs_inside i1) as (s & Hn & Hs); [lia |].
    exists s. split; [exact Hn |]. split; [eapply nth_error_In; exact Hn | exact Hs]. }
  split.
  { destruct (py_index_signs_inside i2) as (s & Hn & Hs); [lia |].
    exists s. split; [exact Hn |]. split; [eapply nth_error_In; exact Hn | exact Hs]. }
  repeat split.
Qed.

Lemma get_zodiac_sign_in_bands_witness :
  get_zodiac_sign 45 = Ok "Телец" /\ get_zodiac_sign 200 = Ok "Весы".
Proof.
  assert (H0 : (0 <= 45)%Q) by discriminate.
  assert (H1 : (45 <= 200)%Q) by discriminate.
  assert (H2 : (200 < 360)%Q) by reflexivity.
  destruct (get_zodiac_sign_in_bands 45 200 H0 H1 H2)
    as (_ & _ & _ & (s1 & N1 & _ & E1) & (s2 & N2 & _ & E2) & _).
  split.
  - rewrite E1. f_equal. vm_compute in N1. congruence.
  - rewrite E2. f_equal. vm_compute in N2. congruence.
Defined.

(** C10. Outside the documented domain: from 360 upwards the lookup
    raises IndexError; in [-360, 0) it returns the sign that Python's
    negative index selects, counting from the end of the list, so -1
    gives the last sign. *)
Theorem get_zodiac_sign_outside_domain (d_high d_low : Q) :
  (360 <= d_high)%Q -> (-360 <= d_low)%Q -> (d_low < 0)%Q ->
  get_zodiac_sign d_high = Raise IndexError /\
  -12 <= floordiv_int d_low 30 < 0 /\
  (exists s, nth_error signs (Z.to_nat (12 + floordiv_int d_low 30)) = Some s /\
             get_zodiac_sign d_low = Ok s) /\
  get_zodiac_sign (-1) = Ok "Рыбы".
Proof.
  intros Hh Hl Hn.
  assert (L1 : 12 <= floordiv_int d_high 30) by (apply floordiv_lower; exact Hh).
  assert (L2 : -12 <= floordiv_int d_low 30) by (apply floordiv_lower; exact Hl).
  assert (L3 : floordiv_int d_low 30 < 0) by (apply floordiv_upper; exact Hn).
  split; [apply py_index_signs_above; exact L1 |].
  split; [lia |].
  split; [apply py_index_signs_negative; lia | reflexivity].
Qed.

Lemma get_zodiac_sign_outside_domain_witness :
  get_zodiac_sign 400 = Raise IndexError /\
  get_zodiac_sign (- (61 # 2)) = Ok "Водолей".
Proof.
  assert (Hh : (360 <= 400)%Q) by discriminate.
  assert (Hl : (-360 <= - (61 # 2))%Q) by discriminate.
  assert (Hn : (- (61 # 2) < 0)%Q) by reflexivity.
  destruct (get_zodiac_sign_outside_domain 400 (- (61 # 2)) Hh Hl Hn)
    as (E & _ & (s & N & Es) & _).
  split; [exact E |].
  rewrite Es. f_equal. vm_compute in N. congruence.
Defined.

(** ** Validators *)

Lemma msg_bad_date_not_future : msg_bad_date <> msg_future_year.
Proof.
  intros H. apply String.eqb_eq in H. vm_compute in H. discriminate.
Qed.

Lemma validate_date_outcomes (s : string) :
  (exists dt, validate_date s = Ok dt) \/
  validate_date s = Raise (ValueError msg_bad_date) \/
  (exists e, validate_date s = Raise e /\ forall msg, e <> ValueError msg).
Proof.
  unfold validate_date, try_except_ValueError.
  destruct (rbind _ _) as [dt | [msg | | key | | dberr]].
  - left. now exists dt.
  - right. now left.
  - right. right. exists IndexError. split; [reflexivity | discriminate].
  - right. right. exists (KeyError key). split; [reflexivity | discriminate].
  - right. right. exists TypeError. split; [reflexivity | discriminate].
  - right. right. exists (Sqlite3Error dberr).
    split; [reflexivity | discriminate].
Qed.


(** C5. The year check raises the future-year message inside the
    [try], and the [except ValueError] of the same function replaces
    it: for "01.01.2025" the caller gets the invalid-format message,
    and no text at all makes validate_date raise the future-year
    message. *)
Theorem validate_date_future_year_replaced :
  rbind (strptime "01.01.2025" "%d.%m.%Y")
        (fun date => if year date >? 2024
                     then Raise (ValueError msg_future_year)
                     else Ok date)
    = Raise (ValueError msg_future_year) /\
  validate_date "01.01.2025" = Raise (ValueError msg_bad_date) /\
  msg_bad_date <> msg_future_year /\
  forall s, validate_date s <> Raise (ValueError msg_future_year).
Proof.
  split; [reflexivity |]. split; [reflexivity |].
  split; [exact msg_bad_date_not_future |].
  intros s H.
  destruct (validate_date_outcomes s) as [[dt E] | [E | (e & E & Hne)]];
    rewrite E in H.
  - discriminate.
  - apply (f_equal raised_message) in H. exact (msg_bad_date_not_future H).
  - apply (Hne msg_future_year).
    apply (f_equal (fun r => match r with
                             | Raise e' => e'
                             | Ok _ => e
                             end)) in H.
    exact H.
Qed.

(** C6. The text "14:30" followed by a line feed is accepted: [$]
    matches before a final line feed and [int] drops it.  The three
    examples of the claim behave as it says. *)
Theorem validate_time_trailing_newline :
  validate_time (String "1" (String "4" (String ":" (String "3" (String "0"
                  (String "010" EmptyString)))))) = Ok (14, 30) /\
  validate_time "14:30" = Ok (14, 30) /\
  validate_time "24:00" = Raise (ValueError msg_bad_time) /\
  validate_time "9:30" = Raise (ValueError msg_bad_time).
Proof. repeat split. Qed.
Lemma time_regex_shape (s : string) (st : mstate) :
  re_match time_regex s = Some st ->
  exists a b c d,
    in_class "0" "2" a = true /\ is_digit b = true /\
    in_class "0" "5" c = true /\ is_digit d = true /\
    (s = clock_text a b c d \/ s = clock_text a b c d +:+ String "010" EmptyString).
Proof.
  unfold re_match, time_regex.
  destruct s as [| a s]; [cbn; discriminate |].
  cbn.
  destruct (in_class "0" "2" a) eqn:Ea; [| cbn; discriminate].
  destruct s as [| b s]; [cbn; discriminate |].
  cbn.
  destruct (in_class "0" "9" b) eqn:Eb; [| cbn; discriminate].
  destruct s as [| k s]; [cbn; discriminate |].
  cbn.
  destruct (Ascii.eqb ":" k) eqn:Ek; [| cbn; discriminate].
  destruct s as [| c s]; [cbn; discriminate |].
  cbn.
  destruct (in_class "0" "5" c) eqn:Ec; [| cbn; discriminate].
  destruct s as [| d s]; [cbn; discriminate |].
  cbn.
  destruct (in_class "0" "9" d) eqn:Ed; [| cbn; discriminate].
  apply Ascii.eqb_eq in Ek. subst k.
  cbn.
  destruct s as [| n s].
  - intros _. exists a, b, c, d. repeat split; auto.
  - destruct s as [| n' s]; [| cbn; discriminate].
    destruct (Ascii.eqb n "010") eqn:En; [| cbn; discriminate].
    apply Ascii.eqb_eq in En. subst n.
    intros _. exists a, b, c, d. repeat split; auto.
Qed.


Lemma same_time_result_eq r1 r2 : same_time_result r1 r2 = true -> r1 = r2.
Proof.
  destruct r1 as [[h1 m1] | [e1 | | | |]], r2 as [[h2 m2] | [e2 | | | |]];
    simpl; try discriminate.
  - intros H. apply andb_true_iff in H as [H1 H2].
    apply Z.eqb_eq in H1, H2. now subst.
  - intros H. apply String.eqb_eq in H. now subst.
Qed.

Lemma in_class_0_2 c : in_class "0" "2" c = true -> In c chars_0_2.
Proof.
  destruct c as [[] [] [] [] [] [] [] []]; intros H;
    try (vm_compute in H; discriminate H); vm_compute; tauto.
Qed.

Lemma in_class_0_5 c : in_class "0" "5" c = true -> In c chars_0_5.
Proof.
  destruct c as [[] [] [] [] [] [] [] []]; intros H;
    try (vm_compute in H; discriminate H); vm_compute; tauto.
Qed.

Lemma is_digit_0_9 c : is_digit c = true -> In c chars_0_9.
Proof.
  destruct c as [[] [] [] [] [] [] [] []]; intros H;
    try (vm_compute in H; discriminate H); vm_compute; tauto.
Qed.

Lemma all_time_cases :
  forallb (fun a => forallb (fun b => forallb (fun c => forallb (fun d =>
    time_case_ok a b c d) chars_0_9) chars_0_5) chars_0_9) chars_0_2 = true.
Proof. vm_compute. reflexivity. Qed.

Lemma validate_time_on_clock_text a b c d :
  in_class "0" "2" a = true -> is_digit b = true ->
  in_class "0" "5" c = true -> is_digit d = true ->
  validate_time (clock_text a b c d) = expected_time a b c d /\
  validate_time (clock_text a b c d +:+ String "010" EmptyString)
    = expected_time a b c d.
Proof.
  intros Ha Hb Hc Hd.
  pose proof all_time_cases as T.
  rewrite forallb_forall in T. specialize (T a (in_class_0_2 a Ha)).
  rewrite forallb_forall in T. specialize (T b (is_digit_0_9 b Hb)).
  rewrite forallb_forall in T. specialize (T c (in_class_0_5 c Hc)).
  rewrite forallb_forall in T. specialize (T d (is_digit_0_9 d Hd)).
  unfold time_case_ok in T. apply andb_true_iff in T as [T1 T2].
  split; apply same_time_result_eq; assumption.
Qed.

Lemma validate_time_needs_match s r :
  validate_time s = Ok r -> exists st, re_match time_regex s = Some st.
Proof.
  unfold validate_time. destruct (re_match time_regex s) as [st |].
  - intros _. now exists st.
  - discriminate.
Qed.

(** The texts validate_time accepts: two digits, a colon, two digits,
    hour at most 23, minute at most 59, and possibly one line feed
    after them. *)
Lemma validate_time_accepts (s : string) (h m : Z) :
  validate_time s = Ok (h, m) <->
  exists a b c d,
    in_class "0" "2" a = true /\ is_digit b = true /\
    in_class "0" "5" c = true /\ is_digit d = true /\
    (s = clock_text a b c d \/
     s = clock_text a b c d +:+ String "010" EmptyString) /\
    h = 10 * digit_val a + digit_val b /\
    m = 10 * digit_val c + digit_val d /\
    0 <= h <= 23 /\ 0 <= m <= 59.
Proof.
  split.
  - intros H.
    destruct (validate_time_needs_match s _ H) as [st Hst].
    destruct (time_regex_shape s st Hst) as (a & b & c & d & Ha & Hb & Hc & Hd & Hs).
    destruct (validate_time_on_clock_text a b c d Ha Hb Hc Hd) as [V1 V2].
    assert (E : expected_time a b c d = Ok (h, m)).
    { destruct Hs as [-> | ->]; congruence. }
    exists a, b, c, d. repeat (split; [assumption |]).
    unfold expected_time in E.
    destruct (10 * digit_val a + digit_val b <=? 23) eqn:Eh; [| discriminate].
    injection E as E1 E2. apply Z.leb_le in Eh.
    pose proof (in_class_0_2 a Ha) as Ia. pose proof (is_digit_0_9 b Hb) as Ib.
    pose proof (in_class_0_5 c Hc) as Ic. pose proof (is_digit_0_9 d Hd) as Id.
    assert (Da : 0 <= digit_val a <= 2).
    { clear -Ia. unfold chars_0_2 in Ia. simpl in Ia.
      repeat destruct Ia as [<- | Ia]; try contradiction; vm_compute; split; discriminate. }
    assert (Db : 0 <= digit_val b <= 9).
    { clear -Ib. unfold chars_0_9 in Ib. simpl in Ib.
      repeat destruct Ib as [<- | Ib]; try contradiction; vm_compute; split; discriminate. }
    assert (Dc : 0 <= digit_val c <= 5).
    { clear -Ic. unfold chars_0_5 in Ic. simpl in Ic.
      repeat destruct Ic as [<- | Ic]; try contradiction; vm_compute; split; discriminate. }
    assert (Dd : 0 <= digit_val d <= 9).
    { clear -Id. unfold chars_0_9 in Id. simpl in Id.
      repeat destruct Id as [<- | Id]; try contradiction; vm_compute; split; discriminate. }
    lia.
  - intros (a & b & c & d & Ha & Hb & Hc & Hd & Hs & Hh & Hm & Rh & Rm).
    destruct (validate_time_on_clock_text a b c d Ha Hb Hc Hd) as [V1 V2].
    assert (E : expected_time a b c d = Ok (h, m)).
    { unfold expected_time. rewrite <- Hh, <- Hm.
      destruct (h <=? 23) eqn:Eh; [reflexivity | apply Z.leb_gt in Eh; lia]. }
    destruct Hs as [-> | ->]; congruence.
Qed.

(** ** Geo resolver *)

Lemma calculate_ascendant_without_timezone
    (env : collaborators) (latitude longitude : Q) :
  timezone_at env latitude longitude = None ->
  forall y m d h mi w,
    calculate_ascendant env y m d h mi latitude longitude w
      = (Raise (ValueError msg_no_timezone), w).
Proof.
  intros H y m d h mi w. unfold calculate_ascendant, bind, lift, get_timezone.
  rewrite H. reflexivity.
Qed.

(** C8. Where the time-zone lookup gives nothing, get_timezone hands
    that [None] to its caller as an ordinary result; the ValueError is
    raised one level up, in calculate_ascendant. *)
Theorem get_timezone_returns_none
    (env : collaborators) (latitude longitude : Q) :
  timezone_at env latitude longitude = None ->
  get_timezone env latitude longitude = Ok None /\
  forall y m d h mi w,
    calculate_ascendant env y m d h mi latitude longitude w
      = (Raise (ValueError msg_no_timezone), w).
Proof.
  intros H. split.
  - unfold get_timezone. rewrite H. reflexivity.
  - apply calculate_ascendant_without_timezone, H.
Qed.

Lemma get_timezone_returns_none_witness :
  timezone_at demo (fst point_nemo) (snd point_nemo) = None /\
  get_timezone demo (fst point_nemo) (snd point_nemo) = Ok None.
Proof.
  assert (H : timezone_at demo (fst point_nemo) (snd point_nemo) = None)
    by reflexivity.
  split; [exact H |].
  exact (proj1 (get_timezone_returns_none demo _ _ H)).
Defined.

(** ** What the handlers leave alone *)

Section Frames.

Variable env : collaborators.

Lemma keeps_session_bind {A B : Type} (m : M A) (k : A -> M B) :
  keeps_session m -> (forall a, keeps_session (k a)) -> keeps_session (bind m k).
Proof.
  intros Hm Hk w. unfold bind. specialize (Hm w).
  destruct (m w) as [[a | e] w1]; simpl in *.
  - rewrite Hk. exact Hm.
  - exact Hm.
Qed.

Lemma keeps_session_planet_loop jd names :
  forall i acc, keeps_session (planet_loop env jd i names acc).
Proof.
  induction names as [| name rest IH]; intros i acc.
  - intros w. reflexivity.
  - simpl. apply keeps_session_bind; [intros w; reflexivity |].
    intros _. apply keeps_session_bind; [intros w; reflexivity |].
    intros s. apply keeps_session_bind;
      [intros w; unfold lift; now destruct (get_planet_description _ _ _) |].
    intros text. apply IH.
Qed.

Lemma keeps_session_planets y m d h mi lat lon :
  keeps_session (calculate_planet_positions env y m d h mi lat lon).
Proof.
  unfold calculate_planet_positions.
  apply keeps_session_bind; [intros w; reflexivity |].
  intros dt. apply keeps_session_bind; [intros w; reflexivity |].
  intros _. apply keeps_session_planet_loop.
Qed.

Lemma keeps_session_ascendant y m d h mi lat lon :
  keeps_session (calculate_ascendant env y m d h mi lat lon).
Proof.
  unfold calculate_ascendant.
  apply keeps_session_bind; [intros w; reflexivity |].
  intros [zone |]; [| intros w; reflexivity].
  apply keeps_session_bind; [intros w; reflexivity |].
  intros dt. apply keeps_session_bind; [intros w; reflexivity |].
  intros _. apply keeps_session_bind; [intros w; reflexivity |].
  intros s w. reflexivity.
Qed.

End Frames.

(** ** Reading the chart *)

Lemma eqb_new_chart_false (data : string) :
  data <> "new_chart" -> String.eqb data "new_chart" = false.
Proof. intros H. now apply String.eqb_neq. Qed.

Lemma round_half_even_nearest (q : Q) :
  (Qabs (inject_Z (round_half_even q) - q) <= 1 # 2)%Q.
Proof.
  unfold round_half_even.
  pose proof (Qfloor_le q) as Hlo. pose proof (Qlt_floor q) as Hhi.
  rewrite inject_Z_plus in Hhi. change (inject_Z 1) with 1%Q in Hhi.
  assert (Hf : (Qabs (inject_Z (Qfloor q) - q) <= 1 # 2)%Q <->
               (q - inject_Z (Qfloor q) <= 1 # 2)%Q).
  { rewrite Qabs_Qle_condition. split; [intros [H1 H2] | intros H; split]; lra. }
  assert (Hc : (Qabs (inject_Z (Qfloor q + 1) - q) <= 1 # 2)%Q <->
               (1 # 2 <= q - inject_Z (Qfloor q))%Q).
  { rewrite inject_Z_plus. change (inject_Z 1) with 1%Q.
    rewrite Qabs_Qle_condition. split; [intros [H1 H2] | intros H; split]; lra. }
  destruct (q - inject_Z (Qfloor q) ?= 1 # 2)%Q eqn:E.
  - apply Qeq_alt in E.
    destruct (Z.even (Qfloor q)); [apply Hf | apply Hc]; rewrite E; apply Qle_refl.
  - apply Qlt_alt in E. apply Hf. now apply Qlt_le_weak.
  - apply Qgt_alt in E. apply Hc. now apply Qlt_le_weak.
Qed.


(** ** What a text does to the session *)

Lemma bind_contains {B : Type} (key : string) (k : bool -> M B) (w : world) :
  bind (contains key) k w = k (bool_decide (is_Some (user_data w !! key))) w.
Proof. reflexivity. Qed.

Lemma bind_lift {A B : Type} (r : result A) (k : A -> M B) (w : world) :
  bind (lift r) k w = match r with Ok a => k a w | Raise e => (Raise e, w) end.
Proof. unfold bind, lift. now destruct r. Qed.

Lemma bind_set_item {B : Type} (key : string) (v : value) (k : unit -> M B)
    (w : world) :
  bind (set_item key v) k w
  = k tt (World (<[key := v]> (user_data w)) (eph_log w) (sent w)).
Proof. reflexivity. Qed.

Lemma bind_send {B : Type} (msg : message) (k : unit -> M B) (w : world) :
  bind (send msg) k w
  = k tt (World (user_data w) (eph_log w) (sent w ++ [msg])).
Proof. reflexivity. Qed.

Lemma try_except_reply_session (body : M unit) (w : world) :
  user_data (snd (try_except body (fun e => send (ReplyText e None)) w))
  = user_data (snd (body w)).
Proof.
  unfold try_except. destruct (body w) as [[[] | [msg | | key | | dberr]] w1]; reflexivity.
Qed.

Lemma keeps_session_read (key : string) {A : Type} (conv : value -> M A) :
  (forall v, keeps_session (conv v)) ->
  keeps_session (bind (get_item key) conv).
Proof.
  intros H. apply keeps_session_bind; [| exact H].
  intros w. unfold get_item. now destruct (user_data w !! key).
Qed.

Lemma keeps_session_as_date v : keeps_session (as_date v).
Proof. intros w. now destruct v. Qed.

Lemma keeps_session_as_pair_Z v : keeps_session (as_pair_Z v).
Proof. intros w. now destruct v. Qed.

Lemma keeps_session_as_pair_Q v : keeps_session (as_pair_Q v).
Proof. intros w. now destruct v. Qed.

Section Steps.

Variable env : collaborators.

Lemma stores_after_keeps {A B : Type} (m : M A) (k : A -> M B) :
  keeps_session m -> (forall a, stores_chart_or_nothing env (k a)) ->
  stores_chart_or_nothing env (bind m k).
Proof.
  intros Hm Hk w. unfold bind. specialize (Hm w).
  destruct (m w) as [[a | e] w1]; simpl in *.
  - rewrite <- Hm. apply Hk.
  - now left.
Qed.

(** The chart computation of the third branch, from the read of the
    stored date on. *)
Lemma chart_computation_stores :
  stores_chart_or_nothing env
    (let* birth_date := bind (get_item "birth_date") as_date in
     let* (hour, minute) := bind (get_item "birth_time") as_pair_Z in
     let* (latitude, longitude) := bind (get_item "birth_place") as_pair_Q in
     let* planets :=
       calculate_planet_positions env (year birth_date) (month birth_date)
         (day birth_date) hour minute latitude longitude in
     let* (ascendant_degree, ascendant_sign) :=
       calculate_ascendant env (year birth_date) (month birth_date)
         (day birth_date) hour minute latitude longitude in
     set_item "nat_chart" (VChart planets) ;;
     let* description :=
       lift (get_planet_description env "Асцендент" ascendant_sign) in
     set_item "ascendant"
       (VPos (Position ascendant_degree ascendant_sign description)) ;;
     send (ReplyText msg_chart_ready (Some buttons))).
Proof.
  apply stores_after_keeps;
    [apply keeps_session_read, keeps_session_as_date |].
  intros birth_date. apply stores_after_keeps;
    [apply keeps_session_read, keeps_session_as_pair_Z |].
  intros [hour minute]. apply stores_after_keeps;
    [apply keeps_session_read, keeps_session_as_pair_Q |].
  intros [latitude longitude]. apply stores_after_keeps;
    [apply keeps_session_planets |].
  intros planets. apply stores_after_keeps;
    [apply keeps_session_ascendant |].
  intros [ascendant_degree ascendant_sign] w.
  rewrite bind_set_item, bind_lift.
  destruct (get_planet_description env "Асцендент" ascendant_sign)
    as [description | e] eqn:E.
  - right. right. eexists _, _. reflexivity.
  - right. left. exists planets, ascendant_sign, e. split; [exact E | reflexivity].
Qed.

Lemma handle_message_session (text : string) (w : world) :
  let ud := user_data w in
  let ud' := user_data (snd (handle_message env text w)) in
  ud' = ud \/
  (ud !! "birth_date" = None /\
   exists d, validate_date text = Ok d /\ ud' = <["birth_date" := VDate d]> ud) \/
  (is_Some (ud !! "birth_date") /\ ud !! "birth_time" = None /\
   exists hm, validate_time text = Ok hm /\
              ud' = <["birth_time" := VTime hm]> ud) \/
  (is_Some (ud !! "birth_date") /\ is_Some (ud !! "birth_time") /\
   ud !! "birth_place" = None /\
   exists ll, get_coordinates env text = Ok ll /\
     (ud' = <["birth_place" := VPlace ll]> ud \/
      (exists chart sign e,
         get_planet_description env "Асцендент" sign = Raise e /\
         ud' = <["nat_chart" := VChart chart]>
                 (<["birth_place" := VPlace ll]> ud)) \/
      exists chart p,
        ud' = <["ascendant" := VPos p]>
                (<["nat_chart" := VChart chart]>
                   (<["birth_place" := VPlace ll]> ud)))).
Proof.
  intros ud ud'. subst ud ud'.
  unfold handle_message. rewrite try_except_reply_session.
  rewrite bind_contains.
  destruct (user_data w !! "birth_date") as [vd |] eqn:Ed.
  2:{ rewrite bool_decide_eq_false_2 by (intros [? ?]; discriminate).
      cbn [negb]. rewrite bind_lift.
      destruct (validate_date text) as [d | e]; [| now left].
      right. left. split; [reflexivity |]. exists d. split; reflexivity. }
  rewrite bool_decide_eq_true_2 by eauto. cbn [negb].
  rewrite bind_contains.
  destruct (user_data w !! "birth_time") as [vt |] eqn:Et.
  2:{ rewrite bool_decide_eq_false_2 by (intros [? ?]; discriminate).
      cbn [negb]. rewrite bind_lift.
      destruct (validate_time text) as [[h m] | e]; [| now left].
      right. right. left. split; [eauto |]. split; [reflexivity |].
      exists (h, m). split; reflexivity. }
  rewrite bool_decide_eq_true_2 by eauto. cbn [negb].
  rewrite bind_contains.
  destruct (user_data w !! "birth_place") as [vp |] eqn:Ep.
  { rewrite bool_decide_eq_true_2 by eauto. now left. }
  rewrite bool_decide_eq_false_2 by (intros [? ?]; discriminate).
  cbn [negb]. rewrite bind_lift.
  destruct (get_coordinates env text) as [[lat lon] | e]; [| now left].
  right. right. right.
  split; [eauto |]. split; [eauto |]. split; [reflexivity |].
  exists (lat, lon). split; [reflexivity |].
  rewrite bind_set_item.
  match goal with
  | |- context [user_data (snd (?m ?w1))] =>
      destruct (chart_computation_stores w1)
        as [H | [(chart & sign & e & He & H) | (chart & p & H)]]
  end.
  - left. exact H.
  - right. left. exists chart, sign, e. split; [exact He | exact H].
  - right. right. exists chart, p. exact H.
Qed.

End Steps.

(** ** The invariant of the session *)

Lemma button_callback_session (data : string) (w : world) :
  user_data (snd (button_callback data w))
  = if String.eqb data "new_chart" then ∅ else user_data w.
Proof.
  unfold button_callback. rewrite bind_send.
  destruct (String.eqb data "new_chart"); [reflexivity |].
  set (w1 := World _ _ _). change (user_data w) with (user_data w1).
  generalize w1. clear w w1.
  apply keeps_session_bind.
  - destruct (String.eqb data "Асцендент").
    + apply keeps_session_bind.
      * apply keeps_session_read. intros v w. now destruct v.
      * intros p w. reflexivity.
    + apply keeps_session_bind.
      * apply keeps_session_read. intros v w. now destruct v.
      * intros chart w. now destruct (chart !! data).
  - intros response w. reflexivity.
Qed.

Ltac map_lookups :=
  repeat first
    [ rewrite lookup_insert_eq
    | rewrite lookup_insert_ne by discriminate
    | rewrite lookup_empty ].

Ltac map_lookups_in H :=
  repeat first
    [ rewrite lookup_insert_eq in H
    | rewrite lookup_insert_ne in H by discriminate
    | rewrite lookup_empty in H ].

Section Invariant.

Variable env : collaborators.

Lemma db_answers_description (table sign : string) (e : exn) :
  db_answers env -> get_planet_description env table sign <> Raise e.
Proof.
  intros Hdb. unfold get_planet_description.
  destruct (Hdb table sign) as [[text |] ->]; discriminate.
Qed.

Lemma session_invariant_fresh : session_invariant env ∅.
Proof.
  split; [| split; [| split]].
  - repeat split; intros v H; rewrite lookup_empty in H; discriminate.
  - intros [[v H] | [v H]]; rewrite lookup_empty in H; discriminate.
  - intros [v H]; rewrite lookup_empty in H; discriminate.
  - intros _ [v H]; rewrite lookup_empty in H; discriminate.
Qed.

Lemma session_invariant_date (ud : gmap string value) text d :
  session_invariant env ud -> ud !! "birth_date" = None ->
  validate_date text = Ok d ->
  session_invariant env (<["birth_date" := VDate d]> ud).
Proof.
  intros ((Fd & Ft & Fp & Fc & Fa) & Hc & Ha & Hb) Ed Hv.
  assert (Hno : ~ chart_held ud).
  { intros H. destruct (Hc H) as ([v E] & _). congruence. }
  split; [| split; [| split]].
  - repeat split; intros v H; map_lookups_in H; eauto.
    injection H as <-. eauto.
  - intros H. exfalso. apply Hno.
    destruct H as [H | H]; map_lookups_in H; [now left | now right].
  - map_lookups. exact Ha.
  - map_lookups. exact Hb.
Qed.

Lemma session_invariant_time (ud : gmap string value) text hm :
  session_invariant env ud -> ud !! "birth_time" = None ->
  validate_time text = Ok hm ->
  session_invariant env (<["birth_time" := VTime hm]> ud).
Proof.
  intros ((Fd & Ft & Fp & Fc & Fa) & Hc & Ha & Hb) Ed Hv.
  assert (Hno : ~ chart_held ud).
  { intros H. destruct (Hc H) as (_ & [v E] & _). congruence. }
  split; [| split; [| split]].
  - repeat split; intros v H; map_lookups_in H; eauto.
    injection H as <-. eauto.
  - intros H. exfalso. apply Hno.
    destruct H as [H | H]; map_lookups_in H; [now left | now right].
  - map_lookups. exact Ha.
  - map_lookups. exact Hb.
Qed.

Lemma session_invariant_place (ud : gmap string value) text ll :
  session_invariant env ud -> ud !! "birth_place" = None ->
  get_coordinates env text = Ok ll ->
  session_invariant env (<["birth_place" := VPlace ll]> ud).
Proof.
  intros ((Fd & Ft & Fp & Fc & Fa) & Hc & Ha & Hb) Ed Hv.
  assert (Hno : ~ chart_held ud).
  { intros H. destruct (Hc H) as (_ & _ & [v E]). congruence. }
  split; [| split; [| split]].
  - repeat split; intros v H; map_lookups_in H; eauto.
    injection H as <-. eauto.
  - intros H. exfalso. apply Hno.
    destruct H as [H | H]; map_lookups_in H; [now left | now right].
  - map_lookups. exact Ha.
  - map_lookups. exact Hb.
Qed.

Lemma session_invariant_chart (ud : gmap string value) chart p :
  session_invariant env ud -> birth_input_complete ud ->
  session_invariant env
    (<["ascendant" := VPos p]> (<["nat_chart" := VChart chart]> ud)).
Proof.
  intros ((Fd & Ft & Fp & Fc & Fa) & Hc & Ha & Hb) (Cd & Ct & Cp).
  split; [| split; [| split]].
  - repeat split; intros v H; map_lookups_in H; eauto;
      injection H as <-; eauto.
  - intros _. unfold birth_input_complete. map_lookups. auto.
  - map_lookups. eauto.
  - map_lookups. eauto.
Qed.

(** The chart alone, after the query for the description of the
    ascendant raised, in a session that held neither. *)
Lemma session_invariant_chart_alone (ud : gmap string value) chart sign e :
  session_invariant env ud -> birth_input_complete ud ->
  ~ chart_held ud ->
  get_planet_description env "Асцендент" sign = Raise e ->
  session_invariant env (<["nat_chart" := VChart chart]> ud).
Proof.
  intros ((Fd & Ft & Fp & Fc & Fa) & Hc & Ha & Hb) (Cd & Ct & Cp) Hno He.
  split; [| split; [| split]].
  - repeat split; intros v H; map_lookups_in H; eauto;
      injection H as <-; eauto.
  - intros _. unfold birth_input_complete. map_lookups. auto.
  - map_lookups. eauto.
  - intros Hdb. exfalso. exact (db_answers_description _ _ _ Hdb He).
Qed.

Lemma step_session_invariant (w : world) (u : update) :
  session_invariant env (user_data w) ->
  session_invariant env (user_data (step env w u)).
Proof.
  intros Hinv. unfold step. destruct u as [text | | | data]; cbn [dispatch].
  - destruct (handle_message_session env text w)
      as [E | [(Ed & d & Hv & E) | [(Hd & Et & hm & Hv & E)
         | (Hd & Ht & Ep & ll & Hv
            & [E | [(chart & sign & e & He & E) | (chart & p & E)]])]]];
      rewrite E.
    + exact Hinv.
    + eapply session_invariant_date; eauto.
    + eapply session_invariant_time; eauto.
    + eapply session_invariant_place; eauto.
    + assert (Hno : ~ chart_held (user_data w)).
      { intros H. destruct Hinv as (_ & Hc & _).
        destruct (Hc H) as (_ & _ & [v E']). congruence. }
      eapply session_invariant_chart_alone; [| | | exact He].
      * eapply session_invariant_place; eauto.
      * unfold birth_input_complete. map_lookups.
        repeat split; eauto.
      * intros H. apply Hno.
        destruct H as [H | H]; map_lookups_in H; [now left | now right].
    + apply session_invariant_chart.
      * eapply session_invariant_place; eauto.
      * unfold birth_input_complete. map_lookups.
        repeat split; eauto.
  - exact Hinv.
  - exact Hinv.
  - rewrite button_callback_session.
    destruct (String.eqb data "new_chart");
      [apply session_invariant_fresh | exact Hinv].
Qed.

Lemma run_session_invariant (us : list update) :
  forall w, session_invariant env (user_data w) ->
            session_invariant env (user_data (run env w us)).
Proof.
  induction us as [| u us IH]; intros w H; [exact H |].
  simpl. apply IH, step_session_invariant, H.
Qed.

End Invariant.

(** ** The place step *)

Lemma stage_awaiting_place (ud : gmap string value) :
  stage_of ud = AwaitingPlace <->
  is_Some (ud !! "birth_date") /\ is_Some (ud !! "birth_time") /\
  ud !! "birth_place" = None.
Proof.
  unfold stage_of.
  destruct (ud !! "birth_date") as [a |], (ud !! "birth_time") as [b |],
    (ud !! "birth_place") as [c |], (ud !! "nat_chart") as [e |];
    (split;
     [ intros H; try discriminate H; repeat split; eauto
     | intros ([? H1] & [? H2] & H3); try discriminate; reflexivity ]).
Qed.

Lemma bind_get_item {A B : Type} (key : string) (conv : value -> M A)
    (k : A -> M B) (w : world) :
  bind (bind (get_item key) conv) k w
  = match user_data w !! key with
    | Some v => bind (conv v) k w
    | None => (Raise (KeyError key), w)
    end.
Proof.
  unfold bind at 1 2. unfold get_item.
  destruct (user_data w !! key); reflexivity.
Qed.

Section PlaceStep.

Variable env : collaborators.

(** Once the three fields are set, a text matches no branch: nothing
    is stored and nothing is answered. *)
Lemma handle_message_ignored (text : string) (w : world) :
  birth_input_complete (user_data w) ->
  handle_message env text w = (Ok tt, w).
Proof.
  intros (Hd & Ht & Hp). unfold handle_message, try_except.
  rewrite bind_contains, bool_decide_eq_true_2 by exact Hd. cbn [negb].
  rewrite bind_contains, bool_decide_eq_true_2 by exact Ht. cbn [negb].
  rewrite bind_contains, bool_decide_eq_true_2 by exact Hp. reflexivity.
Qed.

(** The part of C2 that holds: an unknown place leaves the session as
    it was and is answered with the message of the geocoder. *)
Lemma place_not_found_keeps_session (text : string) (w : world) :
  stage_of (user_data w) = AwaitingPlace ->
  geocode env text = None ->
  handle_message env text w
  = (Ok tt, World (user_data w) (eph_log w)
                  (sent w ++ [ReplyText msg_no_city None])).
Proof.
  intros Hs Hg. apply stage_awaiting_place in Hs as (Hd & Ht & Hp).
  unfold handle_message, try_except.
  rewrite bind_contains, bool_decide_eq_true_2 by exact Hd. cbn [negb].
  rewrite bind_contains, bool_decide_eq_true_2 by exact Ht. cbn [negb].
  rewrite bind_contains, Hp.
  rewrite bool_decide_eq_false_2 by (intros [? ?]; discriminate).
  cbn [negb]. rewrite bind_lift. unfold get_coordinates. rewrite Hg.
  reflexivity.
Qed.

Lemma place_kept_session (text : string) (ll : Q * Q) (w : world) :
  stage_of (user_data w) = AwaitingPlace ->
  geocode env text = Some ll ->
  timezone_at env (fst ll) (snd ll) = None ->
  user_data (snd (handle_message env text w))
  = <["birth_place" := VPlace ll]> (user_data w).
Proof.
  intros Hs Hg Hz. apply stage_awaiting_place in Hs as ([vd Ed] & [vt Et] & Hp).
  unfold handle_message. rewrite try_except_reply_session.
  rewrite bind_contains, bool_decide_eq_true_2 by eauto. cbn [negb].
  rewrite bind_contains, bool_decide_eq_true_2 by eauto. cbn [negb].
  rewrite bind_contains, Hp.
  rewrite bool_decide_eq_false_2 by (intros [? ?]; discriminate).
  cbn [negb]. rewrite bind_lift. unfold get_coordinates. rewrite Hg.
  destruct ll as [lat lon]. rewrite bind_set_item.
  set (w1 := World _ _ _).
  change (<["birth_place" := VPlace (lat, lon)]> (user_data w))
    with (user_data w1).
  rewrite bind_get_item.
  assert (L1 : user_data w1 !! "birth_date" = Some vd)
    by (unfold w1; cbn [user_data]; now rewrite lookup_insert_ne).
  assert (L2 : user_data w1 !! "birth_time" = Some vt)
    by (unfold w1; cbn [user_data]; now rewrite lookup_insert_ne).
  assert (L3 : user_data w1 !! "birth_place" = Some (VPlace (lat, lon)))
    by (unfold w1; cbn [user_data]; now rewrite lookup_insert_eq).
  rewrite L1. destruct vd as [d | | | |]; try reflexivity.
  cbn [as_date]. change (bind (ret d) ?k w1) with (k d w1). cbn beta.
  rewrite bind_get_item, L2. destruct vt as [| [h m] | | |]; try reflexivity.
  cbn [as_pair_Z]. change (bind (ret (h, m)) ?k w1) with (k (h, m) w1). cbn beta iota.
  rewrite bind_get_item, L3.
  cbn [as_pair_Q]. change (bind (ret (lat, lon)) ?k w1) with (k (lat, lon) w1).
  cbn beta iota.
  unfold bind at 1.
  pose proof (keeps_session_planets env (year d) (month d) (day d) h m lat lon w1)
    as Kp.
  destruct (calculate_planet_positions env _ _ _ _ _ _ _ w1)
    as [[planets | e] w2]; cbn [snd] in Kp; [| exact Kp].
  unfold bind at 1.
  rewrite (calculate_ascendant_without_timezone env lat lon Hz).
  exact Kp.
Qed.

End PlaceStep.

(** ** The date text of the planets is read back as written *)

Lemma in_indexes_from (n : nat) :
  forall lo z, lo <= z < lo + Z.of_nat n -> In z (indexes_from lo n).
Proof.
  induction n as [| n IH]; intros lo z H; [lia |].
  cbn [indexes_from]. destruct (Z.eq_dec z lo) as [-> | Hne]; [now left |].
  right. apply IH. lia.
Qed.

Lemma in_range_Z (lo n z : Z) : lo <= z < lo + n -> In z (range_Z lo n).
Proof. intros H. unfold range_Z. apply in_indexes_from. lia. Qed.

Lemma prints_back_all : forallb prints_back (range_Z 0 10000) = true.
Proof. vm_compute. reflexivity. Qed.

Lemma four_digits_all : forallb four_digits (range_Z 1000 9000) = true.
Proof. vm_compute. reflexivity. Qed.

Lemma py_int_py_str (n : Z) : 0 <= n <= 9999 -> py_int (py_str n) = Ok n.
Proof.
  intros H. pose proof prints_back_all as T.
  rewrite forallb_forall in T.
  specialize (T n (in_range_Z 0 10000 n ltac:(lia))).
  unfold prints_back in T. apply andb_true_iff in T as [_ T].
  destruct (py_int (py_str n)) as [k |]; [| discriminate].
  apply Z.eqb_eq in T. now subst.
Qed.

Lemma py_str_year (y : Z) :
  1000 <= y <= 9999 ->
  exists a b c d,
    py_str y = String a (String b (String c (String d EmptyString))) /\
    is_digit a = true /\ is_digit b = true /\
    is_digit c = true /\ is_digit d = true.
Proof.
  intros H. pose proof four_digits_all as T.
  rewrite forallb_forall in T.
  specialize (T y (in_range_Z 1000 9000 y ltac:(lia))).
  unfold four_digits in T.
  destruct (py_str y) as [| a [| b [| c [| d [| ? ?]]]]]; try discriminate.
  apply andb_true_iff in T as [T Hd].
  apply andb_true_iff in T as [T Hc].
  apply andb_true_iff in T as [Ha Hb].
  exists a, b, c, d. repeat split; assumption.
Qed.

Lemma first_match_seq r1 r2 st t1 st1 t2 st2 :
  first_match r1 st = Some (t1, st1) ->
  first_match r2 st1 = Some (t2, st2) ->
  first_match (Seq r1 r2) st = Some (t1 +:+ t2, st2).
Proof.
  unfold first_match. cbn [rmatch].
  destruct (rmatch r1 st) as [| [u1 s1] l1]; [discriminate |].
  intros H1. injection H1 as -> ->.
  cbn [flat_map fst snd].
  destruct (rmatch r2 st1) as [| [u2 s2] l2]; [discriminate |].
  intros H2. injection H2 as -> ->. reflexivity.
Qed.

Lemma first_match_chr (c : ascii) p rest g :
  first_match (Chr c) (MState p (String c rest) g)
  = Some (String c EmptyString, MState (S p) rest g).
Proof.
  unfold first_match. cbn. now rewrite Ascii.eqb_refl.
Qed.

Ltac each_of H :=
  cbv in H; repeat destruct H as [<- | H]; [.. | contradiction H].

Lemma first_match_year (y : Z) p rest g :
  1000 <= y <= 9999 ->
  first_match (directive "Y") (MState p (py_str y +:+ rest) g)
  = Some (py_str y, MState (4 + p) rest (("Y", py_str y) :: g)).
Proof.
  intros H. destruct (py_str_year y H) as (a & b & c & d & -> & Ha & Hb & Hc & Hd).
  change (String a (String b (String c (String d EmptyString)) ) +:+ rest)
    with (String a (String b (String c (String d rest)))).
  unfold first_match. cbn.
  rewrite Ha. cbn. rewrite Hb. cbn. rewrite Hc. cbn. rewrite Hd. reflexivity.
Qed.

Lemma first_match_month (m : Z) p rest g :
  1 <= m <= 12 ->
  first_match (directive "m") (MState p (py_str m +:+ String "-" rest) g)
  = Some (py_str m,
          MState (String.length (py_str m) + p) (String "-" rest)
                 (("m", py_str m) :: g)).
Proof.
  intros H. pose proof (in_range_Z 1 12 m ltac:(lia)) as I.
  each_of I; reflexivity.
Qed.

Lemma first_match_day (d : Z) p rest g :
  1 <= d <= 31 ->
  first_match (directive "d") (MState p (py_str d +:+ String " " rest) g)
  = Some (py_str d,
          MState (String.length (py_str d) + p) (String " " rest)
                 (("d", py_str d) :: g)).
Proof.
  intros H. pose proof (in_range_Z 1 31 d ltac:(lia)) as I.
  each_of I; reflexivity.
Qed.

Lemma first_match_space_before_hour (h : Z) p rest g :
  0 <= h <= 23 ->
  first_match (Plus AnySpace) (MState p (String " " (py_str h +:+ rest)) g)
  = Some (" ", MState (S p) (py_str h +:+ rest) g).
Proof.
  intros H. pose proof (in_range_Z 0 24 h ltac:(lia)) as I.
  each_of I; reflexivity.
Qed.

Lemma first_match_hour (h : Z) p rest g :
  0 <= h <= 23 ->
  first_match (directive "H") (MState p (py_str h +:+ String ":" rest) g)
  = Some (py_str h,
          MState (String.length (py_str h) + p) (String ":" rest)
                 (("H", py_str h) :: g)).
Proof.
  intros H. pose proof (in_range_Z 0 24 h ltac:(lia)) as I.
  each_of I; reflexivity.
Qed.

Lemma first_match_minute (mi : Z) p rest g :
  0 <= mi <= 59 ->
  first_match (directive "M") (MState p (py_str mi +:+ String ":" rest) g)
  = Some (py_str mi,
          MState (String.length (py_str mi) + p) (String ":" rest)
                 (("M", py_str mi) :: g)).
Proof.
  intros H. pose proof (in_range_Z 0 60 mi ltac:(lia)) as I.
  each_of I; reflexivity.
Qed.

Lemma first_match_seconds p g :
  first_match (directive "S") (MState p "00" g)
  = Some ("00", MState (2 + p) "" (("S", "00") :: g)).
Proof. reflexivity. Qed.

Lemma planets_format_pattern :
  pattern false "%Y-%m-%d %H:%M:%S" = Some planets_format_regex.
Proof. reflexivity. Qed.

Lemma string_length_append (s1 s2 : string) :
  String.length (s1 +:+ s2) = (String.length s1 + String.length s2)%nat.
Proof. induction s1 as [| c s1 IH]; simpl; [reflexivity | now rewrite IH]. Qed.

Lemma re_match_first r s t st :
  first_match r (MState 0 s []) = Some (t, st) -> re_match r s = Some st.
Proof.
  unfold first_match, re_match.
  destruct (rmatch r (MState 0 s [])) as [| [t' st'] l]; [discriminate |].
  intros H. injection H as -> ->. reflexivity.
Qed.

Lemma date_str_match (y m d h mi : Z) :
  1000 <= y <= 9999 -> 1 <= m <= 12 -> 1 <= d <= 31 ->
  0 <= h <= 23 -> 0 <= mi <= 59 ->
  exists t n,
    first_match (seq_all planets_format_regex)
                (MState 0 (date_str y m d h mi) [])
    = Some (t, MState n ""
                 [ ("S", "00"); ("M", py_str mi); ("H", py_str h);
                   ("d", py_str d); ("m", py_str m); ("Y", py_str y) ]) /\
    n = String.length (date_str y m d h mi).
Proof.
  intros Hy Hm Hd Hh Hmi.
  unfold date_str, planets_format_regex. cbn [seq_all].
  change ("-" +:+ ?x) with (String "-" x).
  change (" " +:+ ?x) with (String " " x).
  change (":" +:+ ?x) with (String ":" x).
  change ":00" with (String ":" "00").
  eexists _, _. split.
  - eapply first_match_seq; [apply first_match_year, Hy |].
    eapply first_match_seq; [apply first_match_chr |].
    eapply first_match_seq; [apply first_match_month, Hm |].
    eapply first_match_seq; [apply first_match_chr |].
    eapply first_match_seq; [apply first_match_day, Hd |].
    eapply first_match_seq; [apply first_match_space_before_hour, Hh |].
    eapply first_match_seq; [apply first_match_hour, Hh |].
    eapply first_match_seq; [apply first_match_chr |].
    eapply first_match_seq; [apply first_match_minute, Hmi |].
    eapply first_match_seq; [apply first_match_chr |].
    apply first_match_seconds.
  - destruct (py_str_year y Hy) as (a & b & c & e & -> & _).
    cbn [String.append String.length].
    rewrite !string_length_append. cbn [String.length].
    repeat (rewrite string_length_append; cbn [String.length]).
    lia.
Qed.

(** The text built from a date and a time of day with a year of four
    digits is parsed back to the same date and time. *)
Lemma strptime_date_str (y m d h mi : Z) :
  1000 <= y <= 9999 -> 1 <= m <= 12 -> 1 <= d <= 31 ->
  0 <= h <= 23 -> 0 <= mi <= 59 ->
  strptime (date_str y m d h mi) "%Y-%m-%d %H:%M:%S" = mk_datetime y m d h mi 0.
Proof.
  intros Hy Hm Hd Hh Hmi.
  destruct (date_str_match y m d h mi Hy Hm Hd Hh Hmi) as (t & n & Hf & Hn).
  unfold strptime. rewrite planets_format_pattern.
  rewrite (re_match_first _ _ _ _ Hf).
  cbn [m_pos m_rest m_groups]. rewrite Hn, Nat.eqb_refl. cbn [negb].
  unfold field. cbn -[py_int py_str mk_datetime].
  unfold Ascii.eqb. cbn -[py_int py_str mk_datetime].
  rewrite !py_int_py_str by lia.
  reflexivity.
Qed.

(** A year below 1000 is printed with fewer than four digits, which
    [%Y] does not take. *)
Example strptime_date_str_year_999 :
  strptime (date_str 999 1 1 8 45) "%Y-%m-%d %H:%M:%S"
  = Raise (ValueError
      "time data '999-1-1 8:45:00' does not match format '%Y-%m-%d %H:%M:%S'").
Proof. reflexivity. Qed.

(** ** The chart computation, call by call *)

Lemma get_zodiac_sign_longitude (d : Q) :
  is_longitude d -> exists s, get_zodiac_sign d = Ok s.
Proof.
  intros [H0 H360].
  destruct (py_index_signs_inside (floordiv_int d 30)) as (s & _ & Hs).
  - split; [apply floordiv_lower; exact H0 | apply floordiv_upper; exact H360].
  - exists s. exact Hs.
Qed.

Lemma mk_datetime_ok (y m d H M S : Z) (dt : datetime) :
  mk_datetime y m d H M S = Ok dt ->
  dt = DateTime y m d H M S /\
  1 <= y <= 9999 /\ 1 <= m <= 12 /\ 1 <= d <= days_in_month y m /\
  0 <= H <= 23 /\ 0 <= M <= 59 /\ 0 <= S <= 59.
Proof.
  unfold mk_datetime, between.
  repeat match goal with
         | |- context [negb (?a && ?b)] =>
             destruct a eqn:?; destruct b eqn:?; cbn [andb negb];
             try discriminate
         end.
  intros E. injection E as <-. split; [reflexivity |]. lia.
Qed.

Lemma mk_datetime_valid (y m d H M S : Z) :
  1 <= y <= 9999 -> 1 <= m <= 12 -> 1 <= d <= days_in_month y m ->
  0 <= H <= 23 -> 0 <= M <= 59 -> 0 <= S <= 59 ->
  mk_datetime y m d H M S = Ok (DateTime y m d H M S).
Proof.
  intros. unfold mk_datetime, between.
  repeat match goal with
         | |- context [negb (?a && ?b)] =>
             replace a with true by (symmetry; apply Z.leb_le; lia);
             replace b with true by (symmetry; apply Z.leb_le; lia);
             cbn [andb negb]
         end.
  reflexivity.
Qed.

Lemma days_in_month_le_31 (y m : Z) : days_in_month y m <= 31.
Proof.
  unfold days_in_month.
  repeat match goal with |- context [if ?b then _ else _] => destruct b end; lia.
Qed.

(** What validate_date returns is a calendar date, not after 2024. *)
Lemma validate_date_sound (text : string) (dt : datetime) :
  validate_date text = Ok dt ->
  1 <= year dt <= 2024 /\ 1 <= month dt <= 12 /\
  1 <= day dt <= days_in_month (year dt) (month dt).
Proof.
  unfold validate_date, try_except_ValueError.
  destruct (strptime text "%d.%m.%Y") as [d0 | e] eqn:Es; cbn [rbind].
  2:{ destruct e; discriminate. }
  destruct (year d0 >? 2024) eqn:Ey; [discriminate |].
  intros E. injection E as <-.
  assert (exists y m d H M S, mk_datetime y m d H M S = Ok d0) as
      (y & m & d & H & M & S & Hmk).
  { unfold strptime in Es.
    destruct (pattern false "%d.%m.%Y"); [| discriminate].
    destruct (re_match _ text) as [found |]; [| discriminate].
    destruct (negb _); [discriminate |].
    unfold rbind in Es.
    repeat match type of Es with
           | match ?r with Ok _ => _ | Raise _ => _ end = _ =>
               destruct r; [| discriminate]
           end.
    eauto 10. }
  apply mk_datetime_ok in Hmk as (-> & Hy & Hm & Hd & _).
  cbn [year month day] in *. rewrite Z.gtb_ltb in Ey. apply Z.ltb_ge in Ey. lia.
Qed.

Section ChartCalls.

Variable env : collaborators.

Lemma get_planet_description_answers (tables : list string)
    (table sign : string) :
  db_answers_on env tables -> In table tables ->
  exists description, get_planet_description env table sign = Ok description.
Proof.
  intros Hdb Hin. unfold get_planet_description.
  destruct (Hdb table sign Hin) as [[text |] ->]; cbn; eauto.
Qed.

Lemma planet_loop_run (jd : Q) (names : list string) :
  forall i acc w,
    (forall b, In b (indexes_from i (List.length names)) ->
               is_longitude (calc_ut env jd b)) ->
    db_answers_on env names ->
    exists chart,
      planet_loop env jd i names acc w
      = (Ok chart,
         World (user_data w)
               (eph_log w ++ map (CalcUt jd) (indexes_from i (List.length names)))
               (sent w)) /\
      (forall name, In name names -> is_Some (chart !! name)) /\
      (forall name, is_Some (acc !! name) -> is_Some (chart !! name)).
Proof.
  induction names as [| name rest IH]; intros i acc w Hlon Hdb.
  - exists acc. cbn. rewrite app_nil_r. destruct w. repeat split; [easy | auto].
  - cbn [planet_loop List.length indexes_from map].
    destruct (get_zodiac_sign_longitude (calc_ut env jd i)) as [s Hs].
    { apply Hlon. now left. }
    unfold bind at 1. unfold ephemeris at 1. cbn [user_data eph_log sent].
    rewrite bind_lift, Hs.
    destruct (get_planet_description_answers (name :: rest) name s Hdb)
      as [text Htext]; [now left |].
    rewrite bind_lift, Htext.
    set (acc' := <[name := _]> acc).
    set (w1 := World _ _ _).
    destruct (IH (i + 1) acc' w1) as (chart & E & Hin & Hacc).
    { intros b Hb. apply Hlon. now right. }
    { intros table sign Hin. apply Hdb. now right. }
    exists chart. split; [| split].
    + rewrite E. unfold w1. cbn [user_data eph_log sent].
      now rewrite <- app_assoc.
    + intros n [<- | Hn]; [| now apply Hin].
      apply Hacc. unfold acc'. rewrite lookup_insert_eq. eauto.
    + intros n Hn. apply Hacc. unfold acc'.
      destruct (decide (name = n)) as [<- | Hne].
      * rewrite lookup_insert_eq. eauto.
      * now rewrite lookup_insert_ne.
Qed.

Lemma calculate_planet_positions_run (y m d h mi : Z) (lat lon : Q) (w : world) :
  1000 <= y <= 9999 -> 1 <= m <= 12 -> 1 <= d <= days_in_month y m ->
  0 <= h <= 23 -> 0 <= mi <= 59 ->
  let jd := julday_of env (DateTime y m d h mi 0) in
  (forall b, In b body_indexes -> is_longitude (calc_ut env jd b)) ->
  db_answers_on env planets ->
  exists chart,
    calculate_planet_positions env y m d h mi lat lon w
    = (Ok chart,
       World (user_data w)
             (eph_log w ++ SetTopo lon lat 0 :: map (CalcUt jd) body_indexes)
             (sent w)) /\
    forall name, In name planets -> is_Some (chart !! name).
Proof.
  intros Hy Hm Hd Hh Hmi jd Hlon Hdb.
  unfold calculate_planet_positions. fold (date_str y m d h mi).
  rewrite bind_lift, strptime_date_str; try assumption.
  2:{ pose proof (days_in_month_le_31 y m). lia. }
  rewrite mk_datetime_valid by (try assumption; lia).
  fold jd. unfold bind at 1. unfold ephemeris at 1.
  set (w1 := World _ _ _).
  destruct (planet_loop_run jd planets 0 ∅ w1) as (chart & E & Hin & _).
  { exact Hlon. }
  { exact Hdb. }
  exists chart. split; [| exact Hin].
  rewrite E. unfold w1. cbn [user_data eph_log sent].
  rewrite <- app_assoc. reflexivity.
Qed.

Lemma calculate_ascendant_run (y m d h mi : Z) (lat lon : Q) (zone : string)
    (w : world) :
  1 <= y <= 9999 -> 1 <= m <= 12 -> 1 <= d <= days_in_month y m ->
  0 <= h <= 23 -> 0 <= mi <= 59 ->
  timezone_at env lat lon = Some zone ->
  let jd := julday_of env (to_utc env zone (DateTime y m d h mi 0)) in
  is_longitude (houses_asc env jd lat lon "P") ->
  exists sign,
    get_zodiac_sign (houses_asc env jd lat lon "P") = Ok sign /\
    calculate_ascendant env y m d h mi lat lon w
    = (Ok (houses_asc env jd lat lon "P", sign),
       World (user_data w) (eph_log w ++ [Houses jd lat lon "P"]) (sent w)).
Proof.
  intros Hy Hm Hd Hh Hmi Hz jd Hlon.
  destruct (get_zodiac_sign_longitude _ Hlon) as [sign Hs].
  exists sign. split; [exact Hs |].
  unfold calculate_ascendant, get_timezone.
  rewrite bind_lift, Hz.
  rewrite bind_lift, mk_datetime_valid by (try assumption; lia).
  fold jd. unfold bind at 1. unfold ephemeris at 1.
  rewrite bind_lift, Hs. reflexivity.
Qed.

End ChartCalls.
(** The place step up to the second store: when the place and its time
    zone resolve and the database answers for the ten bodies, the chart
    is computed and stored, and what is left of the handler is the
    query for the description of the ascendant, the second store and
    the answer. *)
Lemma handle_message_chart_stored (env : collaborators) (w : world)
    (text : string) (d : datetime) (h mi : Z) (lat lon : Q) (zone : string) :
  user_data w !! "birth_date" = Some (VDate d) ->
  user_data w !! "birth_time" = Some (VTime (h, mi)) ->
  user_data w !! "birth_place" = None ->
  (exists t, validate_date t = Ok d) ->
  1000 <= year d ->
  (exists t, validate_time t = Ok (h, mi)) ->
  geocode env text = Some (lat, lon) ->
  timezone_at env lat lon = Some zone ->
  let local_dt := DateTime (year d) (month d) (day d) h mi 0 in
  let jd_bodies := julday_of env local_dt in
  let jd_houses := julday_of env (to_utc env zone local_dt) in
  (forall b, In b body_indexes -> is_longitude (calc_ut env jd_bodies b)) ->
  is_longitude (houses_asc env jd_houses lat lon "P") ->
  db_answers_on env planets ->
  exists chart sign,
    (forall name, In name planets -> is_Some (chart !! name)) /\
    get_zodiac_sign (houses_asc env jd_houses lat lon "P") = Ok sign /\
    handle_message env text w
    = try_except
        (let* description :=
           lift (get_planet_description env "Асцендент" sign) in
         set_item "ascendant"
           (VPos (Position (houses_asc env jd_houses lat lon "P") sign
                           description)) ;;
         send (ReplyText msg_chart_ready (Some buttons)))
        (fun e => send (ReplyText e None))
        (World (<["nat_chart" := VChart chart]>
                  (<["birth_place" := VPlace (lat, lon)]> (user_data w)))
               (eph_log w ++ SetTopo lon lat 0
                  :: map (CalcUt jd_bodies) body_indexes
                  ++ [Houses jd_houses lat lon "P"])
               (sent w)).
Proof.
  intros Ed Et Ep [td Hvd] Hy1000 [tt' Hvt] Hg Hz local_dt jd_bodies jd_houses
    Hbodies Hasc Hdb.
  destruct (validate_date_sound td d Hvd) as (Hy & Hm & Hd).
  apply validate_time_accepts in Hvt
    as (a & b & c & e & _ & _ & _ & _ & _ & _ & _ & Hh & Hmi).
  destruct (calculate_planet_positions_run env (year d) (month d) (day d) h mi
              lat lon
              (World (<["birth_place" := VPlace (lat, lon)]> (user_data w))
                     (eph_log w) (sent w)))
    as (chart & Ec & Hchart); try assumption; try lia.
  cbn [user_data eph_log sent] in Ec.
  set (w2 := World _ (eph_log w ++ _) _) in Ec.
  destruct (calculate_ascendant_run env (year d) (month d) (day d) h mi
              lat lon zone w2)
    as (sign & Hs & Ea); try assumption; try lia.
  exists chart, sign. split; [exact Hchart |]. split; [exact Hs |].
  unfold handle_message, try_except.
  rewrite bind_contains, bool_decide_eq_true_2 by (rewrite Ed; eauto).
  cbn [negb].
  rewrite bind_contains, bool_decide_eq_true_2 by (rewrite Et; eauto).
  cbn [negb].
  rewrite bind_contains, Ep.
  rewrite bool_decide_eq_false_2 by (intros [? ?]; discriminate).
  cbn [negb]. rewrite bind_lift. unfold get_coordinates. rewrite Hg.
  rewrite bind_set_item.
  rewrite bind_get_item. cbn [user_data].
  rewrite lookup_insert_ne by discriminate. rewrite Ed.
  cbn [as_date]. change (bind (ret d) ?k ?x) with (k d x). cbn beta.
  rewrite bind_get_item. cbn [user_data].
  rewrite lookup_insert_ne by discriminate. rewrite Et.
  cbn [as_pair_Z]. change (bind (ret (h, mi)) ?k ?x) with (k (h, mi) x).
  cbn beta iota.
  rewrite bind_get_item. cbn [user_data]. rewrite lookup_insert_eq.
  cbn [as_pair_Q]. change (bind (ret (lat, lon)) ?k ?x) with (k (lat, lon) x).
  cbn beta iota.
  unfold bind at 1. rewrite Ec.
  unfold bind at 1. rewrite Ea.
  rewrite bind_set_item. unfold w2. cbn [user_data eph_log sent].
  rewrite <- app_assoc. reflexivity.
Qed.

(** X6. The place step when everything resolves, for any collaborators
    whose database answers: the ephemeris is told the observer, asked
    for the ten bodies at the julian day of the civil clock time and
    for the houses at the julian day of the moment in UTC, and the
    chart is stored with the ascendant, its sign and the description
    the database gave for it. *)
Lemma chart_computation_calls (env : collaborators) (w : world)
    (text : string) (d : datetime) (h mi : Z) (lat lon : Q) (zone : string) :
  user_data w !! "birth_date" = Some (VDate d) ->
  user_data w !! "birth_time" = Some (VTime (h, mi)) ->
  user_data w !! "birth_place" = None ->
  (exists t, validate_date t = Ok d) ->
  1000 <= year d ->
  (exists t, validate_time t = Ok (h, mi)) ->
  geocode env text = Some (lat, lon) ->
  timezone_at env lat lon = Some zone ->
  let local_dt := DateTime (year d) (month d) (day d) h mi 0 in
  let jd_bodies := julday_of env local_dt in
  let jd_houses := julday_of env (to_utc env zone local_dt) in
  (forall b, In b body_indexes -> is_longitude (calc_ut env jd_bodies b)) ->
  is_longitude (houses_asc env jd_houses lat lon "P") ->
  db_answers_on env ("Асцендент" :: planets) ->
  let w' := step env w (Text text) in
  eph_log w'
  = eph_log w ++ SetTopo lon lat 0 :: map (CalcUt jd_bodies) body_indexes
              ++ [Houses jd_houses lat lon "P"] /\
  sent w' = sent w ++ [ReplyText msg_chart_ready (Some buttons)] /\
  stage_of (user_data w') = ChartReady /\
  (exists chart, user_data w' !! "nat_chart" = Some (VChart chart) /\
                 forall name, In name planets -> is_Some (chart !! name)) /\
  (exists sign description,
     get_zodiac_sign (houses_asc env jd_houses lat lon "P") = Ok sign /\
     get_planet_description env "Асцендент" sign = Ok description /\
     user_data w' !! "ascendant"
     = Some (VPos (Position (houses_asc env jd_houses lat lon "P") sign
                            description))).
Proof.
  intros Ed Et Ep Hvd Hy1000 Hvt Hg Hz local_dt jd_bodies jd_houses
    Hbodies Hasc Hdb w'.
  destruct (handle_message_chart_stored env w text d h mi lat lon zone)
    as (chart & sign & Hchart & Hs & E); try assumption.
  { intros table s Hin. apply Hdb. now right. }
  destruct (get_planet_description_answers env _ "Асцендент" sign Hdb)
    as [description Hdesc]; [now left |].
  unfold w', step. cbn [dispatch]. rewrite E.
  unfold try_except. rewrite bind_lift, Hdesc.
  cbn [bind set_item send snd eph_log sent user_data].
  split; [reflexivity |].
  split; [reflexivity |].
  split; [| split].
  - unfold stage_of. map_lookups. now rewrite Ed, Et.
  - exists chart. split; [| exact Hchart]. now map_lookups.
  - exists sign, description. split; [exact Hs |]. split; [exact Hdesc |].
    now map_lookups.
Qed.
(** C3. The chart is stored before the description of the ascendant is
    asked of the database.  In a session reached from a fresh one in
    which the date and the time are set, for a place and a time zone
    that resolve and a database that answers for the ten bodies: when
    the query for the ascendant raises [sqlite3.Error], the handler
    ends with that exception, the chart is in the session without the
    ascendant, nothing is sent, the button of the ascendant raises a
    key error and no later text is handled. *)
Theorem chart_stored_without_ascendant
    (env : collaborators) (us : list update) (text : string) (d : datetime)
    (h mi : Z) (lat lon : Q) (zone sign msg : string) :
  let w := run env fresh us in
  user_data w !! "birth_date" = Some (VDate d) ->
  user_data w !! "birth_time" = Some (VTime (h, mi)) ->
  user_data w !! "birth_place" = None ->
  1000 <= year d ->
  geocode env text = Some (lat, lon) ->
  timezone_at env lat lon = Some zone ->
  let local_dt := DateTime (year d) (month d) (day d) h mi 0 in
  let jd_bodies := julday_of env local_dt in
  let jd_houses := julday_of env (to_utc env zone local_dt) in
  (forall b, In b body_indexes -> is_longitude (calc_ut env jd_bodies b)) ->
  is_longitude (houses_asc env jd_houses lat lon "P") ->
  db_answers_on env planets ->
  get_zodiac_sign (houses_asc env jd_houses lat lon "P") = Ok sign ->
  zodiac_db env "Асцендент" sign = Raise (Sqlite3Error msg) ->
  let w' := step env w (Text text) in
  fst (handle_message env text w) = Raise (Sqlite3Error msg) /\
  (exists chart,
     user_data w'
     = <["nat_chart" := VChart chart]>
         (<["birth_place" := VPlace (lat, lon)]> (user_data w)) /\
     forall name, In name planets -> is_Some (chart !! name)) /\
  birth_input_complete (user_data w') /\
  is_Some (user_data w' !! "nat_chart") /\
  user_data w' !! "ascendant" = None /\
  sent w' = sent w /\
  fst (button_callback "Асцендент" w') = Raise (KeyError "ascendant") /\
  forall text', step env w' (Text text') = w'.
Proof.
  intros w Ed Et Ep Hy1000 Hg Hz local_dt jd_bodies jd_houses Hbodies Hasc
    Hdb Hsign Hraise w'.
  destruct (run_session_invariant env us fresh (session_invariant_fresh env))
    as ((Fd & Ft & _) & Hc & _).
  fold w in Fd, Ft, Hc.
  destruct (Fd _ Ed) as (td & d0 & Hvd & Hd0). injection Hd0 as <-.
  destruct (Ft _ Et) as (tt' & hm & Hvt & Hhm). injection Hhm as <-.
  assert (Ea : user_data w !! "ascendant" = None).
  { destruct (user_data w !! "ascendant") as [va |] eqn:E; [| reflexivity].
    destruct Hc as (_ & _ & [vp Ep']); [right; eauto | congruence]. }
  destruct (handle_message_chart_stored env w text d h mi lat lon zone)
    as (chart & sign' & Hchart & Hs & E); eauto.
  fold local_dt jd_bodies jd_houses in Hs, E.
  assert (sign' = sign) by congruence. subst sign'.
  assert (Hdesc : get_planet_description env "Асцендент" sign
                  = Raise (Sqlite3Error msg)).
  { unfold get_planet_description. now rewrite Hraise. }
  unfold try_except in E. rewrite bind_lift, Hdesc in E.
  unfold w', step. cbn [dispatch]. rewrite E. cbn [fst snd user_data sent].
  assert (Hcomplete : birth_input_complete
            (<["nat_chart" := VChart chart]>
               (<["birth_place" := VPlace (lat, lon)]> (user_data w)))).
  { unfold birth_input_complete. map_lookups. rewrite Ed, Et.
    repeat split; eauto. }
  split; [reflexivity |].
  split; [exists chart; split; [reflexivity | exact Hchart] |].
  split; [exact Hcomplete |].
  split; [map_lookups; eauto |].
  split; [map_lookups; exact Ea |].
  split; [reflexivity |].
  split.
  - unfold button_callback.
    replace (String.eqb "Асцендент" "new_chart") with false by reflexivity.
    rewrite String.eqb_refl, bind_send. cbn beta iota.
    unfold bind at 1. rewrite bind_get_item.
    cbn [user_data]. map_lookups. now rewrite Ea.
  - intros text'. now rewrite handle_message_ignored.
Qed.
(** C9. In a session that holds the position a label selects, pressing
    the label answers the query, edits the message to the label, the
    stored degree rounded to the nearest hundredth, the stored sign
    and, on a second line, the stored description, and shows the
    buttons again; the session and the log of ephemeris calls stay as
    they were, and a second press gives the same answer again. *)
Theorem button_callback_repeatable (data : string) (p : position) (w : world) :
  data <> "new_chart" ->
  selected (user_data w) data = Some p ->
  let hundredths := round_half_even (Qabs (degree p) * 100) in
  let degrees :=
    (if Qlt_le_dec (degree p) 0 then "-" else "")
      +:+ py_str (hundredths / 100) +:+ "." +:+ two_digits (hundredths mod 100) in
  let answer :=
    data +:+ ": " +:+ degrees +:+ "° в знаке " +:+ zodiac_sign p
      +:+ String "010" "" +:+ "Описание: " +:+ description p in
  let shown := [ AnswerQuery; EditMessageText answer; EditReplyMarkup buttons ] in
  let w1 := World (user_data w) (eph_log w) (sent w ++ shown) in
  let w2 := World (user_data w) (eph_log w) ((sent w ++ shown) ++ shown) in
  (Qabs (inject_Z hundredths - Qabs (degree p) * 100) <= 1 # 2)%Q /\
  button_callback data w = (Ok tt, w1) /\
  button_callback data w1 = (Ok tt, w2).
Proof.
  intros Hnew Hsel hundredths degrees answer shown w1 w2.
  assert (Hshow : show_position data p = answer) by reflexivity.
  assert (press : forall w0, user_data w0 = user_data w ->
            button_callback data w0
            = (Ok tt, World (user_data w0) (eph_log w0) (sent w0 ++ shown))).
  { intros w0 Hud. unfold shown. rewrite <- Hshow.
    clear Hshow w1 w2 shown answer degrees hundredths.
    unfold button_callback.
    rewrite (eqb_new_chart_false data Hnew).
    unfold selected in Hsel.
    destruct (String.eqb data "Асцендент") eqn:Easc.
    - destruct (user_data w !! "ascendant") as [[| | | | q] |] eqn:E;
        try discriminate.
      injection Hsel as ->.
      apply String.eqb_eq in Easc. subst data.
      rewrite bind_send. cbn beta. unfold bind at 1.
      rewrite bind_get_item. cbn [user_data]. rewrite Hud, E.
      cbn [as_position]. unfold bind, ret, send_planet_buttons, send.
      cbn [user_data eph_log sent fst snd app].
      rewrite <- !app_assoc. reflexivity.
    - destruct (user_data w !! "nat_chart") as [[| | | chart |] |] eqn:E;
        try discriminate.
      rewrite bind_send. cbn beta. unfold bind at 1.
      rewrite bind_get_item. cbn [user_data]. rewrite Hud, E.
      cbn [as_chart]. unfold bind at 1. unfold ret at 1. rewrite Hsel.
      unfold bind, ret, send_planet_buttons, send.
      cbn [user_data eph_log sent fst snd app].
      rewrite <- !app_assoc. reflexivity. }
  split; [apply round_half_even_nearest |].
  split.
  - rewrite (press w eq_refl). reflexivity.
  - rewrite (press w1 eq_refl). reflexivity.
Qed.

(** C2. A place that the geocoder resolves and for which no time zone
    is known: the exception is answered, but the coordinates stored
    before the chart computation stay in the session, which is then
    neither awaiting the place nor holding a chart, and no later text
    is handled. *)
Theorem place_stored_before_chart_fails
    (env : collaborators) (us : list update) (text : string) (ll : Q * Q) :
  let w := run env fresh us in
  stage_of (user_data w) = AwaitingPlace ->
  geocode env text = Some ll ->
  timezone_at env (fst ll) (snd ll) = None ->
  let w' := step env w (Text text) in
  user_data w' = <["birth_place" := VPlace ll]> (user_data w) /\
  user_data w' <> user_data w /\
  stage_of (user_data w') = PlaceWithoutChart /\
  forall text', step env w' (Text text') = w'.
Proof.
  intros w Hs Hg Hz w'.
  assert (E : user_data w' = <["birth_place" := VPlace ll]> (user_data w)).
  { unfold w', step. cbn [dispatch]. now apply place_kept_session. }
  pose proof Hs as Hs'. apply stage_awaiting_place in Hs' as ([vd Ed] & [vt Et] & Hp).
  assert (Hnc : user_data w !! "nat_chart" = None).
  { destruct (run_session_invariant env us fresh (session_invariant_fresh env))
      as (_ & Hc & _).
    fold w in Hc. destruct (user_data w !! "nat_chart") as [vc |] eqn:Ec;
      [| reflexivity].
    destruct Hc as (_ & _ & [vp Ep]); [left; eauto | congruence]. }
  split; [exact E |]. split; [| split].
  - intros Heq. rewrite E in Heq.
    apply (f_equal (fun m => m !! "birth_place")) in Heq.
    rewrite lookup_insert_eq, Hp in Heq. discriminate.
  - rewrite E. unfold stage_of. map_lookups. now rewrite Ed, Et, Hnc.
  - intros text'. unfold step. cbn [dispatch].
    rewrite handle_message_ignored; [reflexivity |].
    rewrite E. unfold birth_input_complete. map_lookups.
    rewrite Ed, Et. repeat split; eauto.
Qed.

Lemma place_stored_before_chart_fails_witness :
  stage_of (user_data (run demo fresh date_and_time)) = AwaitingPlace /\
  stage_of (user_data (step demo (run demo fresh date_and_time)
                                 (Text "Точка Немо")))
  = PlaceWithoutChart.
Proof.
  assert (Hs : stage_of (user_data (run demo fresh date_and_time)) = AwaitingPlace)
    by (vm_compute; reflexivity).
  assert (Hg : geocode demo "Точка Немо" = Some point_nemo)
    by (vm_compute; reflexivity).
  assert (Hz : timezone_at demo (fst point_nemo) (snd point_nemo) = None)
    by (vm_compute; reflexivity).
  split; [exact Hs |].
  exact (proj1 (proj2 (proj2
    (place_stored_before_chart_fails demo date_and_time "Точка Немо"
       point_nemo Hs Hg Hz)))).
Defined.

Lemma chart_stored_without_ascendant_witness :
  let w := step demo_without_ascendant
             (run demo_without_ascendant fresh date_and_time) (Text "Москва") in
  is_Some (user_data w !! "nat_chart") /\
  user_data w !! "ascendant" = None /\
  fst (button_callback "Асцендент" w) = Raise (KeyError "ascendant").
Proof.
  set (env := demo_without_ascendant).
  set (w0 := run env fresh date_and_time).
  assert (Ed : user_data w0 !! "birth_date"
               = Some (VDate (DateTime 1990 6 15 0 0 0)))
    by (vm_compute; reflexivity).
  assert (Et : user_data w0 !! "birth_time" = Some (VTime (8, 45)))
    by (vm_compute; reflexivity).
  assert (Ep : user_data w0 !! "birth_place" = None) by (vm_compute; reflexivity).
  assert (Hy : 1000 <= year (DateTime 1990 6 15 0 0 0)) by (cbn; lia).
  assert (Hg : geocode env "Москва" = Some (fst moscow, snd moscow))
    by (vm_compute; reflexivity).
  assert (Hz : timezone_at env (fst moscow) (snd moscow) = Some "Europe/Moscow")
    by (vm_compute; reflexivity).
  assert (Hb : forall b, In b body_indexes ->
             is_longitude
               (calc_ut env (julday_of env (DateTime 1990 6 15 8 45 0)) b)).
  { intros b Hb. unfold body_indexes in Hb. cbn [In] in Hb.
    repeat destruct Hb as [<- | Hb]; try contradiction;
      (split; [vm_compute; discriminate | vm_compute; reflexivity]). }
  assert (Ha : is_longitude
                 (houses_asc env
                    (julday_of env
                       (to_utc env "Europe/Moscow" (DateTime 1990 6 15 8 45 0)))
                    (fst moscow) (snd moscow) "P")).
  { split; [vm_compute; discriminate | vm_compute; reflexivity]. }
  assert (Hdb : db_answers_on env planets).
  { intros table sign Hin. unfold planets in Hin. cbn [In] in Hin.
    repeat destruct Hin as [<- | Hin]; try contradiction;
      match goal with
      | |- context [zodiac_db env ?t sign] =>
          change (zodiac_db env t sign) with (demo_zodiac_db t sign)
      end;
      unfold demo_zodiac_db; destruct (String.eqb sign "Рыбы"); eauto. }
  assert (Hs : get_zodiac_sign
                 (houses_asc env
                    (julday_of env
                       (to_utc env "Europe/Moscow" (DateTime 1990 6 15 8 45 0)))
                    (fst moscow) (snd moscow) "P") = Ok "Водолей")
    by (vm_compute; reflexivity).
  assert (Hr : zodiac_db env "Асцендент" "Водолей"
               = Raise (Sqlite3Error "no such table: Асцендент"))
    by (vm_compute; reflexivity).
  destruct (chart_stored_without_ascendant env date_and_time "Москва" _ 8 45
              _ _ "Europe/Moscow" "Водолей" _ Ed Et Ep Hy Hg Hz Hb Ha Hdb Hs Hr)
    as (_ & _ & _ & Hchart & Hasc & _ & Hkey & _).
  split; [exact Hchart |]. split; [exact Hasc | exact Hkey].
Defined.

Lemma button_callback_repeatable_witness :
  let w := run demo fresh moscow_session in
  let p := Position (inject_Z 308) "Водолей" "Солнце в знаке Водолей" in
  let shown :=
    [ AnswerQuery;
      EditMessageText
        ("Солнце: 308.00° в знаке Водолей"
           +:+ String "010" "Описание: Солнце в знаке Водолей");
      EditReplyMarkup buttons ] in
  selected (user_data w) "Солнце" = Some p /\
  button_callback "Солнце" w
  = (Ok tt, World (user_data w) (eph_log w) (sent w ++ shown)) /\
  button_callback "Солнце"
    (World (user_data w) (eph_log w) (sent w ++ shown))
  = (Ok tt, World (user_data w) (eph_log w) ((sent w ++ shown) ++ shown)).
Proof.
  intros w p shown.
  assert (Hn : "Солнце" <> "new_chart") by discriminate.
  assert (Hs : selected (user_data w) "Солнце" = Some p)
    by (vm_compute; reflexivity).
  split; [exact Hs |].
  destruct (button_callback_repeatable "Солнце" p w Hn Hs) as (_ & E1 & E2).
  split; [exact E1 | exact E2].
Defined.

(** C1. On the stand-ins, for the birth 15.06.1990 08:45 in Moscow:
    the ten bodies are asked for once each and the houses once, but
    the bodies are asked at the julian day of the civil clock time and
    only the houses at the julian day of the moment in UTC, and the two
    julian days differ by the four hours of the zone. *)
Theorem bodies_and_houses_julian_days :
  let w := run demo fresh moscow_session in
  stage_of (user_data w) = ChartReady /\
  body_calls (eph_log w) = map (fun body => (jd_civil, body)) body_indexes /\
  house_calls (eph_log w) = [jd_utc] /\
  (jd_civil - jd_utc == 4 / 24)%Q /\
  ~ (jd_civil == jd_utc)%Q.
Proof.
  intros w.
  split; [vm_compute; reflexivity |].
  split; [vm_compute; reflexivity |].
  split; [vm_compute; reflexivity |].
  split; [vm_compute; reflexivity |].
  intros H. vm_compute in H. discriminate H.
Qed.

(** A second way into the same state: a validated year below 1000 is
    printed with fewer than four digits, the date text of the planets
    is not parsed back, and the place stays stored without a chart. *)
Example year_below_1000_stalls :
  let w := run demo fresh [Text "01.01.0999"; Text "08:45"; Text "Москва"] in
  stage_of (user_data w) = PlaceWithoutChart /\
  eph_log w = [] /\
  sent w = [ ReplyText prompt_time None; ReplyText prompt_place None;
             ReplyText
               "time data '999-1-1 8:45:00' does not match format '%Y-%m-%d %H:%M:%S'"
               None ].
Proof. repeat split. Qed.

(** * Further properties of the code *)

(** ** Signs: the whole real line *)

Lemma py_index_signs_below (i : Z) : i < -12 -> py_index signs i = Raise IndexError.
Proof.
  intros H. unfold py_index. change (Z.of_nat (List.length signs)) with 12.
  destruct (i <? 0) eqn:E; [| apply Z.ltb_ge in E; lia].
  destruct (0 <=? i + 12) eqn:E2; [apply Z.leb_le in E2; lia | reflexivity].
Qed.

Lemma floordiv_band (k : Z) (d : Q) :
  floordiv_int d 30 = k <->
  (inject_Z k * 30 <= d)%Q /\ (d < inject_Z (k + 1) * 30)%Q.
Proof.
  assert (E : (d / 30 * 30 == d)%Q)
    by (rewrite Qmult_comm; apply Qmult_div_r; discriminate).
  split.
  - intros <-. unfold floordiv_int. split.
    + apply Qle_trans with (y := (d / 30 * 30)%Q).
      * apply Qmult_le_compat_r; [apply Qfloor_le | discriminate].
      * rewrite E. apply Qle_refl.
    + apply Qle_lt_trans with (y := (d / 30 * 30)%Q).
      * rewrite E. apply Qle_refl.
      * apply Qmult_lt_compat_r; [reflexivity | apply Qlt_floor].
  - intros [H1 H2].
    pose proof (floordiv_lower k d H1). pose proof (floordiv_upper (k + 1) d H2).
    lia.
Qed.

Lemma signs_NoDup : List.NoDup signs.
Proof.
  apply NoDup_ListNoDup. apply (bool_decide_unpack _). vm_compute. exact I.
Qed.

Lemma signs_index_unique (i j : nat) (s : string) :
  nth_error signs i = Some s -> nth_error signs j = Some s -> i = j.
Proof.
  intros Hi Hj.
  apply (proj1 (NoDup_nth_error signs) signs_NoDup).
  - apply nth_error_Some. congruence.
  - congruence.
Qed.

Lemma get_zodiac_sign_inside (d : Q) :
  (-360 <= d)%Q -> (d < 360)%Q -> exists s, get_zodiac_sign d = Ok s.
Proof.
  intros Hlow Hhigh. unfold get_zodiac_sign.
  destruct (Qlt_le_dec d 0) as [Hneg | Hpos].
  - destruct (py_index_signs_negative (floordiv_int d 30)) as (s & _ & Hs).
    + split; [apply (floordiv_lower (-12)); exact Hlow
             | apply (floordiv_upper 0); exact Hneg].
    + now exists s.
  - destruct (py_index_signs_inside (floordiv_int d 30)) as (s & _ & Hs).
    + split; [apply (floordiv_lower 0); exact Hpos
             | apply (floordiv_upper 12); exact Hhigh].
    + now exists s.
Qed.

Lemma get_zodiac_sign_outside (d : Q) :
  (d < -360)%Q \/ (360 <= d)%Q -> get_zodiac_sign d = Raise IndexError.
Proof.
  unfold get_zodiac_sign. intros [Hlow | Hhigh].
  - apply py_index_signs_below. apply (floordiv_upper (-12)). exact Hlow.
  - apply py_index_signs_above. apply (floordiv_lower 12). exact Hhigh.
Qed.

(** X1. get_zodiac_sign returns a sign exactly for the degrees of
    [-360, 360), and raises IndexError exactly for the others: below
    -360 like from 360 on. *)
Theorem get_zodiac_sign_defined_iff (d : Q) :
  ((exists s, get_zodiac_sign d = Ok s) <-> (-360 <= d)%Q /\ (d < 360)%Q) /\
  (get_zodiac_sign d = Raise IndexError <-> (d < -360)%Q \/ (360 <= d)%Q).
Proof.
  split; split.
  - intros [s Hs].
    destruct (Qlt_le_dec d (-360)) as [Hlow | Hlow].
    { rewrite get_zodiac_sign_outside in Hs by now left. discriminate. }
    destruct (Qlt_le_dec d 360) as [Hhigh | Hhigh]; [now split |].
    rewrite get_zodiac_sign_outside in Hs by now right. discriminate.
  - intros [Hlow Hhigh]. now apply get_zodiac_sign_inside.
  - intros Hr.
    destruct (Qlt_le_dec d (-360)) as [Hlow | Hlow]; [now left |].
    destruct (Qlt_le_dec d 360) as [Hhigh | Hhigh]; [| now right].
    destruct (get_zodiac_sign_inside d Hlow Hhigh) as [s Hs]. congruence.
  - apply get_zodiac_sign_outside.
Qed.

(** X2. The sign at index [k] of the list is returned exactly on its
    band of thirty degrees, [30k, 30k + 30), and on the same band moved
    down by 360 degrees, which the negative index reaches. *)
Theorem get_zodiac_sign_band (d : Q) (k : nat) (s : string) :
  nth_error signs k = Some s ->
  get_zodiac_sign d = Ok s <->
  ((inject_Z (Z.of_nat k) * 30 <= d)%Q /\
   (d < inject_Z (Z.of_nat k + 1) * 30)%Q) \/
  ((inject_Z (Z.of_nat k - 12) * 30 <= d)%Q /\
   (d < inject_Z (Z.of_nat k - 12 + 1) * 30)%Q).
Proof.
  intros Hk.
  assert (Hk12 : (k < 12)%nat).
  { change 12%nat with (List.length signs). apply nth_error_Some. congruence. }
  rewrite <- !floordiv_band. unfold get_zodiac_sign.
  set (i := floordiv_int d 30). split.
  - intros Hs.
    destruct (Z_lt_le_dec i (-12)) as [L | L];
      [rewrite py_index_signs_below in Hs by exact L; discriminate |].
    destruct (Z_lt_le_dec i 12) as [U | U];
      [| rewrite py_index_signs_above in Hs by exact U; discriminate].
    destruct (Z_lt_le_dec i 0) as [N | N].
    + right. destruct (py_index_signs_negative i) as (s' & Hn & Hs'); [lia |].
      assert (s' = s) by congruence. subst s'.
      pose proof (signs_index_unique _ _ _ Hn Hk). lia.
    + left. destruct (py_index_signs_inside i) as (s' & Hn & Hs'); [lia |].
      assert (s' = s) by congruence. subst s'.
      pose proof (signs_index_unique _ _ _ Hn Hk). lia.
  - intros [E | E].
    + destruct (py_index_signs_inside i) as (s' & Hn & Hs'); [lia |].
      rewrite Hs'. f_equal.
      rewrite E, Nat2Z.id in Hn. congruence.
    + destruct (py_index_signs_negative i) as (s' & Hn & Hs'); [lia |].
      rewrite Hs'. f_equal.
      replace (Z.to_nat (12 + i)) with k in Hn by lia. congruence.
Qed.

Lemma get_zodiac_sign_band_witness :
  get_zodiac_sign 30 = Ok "Телец" /\ get_zodiac_sign (-330) = Ok "Телец".
Proof.
  assert (Hk : nth_error signs 1 = Some "Телец") by reflexivity.
  split.
  - apply (proj2 (get_zodiac_sign_band 30 1 "Телец" Hk)).
    left. split; [discriminate | reflexivity].
  - apply (proj2 (get_zodiac_sign_band (-330) 1 "Телец" Hk)).
    right. split; [discriminate | reflexivity].
Defined.

(** ** Validators: the texts accepted *)

Lemma clock_hhmm_all :
  forallb (fun h => forallb (clock_hhmm_ok h) (range_Z 0 60)) (range_Z 0 24)
  = true.
Proof. vm_compute. reflexivity. Qed.

Lemma two_digits_all :
  forallb (fun a => forallb (two_digits_ok a) chars_0_9) chars_0_9 = true.
Proof. vm_compute. reflexivity. Qed.

Lemma two_digits_chars (a b : ascii) :
  is_digit a = true -> is_digit b = true ->
  two_digits (10 * digit_val a + digit_val b) = String a (String b EmptyString).
Proof.
  intros Ha Hb. pose proof two_digits_all as T.
  rewrite forallb_forall in T. specialize (T a (is_digit_0_9 a Ha)).
  rewrite forallb_forall in T. specialize (T b (is_digit_0_9 b Hb)).
  now apply String.eqb_eq in T.
Qed.

Lemma in_class_is_digit (lo hi c : ascii) :
  is_digit lo = true -> is_digit hi = true ->
  in_class lo hi c = true -> is_digit c = true.
Proof.
  unfold is_digit, in_class. intros Hlo Hhi H.
  apply andb_true_iff in Hlo as [L1 L2], Hhi as [H1 H2], H as [C1 C2].
  apply andb_true_iff. rewrite !Z.leb_le in *. lia.
Qed.

(** X3. validate_time returns [(h, m)] exactly for the text [HH:MM] of
    an hour from 0 to 23 and a minute from 0 to 59, both written with
    two digits, and for that text followed by one line feed. *)
Theorem validate_time_exact (time_str : string) (h m : Z) :
  validate_time time_str = Ok (h, m) <->
  0 <= h <= 23 /\ 0 <= m <= 59 /\
  (time_str = clock_hhmm h m \/ time_str = clock_hhmm h m +:+ line_feed).
Proof.
  split.
  - intros H. apply validate_time_accepts in H
      as (a & b & c & d & Ha & Hb & Hc & Hd & Hs & -> & -> & Rh & Rm).
    split; [exact Rh |]. split; [exact Rm |].
    assert (Da : is_digit a = true)
      by now apply (in_class_is_digit "0" "2").
    assert (Dc : is_digit c = true)
      by now apply (in_class_is_digit "0" "5").
    unfold clock_hhmm.
    rewrite (two_digits_chars a b Da Hb), (two_digits_chars c d Dc Hd).
    exact Hs.
  - intros (Rh & Rm & Hs). pose proof clock_hhmm_all as T.
    rewrite forallb_forall in T.
    specialize (T h (in_range_Z 0 24 h ltac:(lia))).
    rewrite forallb_forall in T.
    specialize (T m (in_range_Z 0 60 m ltac:(lia))).
    unfold clock_hhmm_ok in T. apply andb_true_iff in T as [T1 T2].
    apply same_time_result_eq in T1, T2.
    destruct Hs as [-> | ->]; assumption.
Qed.

(** ** validate_date: what it returns and what it takes *)

Lemma plus_iter_groups_other (step : mstate -> list (string * mstate))
    (n : string) :
  (forall st t st', In (t, st') (step st) ->
                    group n (m_groups st') = group n (m_groups st)) ->
  forall fuel st t st',
    In (t, st') (plus_iter step fuel st) ->
    group n (m_groups st') = group n (m_groups st).
Proof.
  intros Hstep. induction fuel as [| k IH]; intros st t st' Hin; [destruct Hin |].
  cbn [plus_iter] in Hin. apply in_flat_map in Hin as ([t1 st1] & H1 & H2).
  cbn [fst snd] in H2. pose proof (Hstep _ _ _ H1) as E1.
  destruct t1 as [| c t1].
  - destruct H2 as [H2 | []]. injection H2 as <- <-. exact E1.
  - apply in_app_or in H2 as [H2 | [H2 | []]].
    + unfold prefixed in H2. apply in_map_iff in H2 as ([t2 st2] & E & H2).
      cbn [fst snd] in E. injection E as <- <-.
      rewrite (IH _ _ _ H2). exact E1.
    + injection H2 as <- <-. exact E1.
Qed.

(** A match leaves alone the groups that the regex does not name. *)
Lemma rmatch_groups_other (n : string) (r : regex) :
  ~ In n (group_names r) ->
  forall st t st', In (t, st') (rmatch r st) ->
                   group n (m_groups st') = group n (m_groups st).
Proof.
  assert (Heat : forall p st t st', In (t, st') (eat p st) ->
                   group n (m_groups st') = group n (m_groups st)).
  { intros p st t st' H. unfold eat in H.
    destruct (m_rest st) as [| c rest]; [destruct H |].
    destruct (p c); [| destruct H].
    destruct H as [H | []]. now injection H as <- <-. }
  induction r as [c | lo hi | | | r1 IH1 r2 IH2 | r1 IH1 r2 IH2 | r1 IH1
                  | name r1 IH1 | | | ];
    intros Hn st t st' Hin; cbn [rmatch group_names] in *; eauto.
  - apply in_flat_map in Hin as ([t1 st1] & H1 & H2). cbn [fst snd] in H2.
    unfold prefixed in H2. apply in_map_iff in H2 as ([t2 st2] & E & H2).
    cbn [fst snd] in E. injection E as <- <-.
    rewrite (IH2 ltac:(intros X; apply Hn, in_or_app; now right) _ _ _ H2).
    apply (IH1 ltac:(intros X; apply Hn, in_or_app; now left) _ _ _ H1).
  - apply in_app_or in Hin as [Hin | Hin].
    + apply (IH1 ltac:(intros X; apply Hn, in_or_app; now left) _ _ _ Hin).
    + apply (IH2 ltac:(intros X; apply Hn, in_or_app; now right) _ _ _ Hin).
  - eapply plus_iter_groups_other; [| exact Hin]. apply IH1, Hn.
  - apply in_map_iff in Hin as ([t1 st1] & E & H1). cbn [fst snd] in E.
    injection E as <- <-. cbn [m_groups group].
    destruct (String.eqb name n) eqn:En.
    + apply String.eqb_eq in En. subst. exfalso. apply Hn. now left.
    + apply (IH1 ltac:(intros X; apply Hn; now right) _ _ _ H1).
  - destruct (m_pos st =? 0)%nat; [| destruct Hin].
    destruct Hin as [H | []]. now injection H as <- <-.
  - destruct (m_rest st) as [| c [| c' rest]]; try destruct Hin as [H | []];
      try (now injection H as <- <-); try destruct Hin.
    destruct (Ascii.eqb c "010"); [| destruct Hin].
    destruct Hin as [H | []]. now injection H as <- <-.
  - destruct Hin as [H | []]. now injection H as <- <-.
Qed.

Lemma re_match_in (r : regex) (s : string) (found : mstate) :
  re_match r s = Some found ->
  exists t, In (t, found) (rmatch r (MState 0 s [])).
Proof.
  unfold re_match. destruct (rmatch r _) as [| [t st] l]; [discriminate |].
  intros H. injection H as <-. exists t. now left.
Qed.

Lemma date_format_pattern : pattern false "%d.%m.%Y" = Some date_format_regex.
Proof. reflexivity. Qed.

Lemma date_format_no_time_groups (text : string) (found : mstate) (n : string) :
  re_match (seq_all date_format_regex) text = Some found ->
  n = "H" \/ n = "M" \/ n = "S" ->
  group n (m_groups found) = None.
Proof.
  intros Hf Hn. apply re_match_in in Hf as [t Hin].
  assert (Hnot : ~ In n (group_names (seq_all date_format_regex))).
  { change (group_names (seq_all date_format_regex)) with ["d"; "m"; "Y"].
    intros X. cbn [In] in X.
    destruct Hn as [-> | [-> | ->]];
      repeat destruct X as [X | X]; try discriminate X; exact X. }
  rewrite (rmatch_groups_other n _ Hnot _ _ _ Hin). reflexivity.
Qed.

Lemma strptime_date_format (text : string) (dt : datetime) :
  strptime text "%d.%m.%Y" = Ok dt ->
  exists y m d, mk_datetime y m d 0 0 0 = Ok dt.
Proof.
  unfold strptime. rewrite date_format_pattern.
  destruct (re_match _ text) as [found |] eqn:Ef; [| discriminate].
  destruct (negb _); [discriminate |].
  unfold field.
  rewrite (date_format_no_time_groups text found "H" Ef) by auto.
  rewrite (date_format_no_time_groups text found "M" Ef) by auto.
  rewrite (date_format_no_time_groups text found "S" Ef) by auto.
  unfold rbind.
  repeat match goal with
         | |- match ?r with Ok _ => _ | Raise _ => _ end = _ -> _ =>
             destruct r; [| discriminate]
         end.
  eauto.
Qed.

(** X4. What validate_date returns is a day of the calendar, leap
    years counted, in a year from 1 to 2024, at 00:00:00. *)
Theorem validate_date_returns (date_str : string) (dt : datetime) :
  validate_date date_str = Ok dt ->
  1 <= year dt <= 2024 /\ 1 <= month dt <= 12 /\
  1 <= day dt <= days_in_month (year dt) (month dt) /\
  hour dt = 0 /\ minute dt = 0 /\ second dt = 0.
Proof.
  intros H. pose proof (validate_date_sound _ _ H) as (Hy & Hm & Hd).
  repeat (split; [assumption |]).
  unfold validate_date, try_except_ValueError in H.
  destruct (strptime date_str "%d.%m.%Y") as [d0 | e] eqn:Es; cbn [rbind] in H.
  2:{ destruct e; discriminate. }
  destruct (year d0 >? 2024); [discriminate |]. injection H as <-.
  apply strptime_date_format in Es as (y & m & d & Hmk).
  apply mk_datetime_ok in Hmk as (-> & _). repeat split.
Qed.

Lemma validate_date_returns_witness :
  validate_date "29.02.2024" = Ok (DateTime 2024 2 29 0 0 0) /\
  day (DateTime 2024 2 29 0 0 0) <= days_in_month 2024 2.
Proof.
  assert (H : validate_date "29.02.2024" = Ok (DateTime 2024 2 29 0 0 0))
    by reflexivity.
  split; [exact H |].
  exact (proj2 (proj1 (proj2 (proj2 (validate_date_returns _ _ H))))).
Defined.

Lemma year_text_all : forallb year_text_ok (range_Z 0 10000) = true.
Proof. vm_compute. reflexivity. Qed.

Lemma four_digit_year_shape (y : Z) :
  0 <= y <= 9999 ->
  py_int (four_digit_year y) = Ok y /\
  exists a b c d,
    four_digit_year y = String a (String b (String c (String d EmptyString))) /\
    is_digit a = true /\ is_digit b = true /\
    is_digit c = true /\ is_digit d = true.
Proof.
  intros H. pose proof year_text_all as T. rewrite forallb_forall in T.
  specialize (T y (in_range_Z 0 10000 y ltac:(lia))).
  unfold year_text_ok in T. apply andb_true_iff in T as [T1 T2]. split.
  - destruct (py_int (four_digit_year y)) as [k |]; [| discriminate].
    apply Z.eqb_eq in T2. now subst.
  - destruct (four_digit_year y) as [| a [| b [| c [| d [| ? ?]]]]];
      try discriminate.
    apply andb_true_iff in T1 as [T1 Hd].
    apply andb_true_iff in T1 as [T1 Hc].
    apply andb_true_iff in T1 as [Ha Hb].
    exists a, b, c, d. repeat split; assumption.
Qed.

Lemma first_match_year_text (y : Z) p g :
  0 <= y <= 9999 ->
  first_match (directive "Y") (MState p (four_digit_year y) g)
  = Some (four_digit_year y,
          MState (4 + p) "" (("Y", four_digit_year y) :: g)).
Proof.
  intros H.
  destruct (four_digit_year_shape y H)
    as (_ & a & b & c & d & -> & Ha & Hb & Hc & Hd).
  unfold first_match. cbn.
  rewrite Ha. cbn. rewrite Hb. cbn. rewrite Hc. cbn. rewrite Hd. reflexivity.
Qed.

Lemma first_match_day_text (padded : bool) (d : Z) p rest g :
  1 <= d <= 31 ->
  first_match (directive "d")
              (MState p (number_text padded d +:+ String "." rest) g)
  = Some (number_text padded d,
          MState (String.length (number_text padded d) + p) (String "." rest)
                 (("d", number_text padded d) :: g)) /\
  py_int (number_text padded d) = Ok d.
Proof.
  intros H. pose proof (in_range_Z 1 31 d ltac:(lia)) as I.
  destruct padded; each_of I; split; reflexivity.
Qed.

Lemma first_match_month_text (padded : bool) (m : Z) p rest g :
  1 <= m <= 12 ->
  first_match (directive "m")
              (MState p (number_text padded m +:+ String "." rest) g)
  = Some (number_text padded m,
          MState (String.length (number_text padded m) + p) (String "." rest)
                 (("m", number_text padded m) :: g)) /\
  py_int (number_text padded m) = Ok m.
Proof.
  intros H. pose proof (in_range_Z 1 12 m ltac:(lia)) as I.
  destruct padded; each_of I; split; reflexivity.
Qed.

Lemma strptime_date_text (pad_day pad_month : bool) (y m d : Z) :
  0 <= y <= 9999 -> 1 <= m <= 12 -> 1 <= d <= 31 ->
  strptime (date_text pad_day pad_month y m d) "%d.%m.%Y"
  = mk_datetime y m d 0 0 0.
Proof.
  intros Hy Hm Hd.
  destruct (four_digit_year_shape y Hy) as (Iy & a & b & c & e & Sy & _).
  assert (Hf : exists t n,
             first_match (seq_all date_format_regex)
                         (MState 0 (date_text pad_day pad_month y m d) [])
             = Some (t, MState n ""
                          [ ("Y", four_digit_year y);
                            ("m", number_text pad_month m);
                            ("d", number_text pad_day d) ]) /\
             n = String.length (date_text pad_day pad_month y m d)).
  { unfold date_text, date_format_regex. cbn [seq_all].
    change ("." +:+ ?x) with (String "." x).
    eexists _, _. split.
    - eapply first_match_seq;
        [apply (first_match_day_text pad_day d), Hd |].
      eapply first_match_seq; [apply first_match_chr |].
      eapply first_match_seq;
        [apply (first_match_month_text pad_month m), Hm |].
      eapply first_match_seq; [apply first_match_chr |].
      apply first_match_year_text, Hy.
    - rewrite Sy.
      repeat (rewrite string_length_append; cbn [String.length]). lia. }
  destruct Hf as (t & n & Hf & Hn).
  unfold strptime. rewrite date_format_pattern.
  rewrite (re_match_first _ _ _ _ Hf).
  cbn [m_pos m_rest m_groups]. rewrite Hn, Nat.eqb_refl. cbn [negb].
  unfold field. cbn -[py_int py_str mk_datetime four_digit_year number_text].
  unfold Ascii.eqb. cbn -[py_int py_str mk_datetime four_digit_year number_text].
  rewrite Iy.
  rewrite (proj2 (first_match_month_text pad_month m 0 "" [] Hm)).
  rewrite (proj2 (first_match_day_text pad_day d 0 "" [] Hd)).
  reflexivity.
Qed.

(** X5. A date written day.month.year, the year with four digits, the
    day and the month with or without the leading zero, is accepted
    exactly when the day exists in that month (leap years counted) and
    the year is from 1 to 2024; it is then returned as it was written.
    Any other such text gets the invalid-format message. *)
Theorem validate_date_on_dates (pad_day pad_month : bool) (y m d : Z) :
  0 <= y <= 9999 -> 1 <= m <= 12 -> 1 <= d <= 31 ->
  validate_date (date_text pad_day pad_month y m d)
  = if (1 <=? y) && (y <=? 2024) && (d <=? days_in_month y m)
    then Ok (DateTime y m d 0 0 0)
    else Raise (ValueError msg_bad_date).
Proof.
  intros Hy Hm Hd. unfold validate_date.
  rewrite (strptime_date_text pad_day pad_month y m d Hy Hm Hd).
  destruct (1 <=? y) eqn:E1; cbn [andb].
  2:{ apply Z.leb_gt in E1. assert (y = 0) by lia. subst y. reflexivity. }
  apply Z.leb_le in E1.
  destruct (d <=? days_in_month y m) eqn:E3.
  - apply Z.leb_le in E3.
    rewrite mk_datetime_valid by lia. cbn [rbind year].
    rewrite andb_true_r.
    destruct (y <=? 2024) eqn:E2.
    + apply Z.leb_le in E2.
      replace (y >? 2024) with false by (symmetry; rewrite Z.gtb_ltb; apply Z.ltb_ge; lia).
      reflexivity.
    + apply Z.leb_gt in E2.
      replace (y >? 2024) with true by (symmetry; rewrite Z.gtb_ltb; apply Z.ltb_lt; lia).
      reflexivity.
  - apply Z.leb_gt in E3. rewrite andb_false_r.
    unfold mk_datetime, between.
    replace (1 <=? y) with true by (symmetry; apply Z.leb_le; lia).
    replace (y <=? 9999) with true by (symmetry; apply Z.leb_le; lia).
    replace (1 <=? m) with true by (symmetry; apply Z.leb_le; lia).
    replace (m <=? 12) with true by (symmetry; apply Z.leb_le; lia).
    replace (d <=? days_in_month y m) with false
      by (symmetry; apply Z.leb_gt; lia).
    rewrite andb_false_r. reflexivity.
Qed.

Lemma validate_date_on_dates_witness :
  validate_date "29.2.1900" = Raise (ValueError msg_bad_date) /\
  validate_date "07.11.1987" = Ok (DateTime 1987 11 7 0 0 0).
Proof.
  split.
  - exact (validate_date_on_dates false false 1900 2 29
             ltac:(lia) ltac:(lia) ltac:(lia)).
  - exact (validate_date_on_dates true true 1987 11 7
             ltac:(lia) ltac:(lia) ltac:(lia)).
Defined.

(** ** The place branch, step by step *)

(** With the date and the time stored and the place resolved,
    handle_message stores the coordinates and runs the chart step under
    its [except ValueError]. *)
Lemma handle_message_place (env : collaborators) (text : string) (w : world)
    (d : datetime) (h mi : Z) (lat lon : Q) :
  user_data w !! "birth_date" = Some (VDate d) ->
  user_data w !! "birth_time" = Some (VTime (h, mi)) ->
  user_data w !! "birth_place" = None ->
  geocode env text = Some (lat, lon) ->
  handle_message env text w
  = try_except (chart_step env d h mi lat lon)
      (fun e => send (ReplyText e None))
      (World (<["birth_place" := VPlace (lat, lon)]> (user_data w))
             (eph_log w) (sent w)).
Proof.
  intros Ed Et Ep Hg. unfold handle_message, try_except.
  rewrite bind_contains, bool_decide_eq_true_2 by (rewrite Ed; eauto).
  cbn [negb].
  rewrite bind_contains, bool_decide_eq_true_2 by (rewrite Et; eauto).
  cbn [negb].
  rewrite bind_contains, Ep.
  rewrite bool_decide_eq_false_2 by (intros [? ?]; discriminate).
  cbn [negb]. rewrite bind_lift. unfold get_coordinates. rewrite Hg.
  rewrite bind_set_item.
  rewrite bind_get_item. cbn [user_data].
  rewrite lookup_insert_ne by discriminate. rewrite Ed.
  cbn [as_date]. change (bind (ret d) ?k ?x) with (k d x). cbn beta.
  rewrite bind_get_item. cbn [user_data].
  rewrite lookup_insert_ne by discriminate. rewrite Et.
  cbn [as_pair_Z]. change (bind (ret (h, mi)) ?k ?x) with (k (h, mi) x).
  cbn beta iota.
  rewrite bind_get_item. cbn [user_data]. rewrite lookup_insert_eq.
  cbn [as_pair_Q]. change (bind (ret (lat, lon)) ?k ?x) with (k (lat, lon) x).
  cbn beta iota. reflexivity.
Qed.

Lemma short_year_all : forallb short_year (range_Z 0 1000) = true.
Proof. vm_compute. reflexivity. Qed.

Lemma no_match_year_below_1000 (y : Z) (rest : string) (p : nat) g :
  0 <= y <= 999 ->
  rmatch (directive "Y") (MState p (py_str y +:+ String "-" rest) g) = [].
Proof.
  intros H. pose proof short_year_all as T. rewrite forallb_forall in T.
  specialize (T y (in_range_Z 0 1000 y ltac:(lia))). unfold short_year in T.
  destruct (py_str y) as [| a [| b [| c [| ? ?]]]]; try discriminate;
    cbv [String.append]; cbn; repeat match goal with
                | |- context [is_digit ?x] =>
                    first [ progress change (is_digit "-") with false
                          | destruct (is_digit x) ]; cbn
                end; reflexivity.
Qed.

Lemma strptime_year_below_1000 (y m d h mi : Z) :
  0 <= y <= 999 ->
  strptime (date_str y m d h mi) "%Y-%m-%d %H:%M:%S"
  = Raise (ValueError (msg_no_match (date_str y m d h mi) "%Y-%m-%d %H:%M:%S")).
Proof.
  intros H. unfold strptime. rewrite planets_format_pattern.
  unfold re_match, planets_format_regex. cbn [seq_all rmatch].
  unfold date_str at 1. change ("-" +:+ ?x) with (String "-" x).
  rewrite no_match_year_below_1000 by exact H. reflexivity.
Qed.

(** For a year below 1000 calculate_planet_positions raises the
    ValueError of strptime before it calls the ephemeris. *)
Lemma calculate_planet_positions_year_below_1000 (env : collaborators)
    (y m d h mi : Z) (lat lon : Q) (w : world) :
  0 <= y <= 999 ->
  calculate_planet_positions env y m d h mi lat lon w
  = (Raise (ValueError (msg_no_match (date_str y m d h mi) planets_format)), w).
Proof.
  intros H. unfold calculate_planet_positions. fold (date_str y m d h mi).
  rewrite bind_lift, strptime_year_below_1000 by exact H. reflexivity.
Qed.

(** ** The date and the time steps of the conversation *)

Lemma py_int_raises (s : string) (e : exn) :
  py_int s = Raise e -> e = invalid_literal.
Proof.
  unfold py_int. cbv zeta.
  destruct (strip s) as [| c t]; [congruence |].
  destruct c as [[] [] [] [] [] [] [] []]; cbv beta iota;
    try (destruct t as [| c' t']);
    repeat match goal with
           | |- context [if ?b then _ else _] => destruct b
           end;
    intros E; try discriminate E; injection E as <-; reflexivity.
Qed.

Lemma mk_datetime_raises (y m d H M S : Z) (e : exn) :
  mk_datetime y m d H M S = Raise e -> exists msg, e = ValueError msg.
Proof.
  unfold mk_datetime.
  repeat match goal with
         | |- (if ?b then _ else _) = _ -> _ =>
             destruct b; [intros E; injection E as <-; eauto |]
         end.
  discriminate.
Qed.

Lemma strptime_raises (s format : string) (e : exn) :
  strptime s format = Raise e -> exists msg, e = ValueError msg.
Proof.
  unfold strptime.
  destruct (pattern false format); [| intros E; injection E as <-; eauto].
  destruct (re_match _ s) as [found |]; [| intros E; injection E as <-; eauto].
  destruct (negb _); [intros E; injection E as <-; eauto |].
  unfold field, rbind.
  repeat match goal with
         | |- match ?r with Ok _ => _ | Raise _ => _ end = _ -> _ =>
             let E := fresh "E" in
             destruct r eqn:E;
             [| intros X; injection X as <-;
                repeat match goal with
                       | H : match ?g with Some _ => _ | None => _ end = Raise _
                         |- _ => destruct g; [| discriminate H]
                       end;
                match goal with
                | H : py_int _ = Raise _ |- _ =>
                    apply py_int_raises in H; subst; unfold invalid_literal; eauto
                end ]
         end.
  apply mk_datetime_raises.
Qed.

(** Whatever is wrong with a date, the caller sees one message. *)
Lemma validate_date_raises (s : string) (e : exn) :
  validate_date s = Raise e -> e = ValueError msg_bad_date.
Proof.
  unfold validate_date, try_except_ValueError.
  destruct (strptime s "%d.%m.%Y") as [d | e0] eqn:Es; cbn [rbind].
  - destruct (year d >? 2024); [congruence | discriminate].
  - apply strptime_raises in Es as [msg ->]. congruence.
Qed.

Lemma validate_time_raises (s : string) (e : exn) :
  validate_time s = Raise e -> e = ValueError msg_bad_time.
Proof.
  intros H.
  destruct (re_match time_regex s) as [st |] eqn:Em.
  - destruct (time_regex_shape s st Em)
      as (a & b & c & d & Ha & Hb & Hc & Hd & Hs).
    destruct (validate_time_on_clock_text a b c d Ha Hb Hc Hd) as [V1 V2].
    assert (E : expected_time a b c d = Raise e)
      by (destruct Hs as [-> | ->]; congruence).
    unfold expected_time in E. destruct (_ <=? 23); [discriminate | congruence].
  - unfold validate_time in H. rewrite Em in H. congruence.
Qed.

(** X7. While no date is stored, a text is taken as the date: a valid
    one is stored and the time is asked for; for any other the session
    stays as it was and the invalid-date message is the answer.  The
    ephemeris is not called. *)
Theorem date_step (env : collaborators) (text : string) (w : world) :
  user_data w !! "birth_date" = None ->
  handle_message env text w
  = match validate_date text with
    | Ok valid_date =>
        (Ok tt, World (<["birth_date" := VDate valid_date]> (user_data w))
                      (eph_log w) (sent w ++ [ReplyText prompt_time None]))
    | Raise _ =>
        (Ok tt, World (user_data w) (eph_log w)
                      (sent w ++ [ReplyText msg_bad_date None]))
    end.
Proof.
  intros Ed. unfold handle_message, try_except.
  rewrite bind_contains, Ed.
  rewrite bool_decide_eq_false_2 by (intros [? ?]; discriminate).
  cbn [negb]. rewrite bind_lift.
  destruct (validate_date text) as [d | e] eqn:Ev; [reflexivity |].
  apply validate_date_raises in Ev. subst e. reflexivity.
Qed.

Lemma date_step_witness :
  handle_message demo "31.02.2024" fresh
  = (Ok tt, World ∅ [] [ReplyText msg_bad_date None]).
Proof.
  assert (H : user_data fresh !! "birth_date" = None) by reflexivity.
  exact (date_step demo "31.02.2024" fresh H).
Defined.

(** X8. With a date stored and no time, a text is taken as the time:
    a valid one is stored as the pair of hour and minute and the place
    is asked for; for any other the session stays as it was and the
    invalid-time message is the answer. *)
Theorem time_step (env : collaborators) (text : string) (w : world) :
  is_Some (user_data w !! "birth_date") ->
  user_data w !! "birth_time" = None ->
  handle_message env text w
  = match validate_time text with
    | Ok (hour, minute) =>
        (Ok tt, World (<["birth_time" := VTime (hour, minute)]> (user_data w))
                      (eph_log w) (sent w ++ [ReplyText prompt_place None]))
    | Raise _ =>
        (Ok tt, World (user_data w) (eph_log w)
                      (sent w ++ [ReplyText msg_bad_time None]))
    end.
Proof.
  intros Hd Et. unfold handle_message, try_except.
  rewrite bind_contains, bool_decide_eq_true_2 by exact Hd. cbn [negb].
  rewrite bind_contains, Et.
  rewrite bool_decide_eq_false_2 by (intros [? ?]; discriminate).
  cbn [negb]. rewrite bind_lift.
  destruct (validate_time text) as [[h m] | e] eqn:Ev; [reflexivity |].
  apply validate_time_raises in Ev. subst e. reflexivity.
Qed.

Lemma time_step_witness :
  handle_message demo "24:00" (run demo fresh [Text "15.06.1990"])
  = (Ok tt,
     World (user_data (run demo fresh [Text "15.06.1990"])) []
           [ReplyText prompt_time None; ReplyText msg_bad_time None]).
Proof.
  assert (Hd : is_Some (user_data (run demo fresh [Text "15.06.1990"])
                          !! "birth_date"))
    by (eexists; vm_compute; reflexivity).
  assert (Et : user_data (run demo fresh [Text "15.06.1990"]) !! "birth_time"
               = None) by (vm_compute; reflexivity).
  exact (time_step demo "24:00" _ Hd Et).
Defined.

(** ** The place step and after *)

(** X9. While the place is awaited, a text that the geocoder does not
    resolve changes nothing in the session, calls nothing, and is
    answered with the city-not-found message. *)
Theorem place_not_found (env : collaborators) (text : string) (w : world) :
  stage_of (user_data w) = AwaitingPlace ->
  geocode env text = None ->
  handle_message env text w
  = (Ok tt, World (user_data w) (eph_log w)
                  (sent w ++ [ReplyText msg_no_city None])).
Proof. apply place_not_found_keeps_session. Qed.

Lemma place_not_found_witness :
  handle_message demo "Атлантида" (run demo fresh date_and_time)
  = (Ok tt,
     World (user_data (run demo fresh date_and_time)) []
           [ ReplyText prompt_time None; ReplyText prompt_place None;
             ReplyText msg_no_city None ]).
Proof.
  assert (Hs : stage_of (user_data (run demo fresh date_and_time))
               = AwaitingPlace) by (vm_compute; reflexivity).
  assert (Hg : geocode demo "Атлантида" = None) by (vm_compute; reflexivity).
  exact (place_not_found demo "Атлантида" _ Hs Hg).
Defined.

(** X10. Once the date, the time and the place are stored, texts are
    not handled any more: however many are sent, nothing is stored,
    nothing is answered and nothing is computed. *)
Theorem texts_ignored_when_complete (env : collaborators) (w : world)
    (texts : list string) :
  birth_input_complete (user_data w) ->
  run env w (map Text texts) = w.
Proof.
  intros H. induction texts as [| text rest IH]; [reflexivity |].
  cbn [map run fold_left]. unfold step at 2. cbn [dispatch].
  rewrite handle_message_ignored by exact H. exact IH.
Qed.

Lemma texts_ignored_when_complete_witness :
  run demo (run demo fresh moscow_session) (map Text ["Рейкьявик"; "09:00"])
  = run demo fresh moscow_session.
Proof.
  assert (H : birth_input_complete (user_data (run demo fresh moscow_session))).
  { repeat split; eexists; vm_compute; reflexivity. }
  exact (texts_ignored_when_complete demo _ ["Рейкьявик"; "09:00"] H).
Defined.

(** X11. A date of a year below 1000 passes validate_date, and then
    every place that resolves fails: the year is printed with fewer
    than four digits, strptime in calculate_planet_positions does not
    take it, the message of strptime is the answer, the ephemeris is
    not called, and the coordinates stay stored without a chart. *)
Theorem place_step_before_year_1000 (env : collaborators) (text : string)
    (w : world) (d : datetime) (h mi : Z) (lat lon : Q) :
  user_data w !! "birth_date" = Some (VDate d) ->
  user_data w !! "birth_time" = Some (VTime (h, mi)) ->
  user_data w !! "birth_place" = None ->
  0 <= year d <= 999 ->
  geocode env text = Some (lat, lon) ->
  handle_message env text w
  = (Ok tt,
     World (<["birth_place" := VPlace (lat, lon)]> (user_data w)) (eph_log w)
           (sent w ++
            [ReplyText
               (msg_no_match (date_str (year d) (month d) (day d) h mi)
                             planets_format) None])).
Proof.
  intros Ed Et Ep Hy Hg.
  rewrite (handle_message_place env text w d h mi lat lon Ed Et Ep Hg).
  unfold try_except, chart_step. unfold bind at 1.
  rewrite calculate_planet_positions_year_below_1000 by exact Hy.
  reflexivity.
Qed.

Lemma place_step_before_year_1000_witness :
  validate_date "01.01.0999" = Ok (DateTime 999 1 1 0 0 0) /\
  stage_of (user_data
              (snd (handle_message demo "Москва"
                      (run demo fresh [Text "01.01.0999"; Text "08:45"]))))
  = PlaceWithoutChart.
Proof.
  split; [reflexivity |].
  set (w := run demo fresh [Text "01.01.0999"; Text "08:45"]).
  assert (Ed : user_data w !! "birth_date" = Some (VDate (DateTime 999 1 1 0 0 0)))
    by (vm_compute; reflexivity).
  assert (Et : user_data w !! "birth_time" = Some (VTime (8, 45)))
    by (vm_compute; reflexivity).
  assert (Ep : user_data w !! "birth_place" = None) by (vm_compute; reflexivity).
  assert (Hg : geocode demo "Москва" = Some moscow) by (vm_compute; reflexivity).
  rewrite (place_step_before_year_1000 demo "Москва" w _ 8 45 _ _ Ed Et Ep
             ltac:(cbn; lia) Hg).
  vm_compute. reflexivity.
Defined.

(** ** What the chart holds *)

Lemma planets_NoDup : List.NoDup planets.
Proof.
  apply NoDup_ListNoDup. apply (bool_decide_unpack _). vm_compute. exact I.
Qed.

Lemma planet_loop_chart (env : collaborators) (jd : Q) (names : list string) :
  forall i acc w chart w',
    planet_loop env jd i names acc w = (Ok chart, w') ->
    List.NoDup names ->
    (forall k name, nth_error names k = Some name ->
       exists s description,
         get_zodiac_sign (calc_ut env jd (i + Z.of_nat k)) = Ok s /\
         get_planet_description env name s = Ok description /\
         chart !! name
         = Some (Position (calc_ut env jd (i + Z.of_nat k)) s description)) /\
    (forall name, ~ In name names -> chart !! name = acc !! name) /\
    w' = World (user_data w)
               (eph_log w ++ map (CalcUt jd) (indexes_from i (List.length names)))
               (sent w).
Proof.
  induction names as [| name rest IH]; intros i acc w chart w' Hrun Hnd.
  - cbn in Hrun. injection Hrun as <- <-. split; [| split].
    + intros [| k] n Hn; discriminate Hn.
    + reflexivity.
    + cbn. rewrite app_nil_r. now destruct w.
  - cbn [planet_loop] in Hrun.
    unfold bind at 1 in Hrun. unfold ephemeris at 1 in Hrun.
    rewrite bind_lift in Hrun.
    destruct (get_zodiac_sign (calc_ut env jd i)) as [s | e] eqn:Es;
      [| discriminate Hrun].
    rewrite bind_lift in Hrun.
    destruct (get_planet_description env name s) as [text | e] eqn:Et;
      [| discriminate Hrun].
    apply List.NoDup_cons_iff in Hnd as [Hnotin Hnd].
    apply IH in Hrun as (Hk & Hother & ->); [| exact Hnd].
    split; [| split].
    + intros [| k] n Hn.
      * cbn in Hn. injection Hn as <-.
        exists s, text. rewrite Z.add_0_r. split; [exact Es |].
        split; [exact Et |].
        rewrite (Hother name Hnotin). apply lookup_insert_eq.
      * cbn in Hn. destruct (Hk k n Hn) as (s' & text' & E1 & E2 & E3).
        replace (i + Z.of_nat (S k)) with (i + 1 + Z.of_nat k) by lia.
        exists s', text'. repeat split; assumption.
    + intros n Hn. rewrite Hother by (intros X; apply Hn; now right).
      apply lookup_insert_ne. intros ->. apply Hn. now left.
    + cbn [user_data eph_log sent List.length indexes_from map].
      now rewrite <- app_assoc.
Qed.

(** X12. When calculate_planet_positions returns, its dictionary has
    the ten bodies and nothing else; each body has the longitude the
    ephemeris gave for its index, the sign that get_zodiac_sign gives
    for that longitude and the description that
    get_planet_description returned for that body and sign.  The session and the messages are as before, the
    ephemeris has got the observer and the ten calls, in order. *)
Theorem planet_positions_chart (env : collaborators)
    (y m d h mi : Z) (lat lon : Q) (w w' : world)
    (chart : gmap string position) :
  calculate_planet_positions env y m d h mi lat lon w = (Ok chart, w') ->
  exists dt,
    strptime (date_str y m d h mi) planets_format = Ok dt /\
    (forall k name, nth_error planets k = Some name ->
       exists s description,
         get_zodiac_sign (calc_ut env (julday_of env dt) (Z.of_nat k)) = Ok s /\
         get_planet_description env name s = Ok description /\
         chart !! name
         = Some (Position (calc_ut env (julday_of env dt) (Z.of_nat k)) s
                          description)) /\
    (forall name, is_Some (chart !! name) -> In name planets) /\
    w' = World (user_data w)
               (eph_log w ++ SetTopo lon lat 0
                  :: map (CalcUt (julday_of env dt)) body_indexes)
               (sent w).
Proof.
  unfold calculate_planet_positions. fold (date_str y m d h mi).
  fold planets_format. rewrite bind_lift.
  destruct (strptime (date_str y m d h mi) planets_format) as [dt | e];
    [| discriminate].
  unfold bind at 1. unfold ephemeris at 1. intros Hrun.
  apply planet_loop_chart in Hrun as (Hk & Hother & ->); [| apply planets_NoDup].
  exists dt. split; [reflexivity |]. split; [| split].
  - intros k name Hn. destruct (Hk k name Hn) as (s & text & E1 & E2 & E3).
    rewrite Z.add_0_l in E1, E3. eauto.
  - intros name [p Hp].
    destruct (in_dec string_dec name planets) as [Hin | Hnot]; [exact Hin |].
    rewrite (Hother name Hnot), lookup_empty in Hp. discriminate.
  - cbn [user_data eph_log sent]. rewrite <- app_assoc. reflexivity.
Qed.

Lemma planet_positions_chart_witness :
  exists chart w',
    calculate_planet_positions demo 1990 6 15 8 45 (fst moscow) (snd moscow)
                               fresh = (Ok chart, w') /\
    forall name, is_Some (chart !! name) -> In name planets.
Proof.
  destruct (calculate_planet_positions demo 1990 6 15 8 45 (fst moscow)
              (snd moscow) fresh) as [r w'] eqn:E.
  assert (Hr : exists chart, r = Ok chart).
  { apply (f_equal fst) in E. cbn [fst] in E. rewrite <- E.
    eexists. vm_compute. reflexivity. }
  destruct Hr as [chart ->]. exists chart, w'. split; [reflexivity |].
  destruct (planet_positions_chart demo _ _ _ _ _ _ _ _ _ _ E)
    as (dt & _ & _ & Hdom & _).
  exact Hdom.
Defined.

(** ** Buttons without a chart *)

(** X13. A button pressed when the session does not hold what it
    selects (no chart, no ascendant, or a label that is not in the
    chart) makes button_callback raise KeyError for the missing key,
    after the query is answered and before anything else is sent; the
    session stays as it was. *)
Theorem button_callback_missing_key (data key : string) (w : world) :
  data <> "new_chart" ->
  missing_key (user_data w) data = Some key ->
  button_callback data w
  = (Raise (KeyError key),
     World (user_data w) (eph_log w) (sent w ++ [AnswerQuery])).
Proof.
  intros Hnew Hmiss. unfold button_callback.
  rewrite (eqb_new_chart_false data Hnew). rewrite bind_send.
  unfold missing_key in Hmiss.
  destruct (String.eqb data "Асцендент").
  - destruct (user_data w !! "ascendant") as [v |] eqn:E; [discriminate |].
    injection Hmiss as <-.
    unfold bind, get_item. cbn [user_data]. rewrite E. reflexivity.
  - destruct (user_data w !! "nat_chart") as [[| | | chart |] |] eqn:E;
      try discriminate.
    + destruct (chart !! data) eqn:Ec; [discriminate |]. injection Hmiss as <-.
      unfold bind, get_item. cbn [user_data]. rewrite E. cbn. rewrite Ec.
      reflexivity.
    + injection Hmiss as <-.
      unfold bind, get_item. cbn [user_data]. rewrite E. reflexivity.
Qed.

Lemma button_callback_missing_key_witness :
  button_callback "Солнце" fresh
  = (Raise (KeyError "nat_chart"), World ∅ [] [AnswerQuery]).
Proof.
  assert (Hn : "Солнце" <> "new_chart") by discriminate.
  assert (Hm : missing_key (user_data fresh) "Солнце" = Some "nat_chart")
    by reflexivity.
  exact (button_callback_missing_key "Солнце" "nat_chart" fresh Hn Hm).
Defined.

(** ** A session after "new chart" *)

Lemma session_only_pure {A : Type} (m : M A) (r : world -> result A) :
  (forall ud log1 out1 log2 out2,
     r (World ud log1 out1) = r (World ud log2 out2)) ->
  (forall w, m w = (r w, w)) -> session_only m.
Proof.
  intros Hr Hm ud. exists (r (World ud [] [])), ud, [], [].
  intros log out. rewrite Hm, !app_nil_r. f_equal. apply Hr.
Qed.

Lemma session_only_ret {A : Type} (a : A) : session_only (ret a).
Proof. now apply (session_only_pure _ (fun _ => Ok a)). Qed.

Lemma session_only_raise {A : Type} (e : exn) : session_only (@raise A e).
Proof. now apply (session_only_pure _ (fun _ => Raise e)). Qed.

Lemma session_only_lift {A : Type} (r : result A) : session_only (lift r).
Proof. now apply (session_only_pure _ (fun _ => r)). Qed.

Lemma session_only_contains (key : string) : session_only (contains key).
Proof.
  now apply (session_only_pure _
    (fun w => Ok (bool_decide (is_Some (user_data w !! key))))).
Qed.

Lemma session_only_get_item (key : string) : session_only (get_item key).
Proof.
  apply (session_only_pure _
    (fun w => match user_data w !! key with
              | Some v => Ok v
              | None => Raise (KeyError key)
              end)); [reflexivity |].
  intros w. unfold get_item. now destruct (user_data w !! key).
Qed.

Lemma session_only_set_item (key : string) (v : value) :
  session_only (set_item key v).
Proof.
  intros ud. exists (Ok tt), (<[key := v]> ud), [], [].
  intros log out. unfold set_item. cbn. now rewrite !app_nil_r.
Qed.

Lemma session_only_clear : session_only clear.
Proof.
  intros ud. exists (Ok tt), ∅, [], [].
  intros log out. unfold clear. cbn. now rewrite !app_nil_r.
Qed.

Lemma session_only_ephemeris (c : eph_call) : session_only (ephemeris c).
Proof.
  intros ud. exists (Ok tt), ud, [c], [].
  intros log out. unfold ephemeris. cbn. now rewrite app_nil_r.
Qed.

Lemma session_only_send (msg : message) : session_only (send msg).
Proof.
  intros ud. exists (Ok tt), ud, [], [msg].
  intros log out. unfold send. cbn. now rewrite app_nil_r.
Qed.

Lemma session_only_bind {A B : Type} (m : M A) (k : A -> M B) :
  session_only m -> (forall a, session_only (k a)) -> session_only (bind m k).
Proof.
  intros Hm Hk ud. destruct (Hm ud) as (r & ud1 & c1 & m1 & E1).
  destruct r as [a | e].
  - destruct (Hk a ud1) as (r2 & ud2 & c2 & m2 & E2).
    exists r2, ud2, (c1 ++ c2), (m1 ++ m2). intros log out.
    unfold bind. rewrite E1, E2, !app_assoc. reflexivity.
  - exists (Raise e), ud1, c1, m1. intros log out.
    unfold bind. now rewrite E1.
Qed.

Lemma session_only_try_except {A : Type} (body : M A) (handler : string -> M A) :
  session_only body -> (forall e, session_only (handler e)) ->
  session_only (try_except body handler).
Proof.
  intros Hb Hh ud. destruct (Hb ud) as (r & ud1 & c1 & m1 & E1).
  destruct r as [a | [msg | | key | | dberr]].
  2:{ destruct (Hh msg ud1) as (r2 & ud2 & c2 & m2 & E2).
      exists r2, ud2, (c1 ++ c2), (m1 ++ m2). intros log out.
      unfold try_except. rewrite E1, E2, !app_assoc. reflexivity. }
  all: eexists _, ud1, c1, m1; intros log out;
    unfold try_except; rewrite E1; reflexivity.
Qed.

Lemma session_only_conversions (v : value) :
  session_only (as_date v) /\ session_only (as_pair_Z v) /\
  session_only (as_pair_Q v) /\ session_only (as_chart v) /\
  session_only (as_position v).
Proof.
  destruct v; cbn;
    repeat split; first [apply session_only_ret | apply session_only_raise].
Qed.

Ltac session_only_step :=
  first
    [ apply (proj1 (session_only_conversions _))
    | apply (proj1 (proj2 (session_only_conversions _)))
    | apply (proj1 (proj2 (proj2 (session_only_conversions _))))
    | apply (proj1 (proj2 (proj2 (proj2 (session_only_conversions _)))))
    | apply (proj2 (proj2 (proj2 (proj2 (session_only_conversions _)))))
    | apply session_only_ret | apply session_only_raise
    | apply session_only_lift | apply session_only_contains
    | apply session_only_get_item | apply session_only_set_item
    | apply session_only_clear | apply session_only_ephemeris
    | apply session_only_send
    | apply session_only_bind; [| intros ?]
    | apply session_only_try_except; [| intros ?]
    | match goal with
      | |- session_only (if ?b then _ else _) => destruct b
      | |- session_only (match ?x with _ => _ end) => destruct x
      | |- session_only (let (_, _) := ?x in _) => destruct x
      end ].

Section SessionOnly.

Variable env : collaborators.

Lemma session_only_planet_loop (jd : Q) (names : list string) :
  forall i acc, session_only (planet_loop env jd i names acc).
Proof.
  induction names as [| name rest IH]; intros i acc; cbn [planet_loop].
  - apply session_only_ret.
  - repeat first [ apply IH | session_only_step ].
Qed.

Lemma session_only_planets y m d h mi lat lon :
  session_only (calculate_planet_positions env y m d h mi lat lon).
Proof.
  unfold calculate_planet_positions.
  repeat first [ apply session_only_planet_loop | session_only_step ].
Qed.

Lemma session_only_ascendant y m d h mi lat lon :
  session_only (calculate_ascendant env y m d h mi lat lon).
Proof. unfold calculate_ascendant. repeat session_only_step. Qed.

Lemma session_only_handle_message (text : string) :
  session_only (handle_message env text).
Proof.
  unfold handle_message.
  repeat first [ apply session_only_planets | apply session_only_ascendant
               | session_only_step ].
Qed.

Lemma session_only_button_callback (data : string) :
  session_only (button_callback data).
Proof.
  unfold button_callback, send_planet_buttons. repeat session_only_step.
Qed.

Lemma session_only_dispatch (u : update) : session_only (dispatch env u).
Proof.
  destruct u; cbn [dispatch].
  - apply session_only_handle_message.
  - unfold start. apply session_only_send.
  - unfold next. apply session_only_send.
  - apply session_only_button_callback.
Qed.

Lemma run_session_only (us : list update) :
  forall ud, exists ud' calls msgs, forall log out,
    run env (World ud log out) us = World ud' (log ++ calls) (out ++ msgs).
Proof.
  induction us as [| u us IH]; intros ud.
  - exists ud, [], []. intros log out. cbn. now rewrite !app_nil_r.
  - destruct (session_only_dispatch u ud) as (r & ud1 & c1 & m1 & E1).
    destruct (IH ud1) as (ud2 & c2 & m2 & E2).
    exists ud2, (c1 ++ c2), (m1 ++ m2). intros log out.
    cbn [run fold_left]. unfold step at 2. rewrite E1. cbn [snd].
    change (fold_left (step env) us ?x) with (run env x us).
    rewrite E2, !app_assoc. reflexivity.
Qed.

End SessionOnly.

(** X14. The button "new chart" empties the session whatever it held,
    and from there the conversation goes as from a fresh session: the
    same updates lead to the same session, the same calls to the
    ephemeris and the same messages, after those of the past. *)
Theorem new_chart_like_fresh (env : collaborators) (w : world)
    (us : list update) :
  let reset := step env w (Callback "new_chart") in
  let anew := run env fresh us in
  reset = World ∅ (eph_log w)
                (sent w ++ [AnswerQuery; ReplyText prompt_date None]) /\
  run env reset us
  = World (user_data anew) (eph_log reset ++ eph_log anew)
          (sent reset ++ sent anew).
Proof.
  intros reset anew.
  assert (E : reset = World ∅ (eph_log w)
                (sent w ++ [AnswerQuery; ReplyText prompt_date None])).
  { unfold reset, step. cbn [dispatch]. unfold button_callback.
    rewrite bind_send, String.eqb_refl, bind_send. unfold clear.
    cbn [snd user_data eph_log sent]. now rewrite <- app_assoc. }
  split; [exact E |].
  destruct (run_session_only env us ∅) as (ud' & calls & msgs & H).
  unfold anew, fresh. rewrite (H [] []). cbn [user_data eph_log sent app].
  rewrite E. cbn [eph_log sent]. apply H.
Qed.

(** ** One text, one answer *)

Lemma keeps_sent_bind {A B : Type} (m : M A) (k : A -> M B) :
  keeps_sent m -> (forall a, keeps_sent (k a)) -> keeps_sent (bind m k).
Proof.
  intros Hm Hk w. unfold bind. specialize (Hm w).
  destruct (m w) as [[a | e] w1]; simpl in *.
  - rewrite Hk. exact Hm.
  - exact Hm.
Qed.

Lemma keeps_sent_read (key : string) {A : Type} (conv : value -> M A) :
  (forall v, keeps_sent (conv v)) -> keeps_sent (bind (get_item key) conv).
Proof.
  intros H. apply keeps_sent_bind; [| exact H].
  intros w. unfold get_item. now destruct (user_data w !! key).
Qed.

Lemma keeps_sent_planet_loop (env : collaborators) jd names :
  forall i acc, keeps_sent (planet_loop env jd i names acc).
Proof.
  induction names as [| name rest IH]; intros i acc.
  - intros w. reflexivity.
  - simpl. apply keeps_sent_bind; [intros w; reflexivity |].
    intros _. apply keeps_sent_bind; [intros w; reflexivity |].
    intros s. apply keeps_sent_bind;
      [intros w; unfold lift; now destruct (get_planet_description _ _ _) |].
    intros text. apply IH.
Qed.

Lemma keeps_sent_planets (env : collaborators) y m d h mi lat lon :
  keeps_sent (calculate_planet_positions env y m d h mi lat lon).
Proof.
  unfold calculate_planet_positions.
  apply keeps_sent_bind; [intros w; reflexivity |].
  intros dt. apply keeps_sent_bind; [intros w; reflexivity |].
  intros _. apply keeps_sent_planet_loop.
Qed.

Lemma keeps_sent_ascendant (env : collaborators) y m d h mi lat lon :
  keeps_sent (calculate_ascendant env y m d h mi lat lon).
Proof.
  unfold calculate_ascendant.
  apply keeps_sent_bind; [intros w; reflexivity |].
  intros [zone |]; [| intros w; reflexivity].
  apply keeps_sent_bind; [intros w; reflexivity |].
  intros dt. apply keeps_sent_bind; [intros w; reflexivity |].
  intros _. apply keeps_sent_bind; [intros w; reflexivity |].
  intros s w. reflexivity.
Qed.

Lemma answers_after_keeps {A : Type} (m : M A) (k : A -> M unit) :
  keeps_sent m -> (forall a, answers_on_return (k a)) ->
  answers_on_return (bind m k).
Proof.
  intros Hm Hk w. unfold bind. specialize (Hm w).
  destruct (m w) as [[a | e] w1]; simpl in *.
  - specialize (Hk a w1). destruct (k a w1) as [[u | e] w2];
      rewrite <- Hm; exact Hk.
  - exact Hm.
Qed.

Lemma answers_reply (text : string) (markup : option keyboard) :
  answers_on_return (send (ReplyText text markup)).
Proof. intros w. cbn. eauto. Qed.

(** What handle_message shows of a body that answers when it returns:
    the ValueError of the body is answered too, any other exception
    leaves without an answer. *)
Lemma try_except_answers (body : M unit) (w : world) :
  answers_on_return body ->
  match try_except body (fun e => send (ReplyText e None)) w with
  | (Ok _, w') =>
      exists text markup, sent w' = sent w ++ [ReplyText text markup]
  | (Raise e, w') => (forall msg, e <> ValueError msg) /\ sent w' = sent w
  end.
Proof.
  intros H. specialize (H w). unfold try_except.
  destruct (body w) as [[u | [msg | | key | | dberr]] w1]; cbn.
  - exact H.
  - rewrite H. eauto.
  - split; [discriminate | exact H].
  - split; [discriminate | exact H].
  - split; [discriminate | exact H].
  - split; [discriminate | exact H].
Qed.

Lemma handle_message_branch (env : collaborators) (text : string) (w : world) :
  ~ birth_input_complete (user_data w) ->
  exists body,
    answers_on_return body /\
    handle_message env text w
    = try_except body (fun e => send (ReplyText e None)) w.
Proof.
  intros Hnc. unfold handle_message.
  destruct (user_data w !! "birth_date") as [vd |] eqn:Ed.
  2:{ eexists. split; [| unfold try_except; rewrite bind_contains, Ed;
        rewrite bool_decide_eq_false_2 by (intros [? ?]; discriminate);
        cbn [negb]; reflexivity].
      apply answers_after_keeps; [intros ?; reflexivity |].
      intros d. apply answers_after_keeps; [intros ?; reflexivity |].
      intros _. apply answers_reply. }
  destruct (user_data w !! "birth_time") as [vt |] eqn:Et.
  2:{ eexists. split; [| unfold try_except; rewrite bind_contains, Ed;
        rewrite bool_decide_eq_true_2 by eauto; cbn [negb];
        rewrite bind_contains, Et;
        rewrite bool_decide_eq_false_2 by (intros [? ?]; discriminate);
        cbn [negb]; reflexivity].
      apply answers_after_keeps; [intros ?; reflexivity |].
      intros [h m]. apply answers_after_keeps; [intros ?; reflexivity |].
      intros _. apply answers_reply. }
  destruct (user_data w !! "birth_place") as [vp |] eqn:Ep.
  { exfalso. apply Hnc. unfold birth_input_complete.
    rewrite Ed, Et, Ep. eauto. }
  eexists. split; [| unfold try_except; rewrite bind_contains, Ed;
    rewrite bool_decide_eq_true_2 by eauto; cbn [negb];
    rewrite bind_contains, Et;
    rewrite bool_decide_eq_true_2 by eauto; cbn [negb];
    rewrite bind_contains, Ep;
    rewrite bool_decide_eq_false_2 by (intros [? ?]; discriminate);
    cbn [negb]; reflexivity].
  apply answers_after_keeps; [intros ?; reflexivity |].
  intros [lat lon]. apply answers_after_keeps; [intros ?; reflexivity |].
  intros _. apply answers_after_keeps;
    [apply keeps_sent_read; intros v ?; now destruct v |].
  intros birth_date. apply answers_after_keeps;
    [apply keeps_sent_read; intros v ?; now destruct v |].
  intros [h m]. apply answers_after_keeps;
    [apply keeps_sent_read; intros v ?; now destruct v |].
  intros [lat' lon']. apply answers_after_keeps; [apply keeps_sent_planets |].
  intros chart. apply answers_after_keeps; [apply keeps_sent_ascendant |].
  intros [deg sign]. apply answers_after_keeps; [intros ?; reflexivity |].
  intros _. apply answers_after_keeps;
    [intros ?; unfold lift; now destruct (get_planet_description _ _ _) |].
  intros description. apply answers_after_keeps; [intros ?; reflexivity |].
  intros _. apply answers_reply.
Qed.

(** X15. handle_message never lets a ValueError out.  While a field of
    the birth input is missing, a text that is handled to the end gets
    exactly one message in answer; an exception of another kind leaves
    without an answer.  With the three fields stored there is no
    answer and no change. *)
Theorem handle_message_answers (env : collaborators) (text : string)
    (w : world) :
  match handle_message env text w with
  | (Ok _, w') =>
      (birth_input_complete (user_data w) /\ w' = w) \/
      (~ birth_input_complete (user_data w) /\
       exists reply markup, sent w' = sent w ++ [ReplyText reply markup])
  | (Raise e, w') => (forall msg, e <> ValueError msg) /\ sent w' = sent w
  end.
Proof.
  destruct (user_data w !! "birth_date") as [vd |] eqn:Ed;
    [destruct (user_data w !! "birth_time") as [vt |] eqn:Et;
     [destruct (user_data w !! "birth_place") as [vp |] eqn:Ep |] |].
  1:{ rewrite handle_message_ignored
        by (unfold birth_input_complete; rewrite Ed, Et, Ep; eauto).
      left. split; [| reflexivity].
      unfold birth_input_complete. rewrite Ed, Et, Ep. eauto. }
  all: assert (Hnc : ~ birth_input_complete (user_data w))
         by (intros ([? X] & [? Y] & [? Z]); congruence);
       destruct (handle_message_branch env text w Hnc) as (body & Hb & ->);
       pose proof (try_except_answers body w Hb) as T;
       destruct (try_except body _ w) as [[u | e] w']; [right; eauto | exact T].
Qed.

(** ** The keys of the session *)

Lemma known_keys_insert (ud : gmap string value) (k : string) (v : value) :
  In k session_keys ->
  (forall key, is_Some (ud !! key) -> In key session_keys) ->
  forall key, is_Some (<[k := v]> ud !! key) -> In key session_keys.
Proof.
  intros Hk Hud key H. destruct (decide (k = key)) as [<- | Hne]; [exact Hk |].
  rewrite lookup_insert_ne in H by exact Hne. now apply Hud.
Qed.

Lemma known_keys_step (env : collaborators) (w : world) (u : update) :
  (forall key, is_Some (user_data w !! key) -> In key session_keys) ->
  forall key, is_Some (user_data (step env w u) !! key) -> In key session_keys.
Proof.
  intros Hud. unfold step. destruct u as [text | | | data]; cbn [dispatch].
  - destruct (handle_message_session env text w)
      as [E | [(_ & d & _ & E) | [(_ & _ & hm & _ & E)
         | (_ & _ & _ & ll & _
            & [E | [(chart & sign & e & _ & E) | (chart & p & E)]])]]];
      rewrite E; try exact Hud;
      repeat (apply known_keys_insert; [cbn; tauto |]); exact Hud.
  - exact Hud.
  - exact Hud.
  - rewrite button_callback_session.
    destruct (String.eqb data "new_chart"); [| exact Hud].
    intros key [v H]. rewrite lookup_empty in H. discriminate.
Qed.

(** X16. Whatever the updates, the session holds nothing under any
    key but the five that the handlers write: the date, the time and
    the place of birth, the chart and the ascendant. *)
Theorem session_holds_known_keys (env : collaborators) (us : list update)
    (key : string) :
  is_Some (user_data (run env fresh us) !! key) -> In key session_keys.
Proof.
  assert (G : forall w,
             (forall k, is_Some (user_data w !! k) -> In k session_keys) ->
             forall k, is_Some (user_data (run env w us) !! k) ->
                       In k session_keys).
  { induction us as [| u us IH]; intros w Hw; [exact Hw |].
    cbn [run fold_left]. apply IH. now apply known_keys_step. }
  apply G. intros k [v H]. cbn in H. rewrite lookup_empty in H. discriminate.
Qed.

Lemma session_holds_known_keys_witness :
  is_Some (user_data (run demo fresh moscow_session) !! "ascendant") /\
  In "ascendant" session_keys.
Proof.
  assert (H : is_Some (user_data (run demo fresh moscow_session) !! "ascendant"))
    by (eexists; vm_compute; reflexivity).
  split; [exact H |].
  exact (session_holds_known_keys demo moscow_session "ascendant" H).
Defined.

(** ** The whole computation on the stand-ins *)

Lemma chart_computation_calls_witness :
  stage_of (user_data (step demo (run demo fresh date_and_time) (Text "Москва")))
  = ChartReady /\
  house_calls (eph_log (step demo (run demo fresh date_and_time) (Text "Москва")))
  = [julday_of demo (to_utc demo "Europe/Moscow" (DateTime 1990 6 15 8 45 0))].
Proof.
  set (w := run demo fresh date_and_time).
  assert (Ed : user_data w !! "birth_date" = Some (VDate (DateTime 1990 6 15 0 0 0)))
    by (vm_compute; reflexivity).
  assert (Et : user_data w !! "birth_time" = Some (VTime (8, 45)))
    by (vm_compute; reflexivity).
  assert (Ep : user_data w !! "birth_place" = None) by (vm_compute; reflexivity).
  assert (Vd : exists t, validate_date t = Ok (DateTime 1990 6 15 0 0 0))
    by (exists "15.06.1990"; reflexivity).
  assert (Vt : exists t, validate_time t = Ok (8, 45))
    by (exists "08:45"; reflexivity).
  assert (Hy : 1000 <= year (DateTime 1990 6 15 0 0 0)) by (cbn; lia).
  assert (Hg : geocode demo "Москва" = Some (fst moscow, snd moscow))
    by (vm_compute; reflexivity).
  assert (Hz : timezone_at demo (fst moscow) (snd moscow) = Some "Europe/Moscow")
    by (vm_compute; reflexivity).
  assert (Hb : forall b, In b body_indexes ->
             is_longitude
               (calc_ut demo (julday_of demo (DateTime 1990 6 15 8 45 0)) b)).
  { intros b Hb. unfold body_indexes in Hb. cbn [In] in Hb.
    repeat destruct Hb as [<- | Hb]; try contradiction;
      (split; [vm_compute; discriminate | vm_compute; reflexivity]). }
  assert (Ha : is_longitude
                 (houses_asc demo
                    (julday_of demo
                       (to_utc demo "Europe/Moscow" (DateTime 1990 6 15 8 45 0)))
                    (fst moscow) (snd moscow) "P")).
  { split; [vm_compute; discriminate | vm_compute; reflexivity]. }
  assert (Hdb : db_answers_on demo ("Асцендент" :: planets)).
  { intros table sign _. cbn. unfold demo_zodiac_db.
    destruct (String.eqb sign "Рыбы"); eauto. }
  destruct (chart_computation_calls demo w "Москва" _ 8 45 _ _ "Europe/Moscow"
              Ed Et Ep Vd Hy Vt Hg Hz Hb Ha Hdb) as (Hlog & _ & Hstage & _).
  split; [exact Hstage |].
  rewrite Hlog. vm_compute. reflexivity.
Defined.

(** ** The ascendant *)

(** X17. When calculate_ascendant returns, the time zone of the place
    was known, the houses were asked for once, in the Placidus system,
    at the julian day of the civil time moved to UTC, the degree is the
    ascendant the ephemeris gave and the sign is the sign of that
    degree; the session and the messages are as before. *)
Theorem ascendant_returned (env : collaborators) (y m d h mi : Z)
    (lat lon : Q) (w w' : world) (deg : Q) (sign : string) :
  calculate_ascendant env y m d h mi lat lon w = (Ok (deg, sign), w') ->
  exists zone,
    timezone_at env lat lon = Some zone /\
    mk_datetime y m d h mi 0 = Ok (DateTime y m d h mi 0) /\
    let jd := julday_of env (to_utc env zone (DateTime y m d h mi 0)) in
    deg = houses_asc env jd lat lon "P" /\
    get_zodiac_sign deg = Ok sign /\
    w' = World (user_data w) (eph_log w ++ [Houses jd lat lon "P"]) (sent w).
Proof.
  unfold calculate_ascendant, get_timezone. rewrite bind_lift.
  destruct (timezone_at env lat lon) as [zone |]; [| discriminate].
  rewrite bind_lift.
  destruct (mk_datetime y m d h mi 0) as [dt |] eqn:Emk; [| discriminate].
  destruct (mk_datetime_ok _ _ _ _ _ _ _ Emk) as (-> & _).
  unfold bind at 1. unfold ephemeris at 1. rewrite bind_lift.
  destruct (get_zodiac_sign _) as [s |] eqn:Es; [| discriminate].
  intros E. injection E as <- <- <-.
  exists zone. now repeat split.
Qed.

Lemma ascendant_returned_witness :
  exists w',
    calculate_ascendant demo 1990 6 15 8 45 (fst moscow) (snd moscow) fresh
    = (Ok (inject_Z 322, "Водолей"), w') /\
    eph_log w' = [Houses jd_utc (fst moscow) (snd moscow) "P"].
Proof.
  destruct (calculate_ascendant demo 1990 6 15 8 45 (fst moscow) (snd moscow)
              fresh) as [r w'] eqn:E.
  assert (Hr : r = Ok (inject_Z 322, "Водолей")).
  { apply (f_equal fst) in E. cbn [fst] in E. rewrite <- E.
    vm_compute. reflexivity. }
  subst r. exists w'. split; [reflexivity |].
  destruct (ascendant_returned demo _ _ _ _ _ _ _ _ _ _ _ E)
    as (zone & Hz & _ & _ & _ & ->).
  assert (zone = "Europe/Moscow") by (vm_compute in Hz; congruence).
  subst zone. vm_compute. reflexivity.
Defined.

(** ** Forward, one step at a time *)

Lemma fields_in_order_step (env : collaborators) (w : world) (u : update) :
  fields_in_order (user_data w) ->
  fields_in_order (user_data (step env w u)).
Proof.
  intros (H1 & H2 & H3). unfold step.
  destruct u as [text | | | data]; cbn [dispatch]; try (now repeat split).
  - destruct (handle_message_session env text w)
      as [E | [(Ed & d & _ & E) | [(Hd & Et & hm & _ & E)
         | (Hd & Ht & Ep & ll & _
            & [E | [(chart & sign & e & _ & E) | (chart & p & E)]])]]];
      rewrite E; unfold fields_in_order; map_lookups;
      repeat split; eauto.
  - rewrite button_callback_session.
    destruct (String.eqb data "new_chart"); [| now repeat split].
    repeat split; intros [v H]; rewrite lookup_empty in H; discriminate.
Qed.

Lemma fields_in_order_run (env : collaborators) (us : list update) :
  forall w, fields_in_order (user_data w) ->
            fields_in_order (user_data (run env w us)).
Proof.
  induction us as [| u us IH]; intros w H; [exact H |].
  cbn [run fold_left]. apply IH, fields_in_order_step, H.
Qed.

Lemma fields_in_order_fresh : fields_in_order ∅.
Proof.
  repeat split; intros [v H]; rewrite lookup_empty in H; discriminate.
Qed.

(** X18. In a session reached from a fresh one, a text never takes the
    conversation back and never takes it further than the next step:
    from the date to the time, from the time to the place, from the
    place to the chart (or to the place stored without a chart). *)
Theorem text_moves_one_step (env : collaborators) (us : list update)
    (text : string) :
  let w := run env fresh us in
  let w' := step env w (Text text) in
  stage_rank (stage_of (user_data w)) <= stage_rank (stage_of (user_data w'))
  /\ stage_rank (stage_of (user_data w'))
     <= stage_rank (stage_of (user_data w)) + 1.
Proof.
  intros w w'.
  pose proof (fields_in_order_run env us fresh fields_in_order_fresh)
    as (O1 & O2 & O3).
  fold w in O1, O2, O3.
  unfold w', step. cbn [dispatch].
  destruct (handle_message_session env text w)
    as [E | [(Ed & d & _ & E) | [(Hd & Et & hm & _ & E)
       | (Hd & Ht & Ep & ll & _
          & [E | [(chart & sign & e & _ & E) | (chart & p & E)]])]]];
    rewrite E.
  - lia.
  - assert (T : user_data w !! "birth_time" = None).
    { destruct (user_data w !! "birth_time") eqn:X; [| reflexivity].
      destruct O1 as [v0 Hv]; [eauto | congruence]. }
    unfold stage_of. map_lookups. rewrite Ed, T. cbn. lia.
  - assert (P : user_data w !! "birth_place" = None).
    { destruct (user_data w !! "birth_place") eqn:X; [| reflexivity].
      destruct O2 as [v0 Hv]; [eauto | congruence]. }
    destruct Hd as [vd Hd].
    unfold stage_of. map_lookups. rewrite Hd, Et, P. cbn. lia.
  - destruct Hd as [vd Hd], Ht as [vt Ht].
    unfold stage_of. map_lookups. rewrite Hd, Ht, Ep.
    destruct (user_data w !! "nat_chart"); cbn; lia.
  - destruct Hd as [vd Hd], Ht as [vt Ht].
    unfold stage_of. map_lookups. rewrite Hd, Ht, Ep. cbn. lia.
  - destruct Hd as [vd Hd], Ht as [vt Ht].
    unfold stage_of. map_lookups. rewrite Hd, Ht, Ep. cbn. lia.
Qed.
(** ** The chart and the birth input *)

(** X19. In every session reached from a fresh one, whatever the
    updates and whatever the collaborators do, a stored chart or
    ascendant comes with the three fields of the birth input, each the
    result of its validator or of the geocoder; the chart is then
    stored, the ascendant is never there without it, and when the
    database answers every query the ascendant is there with the
    chart. *)
Theorem stored_chart_has_birth_input (env : collaborators) (us : list update) :
  let ud := user_data (run env fresh us) in
  chart_held ud ->
  (exists text d, validate_date text = Ok d /\
                  ud !! "birth_date" = Some (VDate d)) /\
  (exists text hm, validate_time text = Ok hm /\
                   ud !! "birth_time" = Some (VTime hm)) /\
  (exists text ll, get_coordinates env text = Ok ll /\
                   ud !! "birth_place" = Some (VPlace ll)) /\
  (exists chart, ud !! "nat_chart" = Some (VChart chart)) /\
  (forall v, ud !! "ascendant" = Some v -> exists p, v = VPos p) /\
  (db_answers env -> exists p, ud !! "ascendant" = Some (VPos p)).
Proof.
  intros ud Hheld.
  destruct (run_session_invariant env us fresh (session_invariant_fresh env))
    as ((Fd & Ft & Fp & Fc & Fa) & Hc & Ha & Hb).
  fold ud in Fd, Ft, Fp, Fc, Fa, Hc, Ha, Hb.
  destruct (Hc Hheld) as ([vd Ed] & [vt Et] & [vp Ep]).
  assert (Hchart : is_Some (ud !! "nat_chart")).
  { destruct Hheld as [H | H]; [exact H | exact (Ha H)]. }
  destruct Hchart as [vc Ec].
  destruct (Fd vd Ed) as (text1 & d & V1 & ->).
  destruct (Ft vt Et) as (text2 & hm & V2 & ->).
  destruct (Fp vp Ep) as (text3 & ll & V3 & ->).
  destruct (Fc vc Ec) as (chart & ->).
  split; [eauto |]. split; [eauto |]. split; [eauto |]. split; [eauto |].
  split; [exact Fa |].
  intros Hdb. destruct (Hb Hdb) as [va Ea]; [eauto |].
  destruct (Fa va Ea) as (p & ->). eauto.
Qed.

Lemma stored_chart_has_birth_input_witness :
  chart_held (user_data (run demo fresh moscow_session)) /\
  exists d, user_data (run demo fresh moscow_session) !! "birth_date"
            = Some (VDate d).
Proof.
  assert (H : chart_held (user_data (run demo fresh moscow_session))).
  { left. eexists. vm_compute. reflexivity. }
  split; [exact H |].
  destruct (stored_chart_has_birth_input demo moscow_session H)
    as ((text & d & _ & E) & _).
  exists d. exact E.
Defined.
(** ** validate_date: the texts it takes *)




(** *** What a match of a piece of the regex tells *)

















(** *** The other way round: the written dates are read *)






